(** * strands-coder: the schedule evaluator and the project-board synchronizer

    A shallow embedding of [strands_coder/tools/scheduler.py] and of the
    [update_item] / [get_progress] paths of [strands_coder/tools/projects.py],
    followed by the properties of the specification that concern them.

    Conventions of the embedding.
    - A Python [str] is a [string]; each character stands for the code point
      of the same number, so the embedding covers the strings whose code
      points are below 256.  The builtins ([str.split], [str.strip], [int])
      are written out on that domain.
    - A Python exception is a value of [exn]; code that may raise returns a
      [result].  A [try ... except Exception] block is [catch].
    - A [dict] whose iteration order is observable (the job collection, a
      record handed to the dispatcher) is an association list in insertion
      order; a [dict] that is only looked up (one job) is a [gmap].
    - The remote variable store and the remote graph API are explicit state.
      GitHub holds one schedule variable for each repository:
      [Scheduler.scheduler] is the tool on the variable of the repository
      that a call addresses, [Scheduler.scheduler_at] the tool on all of
      them. *)

From Stdlib Require Import ZArith QArith Ascii String List Bool Lia.
From stdpp Require Import base option list gmap strings pretty.

Local Open Scope string_scope.
Local Open Scope Z_scope.

(** ** Exceptions *)

Inductive exn_class : Type :=
| ValueError
| ZeroDivisionError
| TypeError
| AttributeError
| KeyError
| RequestException.

(** An exception: its class and [str(e)]. *)
Record exn : Type := Exn { class : exn_class; str : string }.

Inductive result (A : Type) : Type :=
| Ok (a : A)
| Raise (e : exn).
Arguments Ok {A} a.
Arguments Raise {A} e.

Definition bind {A B : Type} (k : A -> result B) (r : result A) : result B :=
  match r with
  | Ok a => k a
  | Raise e => Raise e
  end.

#[global] Instance result_bind : MBind result := @bind.
#[global] Instance result_ret : MRet result := @Ok.

(** [try: body except Exception: handler]. *)
Definition catch {A : Type} (body : result A) (handler : exn -> A) : A :=
  match body with
  | Ok a => a
  | Raise e => handler e
  end.

Fixpoint mapM {A B : Type} (f : A -> result B) (l : list A) : result (list B) :=
  match l with
  | [] => Ok []
  | a :: l' => b ← f a; bs ← mapM f l'; Ok (b :: bs)
  end.

(** ** Python builtins on strings *)

Module Py.

(** [str.isspace] of one character, on the code points below 256. *)
Definition isspace (c : ascii) : bool :=
  let n := N_of_ascii c in
  (((9 <=? n) && (n <=? 13)) || ((28 <=? n) && (n <=? 32))
   || (n =? 133) || (n =? 160))%N.

(** The decimal digits [0]..[9]; no other code point below 256 is a
    decimal digit for [int]. *)
Definition isdigit (c : ascii) : bool :=
  let n := N_of_ascii c in ((48 <=? n) && (n <=? 57))%N.

Definition digit (c : ascii) : Z := Z.of_N (N_of_ascii c) - 48.

Fixpoint lstrip (s : string) : string :=
  match s with
  | String c r => if isspace c then lstrip r else s
  | EmptyString => EmptyString
  end.

Fixpoint rstrip (s : string) : string :=
  match s with
  | String c r =>
      match rstrip r with
      | EmptyString => if isspace c then EmptyString else String c EmptyString
      | r' => String c r'
      end
  | EmptyString => EmptyString
  end.

(** [s.strip()] *)
Definition strip (s : string) : string := rstrip (lstrip s).

(** The pieces of [s] between the characters that satisfy [is_sep],
    empty pieces included: never the empty list. *)
Fixpoint pieces (is_sep : ascii -> bool) (s : string) : list string :=
  match s with
  | String c r =>
      if is_sep c then EmptyString :: pieces is_sep r
      else match pieces is_sep r with
           | w :: ws => String c w :: ws
           | [] => [String c EmptyString]
           end
  | EmptyString => [EmptyString]
  end.

(** [s.split(sep)] for a separator of one character. *)
Definition split (sep : ascii) (s : string) : list string :=
  pieces (Ascii.eqb sep) s.

(** [s.split()]: the maximal runs of characters that are not whitespace. *)
Definition split_ws (s : string) : list string :=
  List.filter (fun w => negb (String.eqb w EmptyString)) (pieces isspace s).

(** [c in s] for one character. *)
Fixpoint contains (c : ascii) (s : string) : bool :=
  match s with
  | String d r => Ascii.eqb c d || contains c r
  | EmptyString => false
  end.

(** [s.startswith(p)] *)
Definition startswith (p s : string) : bool := String.prefix p s.

(** [s[n:]] *)
Fixpoint drop (n : nat) (s : string) : string :=
  match n, s with
  | O, _ => s
  | S n', String _ r => drop n' r
  | S _, EmptyString => EmptyString
  end.

(** [s.replace(c, t)] for one character [c]. *)
Fixpoint replace (c : ascii) (t : string) (s : string) : string :=
  match s with
  | String d r =>
      if Ascii.eqb c d then t ++ replace c t r else String d (replace c t r)
  | EmptyString => EmptyString
  end.

(** [sep.join(l)] *)
Fixpoint join (sep : string) (l : list string) : string :=
  match l with
  | [] => EmptyString
  | [w] => w
  | w :: ws => w ++ sep ++ join sep ws
  end.

(** The whitespace that [int] skips around a literal: of the code points
    below 256, the ones of [str.isspace] except U+001C to U+001F. *)
Definition int_space (c : ascii) : bool :=
  let n := N_of_ascii c in
  (((9 <=? n) && (n <=? 13)) || (n =? 32) || (n =? 133) || (n =? 160))%N.

Fixpoint skip_spaces (s : string) : string :=
  match s with
  | String c r => if int_space c then skip_spaces r else s
  | EmptyString => EmptyString
  end.

Fixpoint all_spaces (s : string) : bool :=
  match s with
  | String c r => int_space c && all_spaces r
  | EmptyString => true
  end.

(** The digits at the start of an [int] literal in base 10, a single
    underscore allowed between two digits.  Returns the value, the number of
    digits and what follows them, or [None] when an underscore is not
    followed by a digit. *)
Fixpoint digits (after_underscore : bool) (acc : Z) (n : Z) (s : string)
  : option (Z * Z * string) :=
  match s with
  | String c r =>
      if isdigit c then digits false (10 * acc + digit c) (n + 1) r
      else if Ascii.eqb c "_" then
        if after_underscore then None else digits true acc n r
      else if after_underscore then None else Some (acc, n, s)
  | EmptyString => if after_underscore then None else Some (acc, n, EmptyString)
  end.

(** [sys.get_int_max_str_digits()], CPython's default. *)
Definition int_max_str_digits : Z := 4300.

(** [str.isprintable] of one character, on the code points below 256. *)
Definition isprintable (c : ascii) : bool :=
  let n := N_of_ascii c in
  (((32 <=? n) && (n <=? 126)) || ((161 <=? n) && negb (n =? 173)))%N.

Definition double_quote : ascii := ascii_of_N 34.

Definition hex_digit (n : N) : ascii :=
  if (n <? 10)%N then ascii_of_N (48 + n) else ascii_of_N (87 + n).

(** One character of [repr(s)] between the quotes [quote]. *)
Definition escape (quote : ascii) (c : ascii) : string :=
  if Ascii.eqb c quote || Ascii.eqb c "\" then String "\" (String c EmptyString)
  else if Ascii.eqb c "009" then "\t"
  else if Ascii.eqb c "010" then "\n"
  else if Ascii.eqb c "013" then "\r"
  else if isprintable c then String c EmptyString
  else String "\" (String "x"
         (String (hex_digit (N_of_ascii c / 16))
            (String (hex_digit (N_of_ascii c mod 16)) EmptyString))).

Fixpoint escape_all (quote : ascii) (s : string) : string :=
  match s with
  | String c r => escape quote c ++ escape_all quote r
  | EmptyString => EmptyString
  end.

(** [repr(s)]: between double quotes when [s] has a single quote and no
    double quote, between single quotes otherwise. *)
Definition repr (s : string) : string :=
  let quote := if contains "'" s && negb (contains double_quote s)
               then double_quote else "'"%char in
  String quote (escape_all quote s ++ String quote EmptyString).

(** The error of [int] on a string that is no literal: the string is shown
    by the first 200 characters of its [repr]. *)
Definition invalid_literal (s : string) : exn :=
  Exn ValueError
    ("invalid literal for int() with base 10: " ++ String.substring 0 200 (repr s)).

Definition too_many_digits (n : Z) : exn :=
  Exn ValueError
    ("Exceeds the limit (4300 digits) for integer string conversion: value has "
     ++ pretty n ++ " digits; use sys.set_int_max_str_digits() to increase the limit").

(** [int(s)]: whitespace, an optional sign, the digits, whitespace.  The
    number of digits is checked before what follows them. *)
Definition int (s : string) : result Z :=
  let t := skip_spaces s in
  let '(sign, body) :=
    match t with
    | String "-" r => (-1, r)
    | String "+" r => (1, r)
    | _ => (1, t)
    end in
  if startswith "_" body then Raise (invalid_literal s)
  else
    match digits false 0 0 body with
    | Some (v, n, rest) =>
        if n =? 0 then Raise (invalid_literal s)
        else if int_max_str_digits <? n then Raise (too_many_digits n)
        else if all_spaces rest then Ok (sign * v)
        else Raise (invalid_literal s)
    | None => Raise (invalid_literal s)
    end.

(** Unpacking [a, b = l]. *)
Definition unpack2 {A : Type} (l : list A) : result (A * A) :=
  match l with
  | [a; b] => Ok (a, b)
  | [] | [_] => Raise (Exn ValueError "not enough values to unpack (expected 2)")
  | _ => Raise (Exn ValueError "too many values to unpack (expected 2)")
  end.

End Py.

(** ** Cron numerals

    The numbers of a cron field as they are written: decimal digits. *)

Module Numeral.

Fixpoint all_digits (s : string) : bool :=
  match s with
  | String c r => Py.isdigit c && all_digits r
  | EmptyString => true
  end.

(** One digit or more, within the length [int] accepts. *)
Definition is_numeral (s : string) : bool :=
  negb (String.eqb s "") && all_digits s
  && (Z.of_nat (String.length s) <=? Py.int_max_str_digits).

Fixpoint value_from (acc : Z) (s : string) : Z :=
  match s with
  | String c r => value_from (10 * acc + Py.digit c) r
  | EmptyString => acc
  end.

(** The number a numeral denotes. *)
Definition value (s : string) : Z := value_from 0 s.

End Numeral.

(** ** Words and blanks

    The strings that [str.split()] returns, and the ones it drops. *)

Module Word.

(** No character of [s] is whitespace. *)
Fixpoint no_space (s : string) : bool :=
  match s with
  | String c r => negb (Py.isspace c) && no_space r
  | EmptyString => true
  end.

(** A word: one character or more, none of them whitespace. *)
Definition is_word (s : string) : bool := negb (String.eqb s "") && no_space s.

(** Whitespace only. *)
Fixpoint is_blank (s : string) : bool :=
  match s with
  | String c r => Py.isspace c && is_blank r
  | EmptyString => true
  end.

End Word.

(** ** scheduler.py: cron expressions *)

Module Cron.

Record cron_fields : Type := {
  minute : string;
  hour : string;
  day_of_month : string;
  month : string;
  day_of_week : string
}.

Definition _parse_cron (cron_expr : string) : result cron_fields :=
  match Py.split_ws (Py.strip cron_expr) with
  | [p0; p1; p2; p3; p4] =>
      Ok {| minute := p0; hour := p1; day_of_month := p2;
            month := p3; day_of_week := p4 |}
  | _ =>
      Raise (Exn ValueError
               ("Invalid cron expression: " ++ cron_expr ++ " (expected 5 fields)"))
  end.

(** [value % step == 0] *)
Definition divisible (value step : Z) : result bool :=
  if step =? 0 then Raise (Exn ZeroDivisionError "integer modulo by zero") else Ok (value mod step =? 0).

(** [int(start) <= value <= int(end)]: a chained comparison evaluates its
    right operand only when the left comparison holds. *)
Definition in_range (start end_ : string) (value : Z) : result bool :=
  a ← Py.int start;
  if a <=? value then (b ← Py.int end_; Ok (value <=? b)) else Ok false.

Definition _cron_field_matches (field : string) (value max_value : Z)
  : result bool :=
  if String.eqb field "*" then Ok true
  else if Py.startswith "*/" field then
    step ← Py.int (Py.drop 2 field);
    divisible value step
  else if Py.contains "-" field && negb (Py.contains "/" field) then
    '(start, end_) ← Py.unpack2 (Py.split "-" field);
    in_range start end_ value
  else if Py.contains "-" field && Py.contains "/" field then
    '(range_part, step) ← Py.unpack2 (Py.split "/" field);
    '(start, end_) ← Py.unpack2 (Py.split "-" range_part);
    inside ← in_range start end_ value;
    if inside : bool then
      a ← Py.int start;
      n ← Py.int step;
      divisible (value - a) n
    else Ok false
  else if Py.contains "," field then
    vs ← mapM Py.int (Py.split "," field);
    Ok (existsb (Z.eqb value) vs)
  else
    n ← Py.int field;
    Ok (n =? value).

End Cron.

(** ** JSON values, as [json.loads] returns them *)

(** A JSON number is an integer here: a float is truthy and passed through
    exactly as an integer is by every operation below. *)
#[warnings="-register-all"]
Inductive json : Type :=
| JNull
| JBool (b : bool)
| JInt (n : Z)
| JStr (s : string)
| JList (l : list json)
| JDict (d : list (string * json)).

(** [bool(v)] *)
Definition truthy (v : json) : bool :=
  match v with
  | JNull => false
  | JBool b => b
  | JInt n => negb (n =? 0)
  | JStr s => negb (String.eqb s "")
  | JList l => match l with [] => false | _ => true end
  | JDict d => match d with [] => false | _ => true end
  end.

(** A [dict] in insertion order. *)
Module Dict.

Fixpoint lookup {V : Type} (k : string) (d : list (string * V)) : option V :=
  match d with
  | [] => None
  | (k', v) :: d' => if String.eqb k k' then Some v else lookup k d'
  end.

(** [d[k] = v]: an existing key keeps its place, a new one goes last. *)
Fixpoint set {V : Type} (k : string) (v : V) (d : list (string * V))
  : list (string * V) :=
  match d with
  | [] => [(k, v)]
  | (k', v') :: d' =>
      if String.eqb k k' then (k', v) :: d' else (k', v') :: set k v d'
  end.

(** [del d[k]] *)
Fixpoint del {V : Type} (k : string) (d : list (string * V))
  : result (list (string * V)) :=
  match d with
  | [] => Raise (Exn KeyError (Py.repr k))
  | (k', v') :: d' =>
      if String.eqb k k' then Ok d'
      else d'' ← del k d'; Ok ((k', v') :: d'')
  end.

Definition keys {V : Type} (d : list (string * V)) : list string := d.*1.

(** What every [dict] satisfies: no key twice. *)
Definition wf {V : Type} (d : list (string * V)) : Prop := NoDup (keys d).

End Dict.

(** ** datetime *)

Module DateTime.

(** A naive [datetime]. *)
Record naive : Type := {
  year : Z; month : Z; day : Z;
  hour : Z; minute : Z; second : Z; microsecond : Z
}.

(** A [datetime] with its [tzinfo]: [None], or a UTC offset in seconds. *)
Record datetime : Type := { fields : naive; tzinfo : option Z }.

Definition is_leap (y : Z) : bool :=
  (y mod 4 =? 0) && (negb (y mod 100 =? 0) || (y mod 400 =? 0)).

Definition days_before_year (y : Z) : Z :=
  let y' := y - 1 in y' * 365 + y' / 4 - y' / 100 + y' / 400.

Definition days_before_month (y m : Z) : Z :=
  nth (Z.to_nat m) [0; 0; 31; 59; 90; 120; 151; 181; 212; 243; 273; 304; 334] 0
  + (if (2 <? m) && is_leap y then 1 else 0).

(** [dt.toordinal()] *)
Definition toordinal (dt : naive) : Z :=
  days_before_year (year dt) + days_before_month (year dt) (month dt) + day dt.

(** [dt.weekday()]: Monday is 0. *)
Definition weekday (dt : naive) : Z := (toordinal dt + 6) mod 7.

(** Microseconds since the start of day 0. *)
Definition micros (dt : naive) : Z :=
  (((toordinal dt * 24 + hour dt) * 60 + minute dt) * 60 + second dt) * 1000000
  + microsecond dt.

(** One minute, in microseconds. *)
Definition minute_us : Z := 60000000.

(** [dt.replace(tzinfo=None)] *)
Definition drop_tzinfo (dt : datetime) : datetime :=
  {| fields := fields dt; tzinfo := None |}.

(** [now - dt] for a naive [now]: the [timedelta], in microseconds. *)
Definition sub (now : naive) (dt : datetime) : result Z :=
  match tzinfo dt with
  | None => Ok (micros now - micros (fields dt))
  | Some _ =>
      Raise (Exn TypeError "can't subtract offset-naive and offset-aware datetimes")
  end.

(** [td.total_seconds() / 60].  The source computes it in binary floating
    point; both divisions round monotonically and are exact at the whole
    minutes, a microsecond being far above the rounding error at these
    magnitudes, so the two comparisons of [_run_at_matches] give the same
    answers on the exact quotient. *)
Definition minutes (td : Z) : Q := (td # 1000000) / (60 # 1).

End DateTime.

(** ** scheduler.py: the job collection and the remote variable *)

Module Store.

(** One stored job: a [dict] from field name to value. *)
Abbreviation job := (gmap string json).

(** [job.get(k)] *)
Definition get (k : string) (j : job) : json := default JNull (j !! k).

(** [job.get(k, d)] *)
Definition get_or (k : string) (d : json) (j : job) : json := default d (j !! k).

(** The document kept in the [AGENT_SCHEDULES] variable: a JSON object
    whose ["jobs"], when present, maps each id to an object.  Its ["jobs"]
    and ["timezone"] keys are kept; each is absent or present. *)
Record schedules : Type := {
  jobs : option (list (string * job));
  timezone : option json
}.

(** [{"jobs": {}, "timezone": "UTC"}] *)
Definition empty_schedules : schedules :=
  {| jobs := Some []; timezone := Some (JStr "UTC") |}.

(** [schedules.get("jobs", {})] *)
Definition jobs_of (s : schedules) : list (string * job) := default [] (jobs s).

(** The content of the repository variable. *)
Inductive variable : Type :=
| Missing                      (* HTTP 404: no such variable yet *)
| Unreadable                   (* an empty value, or one that is not JSON *)
| Document (s : schedules).

(** How the remote answers a request. *)
Inductive remote : Type :=
| Up
| Rejecting (text : string)    (* an HTTP status that is not a success *)
| Down (text : string).        (* no answer: [requests] raises *)

Record world : Type := {
  content : variable;
  reads : remote;
  writes : remote;
  (** every document handed to [_save_schedules], oldest first *)
  saved : list schedules
}.

(** The outcome dictionaries [{"success": ..., "message": ...}]. *)
Record outcome : Type := { success : bool; message : string }.

(** [_get_github_variable] followed by the decoding of [_get_schedules]. *)
Definition _get_schedules (w : world) : schedules :=
  match reads w with
  | Up =>
      match content w with
      | Missing => {| jobs := None; timezone := None |}   (* json.loads("{}") *)
      | Unreadable => empty_schedules
      | Document s => s
      end
  | Rejecting _ | Down _ => empty_schedules
  end.

(** [_save_schedules]: the variable takes the document when the remote
    accepts the request. *)
Definition _save_schedules (s : schedules) (w : world) : result outcome * world :=
  let w' := {| content := content w; reads := reads w; writes := writes w;
               saved := saved w ++ [s] |} in
  match writes w with
  | Up =>
      (Ok {| success := true;
             message := match content w with
                        | Missing => "Variable AGENT_SCHEDULES created"
                        | _ => "Variable AGENT_SCHEDULES updated"
                        end |},
       {| content := Document s; reads := reads w; writes := writes w;
          saved := saved w ++ [s] |})
  | Rejecting text => (Ok {| success := false; message := text |}, w')
  | Down text => (Raise (Exn RequestException text), w')
  end.

(** The world whose variable holds the jobs [js] instead. *)
Definition with_jobs (js : list (string * job)) (w : world) : world :=
  {| content := Document {| jobs := Some js; timezone := timezone (_get_schedules w) |};
     reads := reads w; writes := writes w; saved := saved w |}.

End Store.

(** ** scheduler.py: trigger matching and the [scheduler] tool *)

Module Scheduler.
Import Store.

(** A record of the due report: a [dict] literal, keys in source order. *)
Abbreviation record := (list (string * json)).

Section WithParser.

(** [datetime.fromisoformat], of the Python standard library. *)
Variable fromisoformat : string -> result DateTime.datetime.

Definition cron_body (cron_expr : json) (dt : DateTime.naive) : result bool :=
  match cron_expr with
  | JStr text =>
      cron ← Cron._parse_cron text;
      m ← Cron._cron_field_matches (Cron.minute cron) (DateTime.minute dt) 59;
      if negb m then Ok false else
      h ← Cron._cron_field_matches (Cron.hour cron) (DateTime.hour dt) 23;
      if negb h then Ok false else
      d ← Cron._cron_field_matches (Cron.day_of_month cron) (DateTime.day dt) 31;
      if negb d then Ok false else
      mo ← Cron._cron_field_matches (Cron.month cron) (DateTime.month dt) 12;
      if negb mo then Ok false else
      let python_weekday := DateTime.weekday dt in
      let cron_weekday := (python_weekday + 1) mod 7 in
      wd ← Cron._cron_field_matches (Cron.day_of_week cron) cron_weekday 6;
      if negb wd then Ok false else
      Ok true
  | _ => Raise (Exn AttributeError "object has no attribute 'strip'")
  end.

Definition _cron_matches (cron_expr : json) (dt : DateTime.naive) : bool :=
  catch (cron_body cron_expr dt) (fun _ => false).

(** The parse of [run_at], shared by [_run_at_matches] and by the
    validation of [add]. *)
Definition parse_run_at (run_at : string) : result DateTime.datetime :=
  let run_at_str := Py.replace "Z" "+00:00" run_at in
  if negb (Py.contains "+" run_at_str)
     && negb (Py.contains "-" (Py.drop 10 run_at_str))
  then fromisoformat run_at_str
  else
    run_at_dt ← fromisoformat run_at_str;
    Ok (DateTime.drop_tzinfo run_at_dt).

Definition run_at_body (run_at : json) (now : DateTime.naive) : result bool :=
  match run_at with
  | JStr text =>
      run_at_dt ← parse_run_at text;
      delta ← DateTime.sub now run_at_dt;
      let diff_minutes := DateTime.minutes delta in
      Ok (Qle_bool (-1) diff_minutes && Qle_bool diff_minutes 60)
  | _ => Raise (Exn AttributeError "object has no attribute 'replace'")
  end.

Definition _run_at_matches (run_at : json) (now : DateTime.naive) : bool :=
  catch (run_at_body run_at now) (fun _ => false).


(** *** The tool's arguments, environment and responses *)

Record args : Type := {
  action : string;
  job_id : option string;
  cron : option string;
  run_at : option string;
  once : bool;
  prompt : option string;
  system_prompt : option string;
  tools : option string;
  model : option string;
  max_tokens : option Z;
  context : option string;
  repository : option string
}.

Record env : Type := {
  GITHUB_REPOSITORY : option string;
  PAT_TOKEN : option string;
  GITHUB_TOKEN : option string
}.

(** What the tool returns.  The markdown of a successful response is
    left out; its structured payload and every error text are kept. *)
Inductive response : Type :=
| Failure (text : string)            (* "status": "error" *)
| Completed                          (* "status": "success", text only *)
| JobsToRun (due : list record)      (* "status": "success", "jobs_to_run" *)
| JobDetail (j : job).               (* "status": "success", "job" *)

(** [bool(s)] for an optional string argument. *)
Definition given (s : option string) : bool :=
  match s with
  | Some t => negb (String.eqb t "")
  | None => false
  end.

Definition text_of (s : option string) : string := default "" s.

Definition _get_github_token (e : env) : string :=
  match PAT_TOKEN e with
  | Some t => t
  | None => default "" (GITHUB_TOKEN e)
  end.

Definition _get_repository (e : env) : string :=
  default "" (GITHUB_REPOSITORY e).

(** [v[:n]]: only a string or a list can be sliced. *)
Definition sliceable (v : json) : result unit :=
  match v with
  | JStr _ | JList _ => Ok tt
  | JNull => Raise (Exn TypeError "'NoneType' object is not subscriptable")
  | JBool _ => Raise (Exn TypeError "'bool' object is not subscriptable")
  | JInt _ => Raise (Exn TypeError "'int' object is not subscriptable")
  | JDict _ => Raise (Exn TypeError "unhashable type: 'slice'")
  end.

(** *** check *)

Definition due_record (jid : string) (j : job) : record :=
  [ ("job_id", JStr jid);
    ("prompt", get_or "prompt" (JStr "") j);
    ("system_prompt", get "system_prompt" j);
    ("tools", get "tools" j);
    ("model", get "model" j);
    ("max_tokens", get "max_tokens" j);
    ("context", get "context" j);
    ("once", get_or "once" (JBool false) j) ].

(** The [for jid, job in jobs.items()] loop, with its two accumulators. *)
Fixpoint check_loop (now : DateTime.naive) (js : list (string * job))
         (jobs_to_run : list record) (jobs_to_remove : list string)
  : list record * list string :=
  match js with
  | [] => (jobs_to_run, jobs_to_remove)
  | (jid, j) :: rest =>
      if negb (truthy (get_or "enabled" (JBool true) j))
      then check_loop now rest jobs_to_run jobs_to_remove
      else
        let cron_expr := get "cron" j in
        let by_cron := truthy cron_expr && _cron_matches cron_expr now in
        let run_at_str := get "run_at" j in
        let by_run_at := truthy run_at_str && _run_at_matches run_at_str now in
        let should_run := by_cron || by_run_at in
        let jobs_to_remove :=
          if by_run_at && truthy (get "once" j)
          then (jobs_to_remove ++ [jid])%list else jobs_to_remove in
        let jobs_to_run :=
          if should_run
          then (jobs_to_run ++ [due_record jid j])%list else jobs_to_run in
        check_loop now rest jobs_to_run jobs_to_remove
  end.

(** [for jid in jobs_to_remove: del schedules["jobs"][jid]] *)
Fixpoint del_all (ks : list string) (d : list (string * job))
  : result (list (string * job)) :=
  match ks with
  | [] => Ok d
  | k :: ks' => d' ← Dict.del k d; del_all ks' d'
  end.

(** The lines of the report: each due record's prompt is sliced. *)
Fixpoint render_due (due : list record) : result unit :=
  match due with
  | [] => Ok tt
  | r :: due' =>
      _ ← sliceable (default JNull (Dict.lookup "prompt" r));
      render_due due'
  end.

Definition check (now : DateTime.naive) (w : world) : result response * world :=
  let schedules := _get_schedules w in
  let '(jobs_to_run, jobs_to_remove) :=
    check_loop now (jobs_of schedules) [] [] in
  let '(removed, w1) :=
    match jobs_to_remove with
    | [] => (Ok tt, w)
    | _ :: _ =>
        match del_all jobs_to_remove (jobs_of schedules) with
        | Ok js' =>
            let '(r, w') :=
              _save_schedules
                {| jobs := Some js'; timezone := timezone schedules |} w in
            (_ ← r; Ok tt, w')
        | Raise e => (Raise e, w)
        end
    end in
  (_ ← removed;
   match jobs_to_run with
   | [] => Ok (JobsToRun [])
   | _ :: _ => _ ← render_due jobs_to_run; Ok (JobsToRun jobs_to_run)
   end,
   w1).

(** *** add *)

(** [if cond: job[k] = v] *)
Definition set_if (cond : bool) (k : string) (v : json) (j : job) : job :=
  if cond then <[k := v]> j else j.

(** The job that [add] stores, assignment by assignment. *)
Definition new_job (a : args) : job :=
  let j := <["enabled" := JBool true]>
             (<["prompt" := JStr (text_of (prompt a))]> ∅) in
  let j := set_if (given (cron a)) "cron" (JStr (text_of (cron a))) j in
  let j := set_if (given (run_at a)) "run_at" (JStr (text_of (run_at a))) j in
  let j := set_if (given (run_at a) && once a) "once" (JBool true) j in
  let j := set_if (given (system_prompt a)) "system_prompt"
                  (JStr (text_of (system_prompt a))) j in
  let j := set_if (given (tools a)) "tools" (JStr (text_of (tools a))) j in
  let j := set_if (given (model a)) "model" (JStr (text_of (model a))) j in
  let j := match max_tokens a with
           | Some n => set_if (negb (n =? 0)) "max_tokens" (JInt n) j
           | None => j
           end in
  set_if (given (context a)) "context" (JStr (text_of (context a))) j.

(** The validation of [cron]: [except ValueError] around [_parse_cron]. *)
Definition validate_cron (a : args) : result (option response) :=
  if given (cron a) then
    match Cron._parse_cron (text_of (cron a)) with
    | Ok _ => Ok None
    | Raise (Exn ValueError text) => Ok (Some (Failure ("Error: " ++ text)))
    | Raise e => Raise e
    end
  else Ok None.

(** The validation of [run_at]: [except ValueError] around the parse. *)
Definition validate_run_at (a : args) : result (option response) :=
  if given (run_at a) then
    match fromisoformat (Py.replace "Z" "+00:00" (text_of (run_at a))) with
    | Ok _ => Ok None
    | Raise (Exn ValueError _) =>
        Ok (Some (Failure
          "Error: Invalid run_at format. Use ISO 8601 (e.g., 2024-01-20T14:00:00Z)"))
    | Raise e => Raise e
    end
  else Ok None.

Definition add (a : args) (w : world) : result response * world :=
  if negb (given (job_id a)) then
    (Ok (Failure "Error: job_id is required"), w)
  else if negb (given (cron a)) && negb (given (run_at a)) then
    (Ok (Failure "Error: Either cron or run_at is required"), w)
  else if negb (given (prompt a)) then
    (Ok (Failure "Error: prompt is required"), w)
  else
    match validate_cron a with
    | Raise e => (Raise e, w)
    | Ok (Some refusal) => (Ok refusal, w)
    | Ok None =>
        match validate_run_at a with
        | Raise e => (Raise e, w)
        | Ok (Some refusal) => (Ok refusal, w)
        | Ok None =>
            let schedules := _get_schedules w in
            let js := jobs_of schedules in
            let js' := Dict.set (text_of (job_id a)) (new_job a) js in
            let '(r, w') :=
              _save_schedules
                {| jobs := Some js'; timezone := timezone schedules |} w in
            (result ← r;
             if negb (success result)
             then Ok (Failure ("Failed to save: " ++ message result))
             else Ok Completed,
             w')
        end
    end.

(** *** remove, enable, disable, get, list *)

Definition not_found (jid : string) : response :=
  Failure ("Job `" ++ jid ++ "` not found").

(** Saves the changed collection and reports. *)
Definition save_and_report (s : schedules) (w : world) : result response * world :=
  let '(r, w') := _save_schedules s w in
  (result ← r;
   if negb (success result)
   then Ok (Failure ("Failed to save: " ++ message result))
   else Ok Completed,
   w').

Definition remove (a : args) (w : world) : result response * world :=
  if negb (given (job_id a)) then
    (Ok (Failure "Error: job_id is required"), w)
  else
    let jid := text_of (job_id a) in
    let schedules := _get_schedules w in
    match Dict.lookup jid (jobs_of schedules) with
    | None => (Ok (not_found jid), w)
    | Some _ =>
        match Dict.del jid (jobs_of schedules) with
        | Ok js' =>
            save_and_report
              {| jobs := Some js'; timezone := timezone schedules |} w
        | Raise e => (Raise e, w)
        end
    end.

Definition toggle (enable : bool) (a : args) (w : world) : result response * world :=
  if negb (given (job_id a)) then
    (Ok (Failure "Error: job_id is required"), w)
  else
    let jid := text_of (job_id a) in
    let schedules := _get_schedules w in
    match Dict.lookup jid (jobs_of schedules) with
    | None => (Ok (not_found jid), w)
    | Some j =>
        save_and_report
          {| jobs := Some (Dict.set jid (<["enabled" := JBool enable]> j)
                                    (jobs_of schedules));
             timezone := timezone schedules |} w
    end.

Definition get_job (a : args) (w : world) : result response * world :=
  if negb (given (job_id a)) then
    (Ok (Failure "Error: job_id is required"), w)
  else
    let jid := text_of (job_id a) in
    match Dict.lookup jid (jobs_of (_get_schedules w)) with
    | None => (Ok (not_found jid), w)
    | Some j => (Ok (JobDetail j), w)
    end.

(** The listing slices each prompt, and each system prompt that is set. *)
Fixpoint render_jobs (js : list (string * job)) : result unit :=
  match js with
  | [] => Ok tt
  | (_, j) :: rest =>
      _ ← sliceable (get_or "prompt" (JStr "N/A") j);
      _ ← (if truthy (get "system_prompt" j)
           then sliceable (get "system_prompt" j) else Ok tt);
      render_jobs rest
  end.

Definition list_jobs (w : world) : result response * world :=
  (_ ← render_jobs (jobs_of (_get_schedules w)); Ok Completed, w).

(** *** The tool *)

(** The tool's [except Exception] clause. *)
Definition report (r : result response) : response :=
  catch r (fun e => Failure ("Error: " ++ str e)).

Definition unknown_action (name : string) : response :=
  Failure ("Unknown action: " ++ name
           ++ ". Valid: list, check, add, remove, enable, disable, get").

(** [scheduler(action, ...)] at the instant [now = datetime.utcnow()], on
    the [AGENT_SCHEDULES] variable [w] of the repository the call
    addresses. *)
Definition scheduler (e : env) (now : DateTime.naive) (a : args) (w : world)
  : response * world :=
  let repo := if given (repository a) then text_of (repository a)
              else _get_repository e in
  if String.eqb repo "" then
    (Failure "Error: Repository not specified and GITHUB_REPOSITORY not set", w)
  else if String.eqb (_get_github_token e) "" then
    (Failure "Error: GitHub token not available (PAT_TOKEN or GITHUB_TOKEN)", w)
  else
    let '(r, w') :=
      if String.eqb (action a) "list" then list_jobs w
      else if String.eqb (action a) "check" then check now w
      else if String.eqb (action a) "add" then add a w
      else if String.eqb (action a) "remove" then remove a w
      else if String.eqb (action a) "enable" then toggle true a w
      else if String.eqb (action a) "disable" then toggle false a w
      else if String.eqb (action a) "get" then get_job a w
      else (Ok (unknown_action (action a)), w) in
    (report r, w').

(** *** The tool on every repository *)

(** The repository a call addresses: [repository or _get_repository()]. *)
Definition repository_of (e : env) (a : args) : string :=
  if given (repository a) then text_of (repository a) else _get_repository e.

(** GitHub: the [AGENT_SCHEDULES] variable of each repository, by the name
    of the repository. *)
Definition variables : Type := string -> world.

(** [scheduler(action, ...)] on GitHub.  Every request of a call goes to
    [/repos/{repo}/actions/variables/AGENT_SCHEDULES] for the repository
    [repo] that the call addresses: the call reads and writes the variable
    of that repository, and no other. *)
Definition scheduler_at (e : env) (now : DateTime.naive) (a : args) (hub : variables)
  : response * variables :=
  let repo := repository_of e a in
  let '(r, w') := scheduler e now a (hub repo) in
  (r, fun name => if String.eqb name repo then w' else hub name).

(** *** Vocabulary for the properties *)

(** A repository and a token are at hand. *)
Definition configured (e : env) (a : args) : Prop :=
  (if given (repository a) then text_of (repository a) else _get_repository e) <> ""
  /\ _get_github_token e <> "".

Definition enabled (j : job) : bool := truthy (get_or "enabled" (JBool true) j).

Definition cron_due (now : DateTime.naive) (j : job) : bool :=
  truthy (get "cron" j) && _cron_matches (get "cron" j) now.

Definition run_at_due (now : DateTime.naive) (j : job) : bool :=
  truthy (get "run_at" j) && _run_at_matches (get "run_at" j) now.

(** The job is due at [now]. *)
Definition should_run (now : DateTime.naive) (j : job) : bool :=
  enabled j && (cron_due now j || run_at_due now j).

(** The job is retired at [now]. *)
Definition retires (now : DateTime.naive) (j : job) : bool :=
  enabled j && run_at_due now j && truthy (get "once" j).

(** The value [add] stores for an optional string argument. *)
Definition stored_text (s : option string) : option json :=
  if given s then Some (JStr (text_of s)) else None.

(** The error text of an [add] that fails one of the checks on [job_id],
    the triggers, [prompt] and the number of cron fields, in this order. *)
Definition refusal (a : args) : string :=
  if negb (given (job_id a)) then "Error: job_id is required"
  else if negb (given (cron a)) && negb (given (run_at a))
  then "Error: Either cron or run_at is required"
  else if negb (given (prompt a)) then "Error: prompt is required"
  else "Error: Invalid cron expression: " ++ text_of (cron a) ++ " (expected 5 fields)".

(** Both matchers raise inside their [try] on the triggers the job sets. *)
Definition unreadable (now : DateTime.naive) (j : job) : Prop :=
  (truthy (get "cron" j) = true -> exists x, cron_body (get "cron" j) now = Raise x)
  /\ (truthy (get "run_at" j) = true ->
      exists x, run_at_body (get "run_at" j) now = Raise x).

(** The due records of a collection, in its order. *)
Definition due_of (now : DateTime.naive) (js : list (string * job)) : list record :=
  map (fun p => due_record p.1 p.2) (List.filter (fun p => should_run now p.2) js).

(** The ids of the jobs a collection retires, in its order. *)
Definition retired_of (now : DateTime.naive) (js : list (string * job)) : list string :=
  map fst (List.filter (fun p => retires now p.2) js).

(** The response of [check] once the collection is saved, or left alone. *)
Definition answer_of (due : list record) : result response :=
  _ ← render_due due; Ok (JobsToRun due).

(** The record is the one of job [jid]. *)
Definition is_for (jid : string) (r : record) : bool :=
  match Dict.lookup "job_id" r with
  | Some (JStr s) => String.eqb s jid
  | _ => false
  end.

(** How many times a response reports job [jid] as due. *)
Definition times_reported (jid : string) (r : response) : nat :=
  match r with
  | JobsToRun due => length (List.filter (is_for jid) due)
  | _ => 0%nat
  end.

(** The prompt of a stored job is a string, as [add] stores it. *)
Definition prompt_is_text (j : job) : Prop := exists p, j !! "prompt" = Some (JStr p).

End WithParser.

End Scheduler.

(** ** A reading of ISO 8601 timestamps

    [YYYY-MM-DD], optionally followed by one separator character and
    [HH], [HH:MM] or [HH:MM:SS], optionally followed by an offset [+HH:MM]
    or [-HH:MM]; the date and the time are then checked as the [datetime]
    constructor checks them.  These are the strings that
    [datetime.isoformat] writes for whole seconds, and their shorter forms.
    It instantiates the parser where a concrete one is needed. *)

Module Iso.

(** The value of exactly [n] digits at the head of [s], and the rest. *)
Fixpoint number (n : nat) (acc : Z) (s : string) : option (Z * string) :=
  match n, s with
  | O, _ => Some (acc, s)
  | S n', String c r =>
      if Py.isdigit c then number n' (10 * acc + Py.digit c) r else None
  | S _, EmptyString => None
  end.

(** One expected character. *)
Definition expect (c : ascii) (s : string) : option string :=
  match s with
  | String d r => if Ascii.eqb c d then Some r else None
  | EmptyString => None
  end.

Definition within (lo hi v : Z) : bool := (lo <=? v) && (v <=? hi).

Definition date (s : string) : option (Z * Z * Z * string) :=
  '(y, s) ← number 4 0 s; s ← expect "-" s;
  '(m, s) ← number 2 0 s; s ← expect "-" s;
  '(d, s) ← number 2 0 s;
  Some (y, m, d, s).

Definition clock (s : string) : option (Z * Z * Z * string) :=
  '(h, s) ← number 2 0 s;
  match expect ":" s with
  | None => Some (h, 0, 0, s)
  | Some s =>
      '(mi, s) ← number 2 0 s;
      match expect ":" s with
      | None => Some (h, mi, 0, s)
      | Some s => '(sec, s) ← number 2 0 s; Some (h, mi, sec, s)
      end
  end.

Definition offset (s : string) : option (option Z) :=
  match s with
  | EmptyString => Some None
  | String c r =>
      sign ← (if Ascii.eqb c "+" then Some 1
              else if Ascii.eqb c "-" then Some (-1) else None);
      '(h, r) ← number 2 0 r; r ← expect ":" r;
      '(mi, r) ← number 2 0 r;
      if within 0 23 h && within 0 59 mi && String.eqb r ""
      then Some (Some (sign * (h * 3600 + mi * 60))) else None
  end.

Definition parse (s : string) : option DateTime.datetime :=
  '(y, m, d, s) ← date s;
  match s with
  | EmptyString =>
      Some {| DateTime.fields :=
                {| DateTime.year := y; DateTime.month := m; DateTime.day := d;
                   DateTime.hour := 0; DateTime.minute := 0;
                   DateTime.second := 0; DateTime.microsecond := 0 |};
              DateTime.tzinfo := None |}
  | String _ s =>
      '(h, mi, sec, s) ← clock s;
      tz ← offset s;
      Some {| DateTime.fields :=
                {| DateTime.year := y; DateTime.month := m; DateTime.day := d;
                   DateTime.hour := h; DateTime.minute := mi;
                   DateTime.second := sec; DateTime.microsecond := 0 |};
              DateTime.tzinfo := tz |}
  end.

Definition days_in_month (y m : Z) : Z :=
  if m =? 2 then (if DateTime.is_leap y then 29 else 28)
  else if (m =? 4) || (m =? 6) || (m =? 9) || (m =? 11) then 30
  else 31.

(** The checks of the [datetime] constructor, in its order. *)
Definition checked (dt : DateTime.datetime) : result DateTime.datetime :=
  let f := DateTime.fields dt in
  if negb (within 1 9999 (DateTime.year f)) then
    Raise (Exn ValueError ("year " ++ pretty (DateTime.year f) ++ " is out of range"))
  else if negb (within 1 12 (DateTime.month f)) then
    Raise (Exn ValueError "month must be in 1..12")
  else if negb (within 1 (days_in_month (DateTime.year f) (DateTime.month f))
                       (DateTime.day f)) then
    Raise (Exn ValueError "day is out of range for month")
  else if negb (within 0 23 (DateTime.hour f)) then
    Raise (Exn ValueError "hour must be in 0..23")
  else if negb (within 0 59 (DateTime.minute f)) then
    Raise (Exn ValueError "minute must be in 0..59")
  else if negb (within 0 59 (DateTime.second f)) then
    Raise (Exn ValueError "second must be in 0..59")
  else Ok dt.

Definition fromisoformat (s : string) : result DateTime.datetime :=
  match parse s with
  | Some dt => checked dt
  | None => Raise (Exn ValueError ("Invalid isoformat string: " ++ Py.repr s))
  end.

End Iso.

(** ** projects.py: the project board *)

Module Projects.

(** *** What the graph API returns for a project *)

Record select_option : Type := { option_id : string; option_name : string }.

(** A field node.  [options] is present on a single-select field only. *)
Record field : Type := {
  id : string;
  name : string;
  dataType : string;
  options : option (list select_option)
}.

(** A field value of an item: the name of its field and, on a
    single-select value, the name of the chosen option.  A value of a kind
    the query has no fragment for has neither. *)
Record field_value : Type := {
  value_field : option string;
  value_name : option string
}.

(** The [content] of an item: [null], or an object with or without [state]. *)
Inductive content : Type :=
| Null
| Content (state : option string).

Record item : Type := {
  isArchived : bool;
  type : string;
  item_content : option content;       (* [None]: the key is absent *)
  fieldValues : list field_value
}.

Record project : Type := {
  fields : list field;
  items : list item;
  totalCount : Z
}.

(** *** The remote *)

(** A value sent in a mutation: a string, or the number [float] read. *)
Inductive value : Type :=
| Text (s : string)
| Number (x : Q).

(** The variables of an [updateProjectV2ItemFieldValue] mutation, and the
    key of its [value] input. *)
Record mutation : Type := {
  projectId : string;
  itemId : string;
  fieldId : string;
  sent_value : value;
  value_type : string
}.

(** The answer to the project query. *)
Inductive answer : Type :=
| Failed (text : string)             (* transport failure or GraphQL errors *)
| NoNode                             (* ["node": null] *)
| Node (p : project).

Record world : Type := {
  (** the answer to the project query, by project id and items limit *)
  node : string -> Z -> answer;
  (** the error a mutation is answered with, if any *)
  refuses : mutation -> option string;
  (** the mutations sent, oldest first *)
  sent : list mutation
}.

Record env : Type := {
  PAT_TOKEN : option string;
  GITHUB_TOKEN : option string;
  STRANDS_CODER_PROJECT_ID : option string
}.

Definition _get_github_token (e : env) : string :=
  match PAT_TOKEN e with
  | Some t => t
  | None => default "" (GITHUB_TOKEN e)
  end.

Definition token_required : exn :=
  Exn ValueError
    "GitHub token is required. Set PAT_TOKEN or GITHUB_TOKEN environment variable.".

(** [_get_project]: [None] stands for Python's [None]. *)
Definition _get_project (e : env) (w : world) (project_id : string) (items_limit : Z)
  : result (option project) :=
  if String.eqb (_get_github_token e) "" then Raise token_required
  else match node w project_id items_limit with
       | Failed text => Raise (Exn RequestException text)
       | NoNode => Ok None
       | Node p => Ok (Some p)
       end.

(** [project.get(...)] on what [_get_project] returned. *)
Definition deref (p : option project) : result project :=
  match p with
  | Some p => Ok p
  | None => Raise (Exn AttributeError "'NoneType' object has no attribute 'get'")
  end.

Definition _update_item_field (e : env) (m : mutation) (w : world)
  : result unit * world :=
  if negb (existsb (String.eqb (value_type m))
             ["text"; "number"; "date"; "singleSelectOptionId"; "iterationId"])
  then (Raise (Exn ValueError
                 ("Invalid value_type: " ++ value_type m
                  ++ ". Must be one of: ['text', 'number', 'date', 'singleSelectOptionId', 'iterationId']")),
        w)
  else if String.eqb (_get_github_token e) "" then (Raise token_required, w)
  else
    let w' := {| node := node w; refuses := refuses w;
                 sent := (sent w ++ [m])%list |} in
    match refuses w m with
    | Some text => (Raise (Exn RequestException text), w')
    | None => (Ok tt, w')
    end.

(** *** The tool's responses and its prologue *)

(** The markdown of a successful response is left out. *)
Inductive response : Type :=
| Failure (text : string)            (* "status": "error" *)
| Success.                           (* "status": "success" *)

Definition given (s : option string) : bool :=
  match s with
  | Some t => negb (String.eqb t "")
  | None => false
  end.

Definition text_of (s : option string) : string := default "" s.

(** The project id the action works on: the argument, else the
    environment's; [None] when neither is set. *)
Definition resolve_project_id (e : env) (project_id : option string) : option string :=
  if given project_id then project_id
  else if given (STRANDS_CODER_PROJECT_ID e) then STRANDS_CODER_PROJECT_ID e
  else None.

Definition project_id_required : response :=
  Failure "Error: project_id is required. Set STRANDS_CODER_PROJECT_ID env var or provide project_id parameter.".

(** The tool's [except Exception] clause. *)
Definition report (r : result response) : response :=
  catch r (fun e => Failure ("Error: " ++ str e)).

(** *** update_item *)

(** [for field in fields: if field.get("name") == field_name: ...; break] *)
Fixpoint find_field (field_name : string) (fs : list field) : option field :=
  match fs with
  | [] => None
  | f :: fs' => if String.eqb (name f) field_name then Some f else find_field field_name fs'
  end.

(** [for option in options: if option.get("name") == field_value: ...; break] *)
Fixpoint find_option (field_value : string) (os : list select_option)
  : option select_option :=
  match os with
  | [] => None
  | o :: os' =>
      if String.eqb (option_name o) field_value then Some o
      else find_option field_value os'
  end.

Definition field_not_found (field_name : string) (fs : list field) : response :=
  Failure ("Field '" ++ field_name ++ "' not found. Available: "
           ++ Py.join ", " (map name fs)).

Definition option_not_found (field_value : string) (os : list select_option)
  : response :=
  Failure ("Option '" ++ field_value ++ "' not found. Available: "
           ++ Py.join ", " (map option_name os)).

(** A Python [float]: a rational, or one of [inf], [-inf] and [nan]. *)
Inductive pyfloat : Type :=
| Finite (x : Q)
| Infinity (negative : bool)
| NaN.

Section WithFloat.

(** [float], of the Python runtime: the number read from a string. *)
Variable float : string -> result pyfloat.

(** The text of the [ValueError] with which [json.dumps(..., allow_nan=False)]
    refuses a float that is not finite.  [requests] encodes the body of a
    request in this way before it sends anything, and raises
    [InvalidJSONError], a [RequestException], with that text. *)
Variable out_of_range : pyfloat -> string.

Definition update_item (e : env) (project_id : string)
           (item_id field_name field_value : option string) (w : world)
  : result response * world :=
  if negb (given item_id) || negb (given field_name)
     || match field_value with None => true | Some _ => false end
  then (Ok (Failure "Error: item_id, field_name, and field_value are required"), w)
  else
    let item_id := text_of item_id in
    let field_name := text_of field_name in
    let field_value := text_of field_value in
    match p ← _get_project e w project_id 1; deref p with
    | Raise x => (Raise x, w)
    | Ok project =>
        match find_field field_name (fields project) with
        | None => (Ok (field_not_found field_name (fields project)), w)
        | Some target_field =>
            let send v kind :=
              let '(r, w') :=
                _update_item_field e
                  {| projectId := project_id; itemId := item_id;
                     fieldId := id target_field;
                     sent_value := v; value_type := kind |} w in
              (_ ← r; Ok Success, w') in
            if String.eqb (dataType target_field) "SINGLE_SELECT" then
              let os := default [] (options target_field) in
              match find_option field_value os with
              | Some o =>
                  if String.eqb (option_id o) ""
                  then (Ok (option_not_found field_value os), w)
                  else send (Text (option_id o)) "singleSelectOptionId"
              | None => (Ok (option_not_found field_value os), w)
              end
            else if String.eqb (dataType target_field) "NUMBER" then
              match float field_value with
              | Ok (Finite x) => send (Number x) "number"
              | Ok x =>
                  (* the body of the request cannot be encoded *)
                  (Raise (Exn RequestException (out_of_range x)), w)
              | Raise x => (Raise x, w)
              end
            else if String.eqb (dataType target_field) "DATE" then
              send (Text field_value) "date"
            else
              send (Text field_value) "text"
        end
    end.

(** [projects(action="update_item", ...)] *)
Definition projects_update_item (e : env)
           (project_id item_id field_name field_value : option string) (w : world)
  : response * world :=
  match resolve_project_id e project_id with
  | None => (project_id_required, w)
  | Some pid =>
      let '(r, w') := update_item e pid item_id field_name field_value w in
      (report r, w')
  end.

End WithFloat.

(** *** get_progress *)

(** The counters of [_get_progress], and its histogram. *)
Record counters : Type := {
  issues_open : Z; issues_closed : Z;
  prs_open : Z; prs_merged : Z; prs_closed : Z;
  drafts : Z;
  archived : Z;
  status_counts : list (string * Z)
}.

(** [content.get("state", "")] on [item.get("content", {})] *)
Definition state_of (it : item) : result string :=
  match item_content it with
  | None => Ok ""
  | Some (Content s) => Ok (default "" s)
  | Some Null => Raise (Exn AttributeError "'NoneType' object has no attribute 'get'")
  end.

(** [if fv.get("field", {}).get("name") == "Status" and fv.get("name")] *)
Definition is_status (fv : field_value) : bool :=
  match value_field fv with
  | Some n => String.eqb n "Status"
  | None => false
  end && given (value_name fv).

(** The inner loop: one more for each Status value of the item. *)
Fixpoint count_status (fvs : list field_value) (h : list (string * Z))
  : list (string * Z) :=
  match fvs with
  | [] => h
  | fv :: fvs' =>
      if is_status fv then
        let k := text_of (value_name fv) in
        count_status fvs' (Dict.set k (default 0 (Dict.lookup k h) + 1) h)
      else count_status fvs' h
  end.

(** The body of [for item in items]. *)
Definition count_item (c : counters) (it : item) : result counters :=
  if isArchived it then
    Ok {| issues_open := issues_open c; issues_closed := issues_closed c;
          prs_open := prs_open c; prs_merged := prs_merged c;
          prs_closed := prs_closed c; drafts := drafts c;
          archived := archived c + 1; status_counts := status_counts c |}
  else
    c' ← (if String.eqb (type it) "ISSUE" then
            state ← state_of it;
            if String.eqb state "OPEN" then
              Ok {| issues_open := issues_open c + 1; issues_closed := issues_closed c;
                    prs_open := prs_open c; prs_merged := prs_merged c;
                    prs_closed := prs_closed c; drafts := drafts c;
                    archived := archived c; status_counts := status_counts c |}
            else
              Ok {| issues_open := issues_open c; issues_closed := issues_closed c + 1;
                    prs_open := prs_open c; prs_merged := prs_merged c;
                    prs_closed := prs_closed c; drafts := drafts c;
                    archived := archived c; status_counts := status_counts c |}
          else if String.eqb (type it) "PULL_REQUEST" then
            state ← state_of it;
            if String.eqb state "MERGED" then
              Ok {| issues_open := issues_open c; issues_closed := issues_closed c;
                    prs_open := prs_open c; prs_merged := prs_merged c + 1;
                    prs_closed := prs_closed c; drafts := drafts c;
                    archived := archived c; status_counts := status_counts c |}
            else if String.eqb state "OPEN" then
              Ok {| issues_open := issues_open c; issues_closed := issues_closed c;
                    prs_open := prs_open c + 1; prs_merged := prs_merged c;
                    prs_closed := prs_closed c; drafts := drafts c;
                    archived := archived c; status_counts := status_counts c |}
            else
              Ok {| issues_open := issues_open c; issues_closed := issues_closed c;
                    prs_open := prs_open c; prs_merged := prs_merged c;
                    prs_closed := prs_closed c + 1; drafts := drafts c;
                    archived := archived c; status_counts := status_counts c |}
          else if String.eqb (type it) "DRAFT_ISSUE" then
            Ok {| issues_open := issues_open c; issues_closed := issues_closed c;
                  prs_open := prs_open c; prs_merged := prs_merged c;
                  prs_closed := prs_closed c; drafts := drafts c + 1;
                  archived := archived c; status_counts := status_counts c |}
          else Ok c);
    Ok {| issues_open := issues_open c'; issues_closed := issues_closed c';
          prs_open := prs_open c'; prs_merged := prs_merged c';
          prs_closed := prs_closed c'; drafts := drafts c';
          archived := archived c';
          status_counts := count_status (fieldValues it) (status_counts c') |}.

Fixpoint count_items (c : counters) (its : list item) : result counters :=
  match its with
  | [] => Ok c
  | it :: its' => c' ← count_item c it; count_items c' its'
  end.

(** [for opt in status_field["options"]: status_counts[opt["name"]] = 0] *)
Fixpoint declare (os : list select_option) (h : list (string * Z))
  : list (string * Z) :=
  match os with
  | [] => h
  | o :: os' => declare os' (Dict.set (option_name o) 0 h)
  end.

(** The options of the first field named Status, when it has any. *)
Definition status_options (p : project) : list select_option :=
  match find_field "Status" (fields p) with
  | Some status_field => default [] (options status_field)
  | None => []
  end.

Definition start (p : project) : counters :=
  {| issues_open := 0; issues_closed := 0;
     prs_open := 0; prs_merged := 0; prs_closed := 0;
     drafts := 0; archived := 0;
     status_counts := declare (status_options p) [] |}.

(** The summary that [_get_progress] returns; its project and workflow
    entries, copied from the answer, are left out. *)
Record progress : Type := {
  total_items : Z; active_items : Z; archived_items : Z;
  issues : Z * Z * Z;                  (* open, closed, total *)
  pull_requests : Z * Z * Z * Z;       (* open, merged, closed, total *)
  draft_items : Z;
  by_status : list (string * Z)
}.

Definition summary (p : project) (c : counters) : progress :=
  {| total_items := totalCount p;
     active_items := totalCount p - archived c;
     archived_items := archived c;
     issues := (issues_open c, issues_closed c, issues_open c + issues_closed c);
     pull_requests := (prs_open c, prs_merged c, prs_closed c,
                       prs_open c + prs_merged c + prs_closed c);
     draft_items := drafts c;
     by_status := status_counts c |}.

Definition _get_progress (e : env) (w : world) (project_id : string)
  : result progress :=
  p ← _get_project e w project_id 100;
  project ← deref p;
  c ← count_items (start project) (items project);
  Ok (summary project c).

(** *** Repository names and bulk updates *)

(** [_parse_repository]: the two parts of [owner/repo]. *)
Definition _parse_repository (repository : string) : result (string * string) :=
  match Py.split "/" repository with
  | [owner; repo] => Ok (owner, repo)
  | _ =>
      Raise (Exn ValueError
               ("Repository must be in format 'owner/repo', got: " ++ repository))
  end.

(** The [{"success": [...], "failed": [...]}] of a bulk operation. *)
Record bulk_result : Type := { succeeded : list string; failed : list string }.

(** [_bulk_update_status]: the loop, with its two lists. *)
Fixpoint bulk_update_loop (e : env) (project_id : string) (item_ids : list string)
         (status_field_id status_option_id : string)
         (results : bulk_result) (w : world) : bulk_result * world :=
  match item_ids with
  | [] => (results, w)
  | item_id :: rest =>
      let '(r, w') :=
        _update_item_field e
          {| projectId := project_id; itemId := item_id;
             fieldId := status_field_id;
             sent_value := Text status_option_id;
             value_type := "singleSelectOptionId" |} w in
      let results' :=
        match r with
        | Ok _ =>
            {| succeeded := (succeeded results ++ [item_id])%list;
               failed := failed results |}
        | Raise x =>
            {| succeeded := succeeded results;
               failed := (failed results ++ [(item_id ++ ": " ++ str x)%string])%list |}
        end in
      bulk_update_loop e project_id rest status_field_id status_option_id results' w'
  end.

Definition _bulk_update_status (e : env) (project_id : string) (item_ids : list string)
           (status_field_id status_option_id : string) (w : world)
  : bulk_result * world :=
  bulk_update_loop e project_id item_ids status_field_id status_option_id
    {| succeeded := []; failed := [] |} w.

(** *** Vocabulary for the properties *)

Definition active (it : item) : bool := negb (isArchived it).

(** An item that is not archived, of type [ty], whose content is in state [st]. *)
Definition has_state (ty st : string) (it : item) : bool :=
  active it && String.eqb (type it) ty
  && match item_content it with
     | Some (Content (Some s)) => String.eqb s st
     | _ => false
     end.

Definition b2z (b : bool) : Z := if b then 1 else 0.

(** The classes of the progress scenario: an open issue, a closed issue, a
    merged pull request, an archived item. *)
Definition scenario_class (it : item) : bool :=
  has_state "ISSUE" "OPEN" it || has_state "ISSUE" "CLOSED" it
  || has_state "PULL_REQUEST" "MERGED" it || isArchived it.

(** The number of items of a list that satisfy [p]. *)
Definition tally (p : item -> bool) (its : list item) : Z :=
  Z.of_nat (length (List.filter p its)).

(** The Status values named [k] among field values. *)
Definition hits (k : string) (fvs : list field_value) : Z :=
  Z.of_nat (length (List.filter
                      (fun fv => is_status fv && String.eqb (text_of (value_name fv)) k)
                      fvs)).

(** The Status values named [k] on the items that are not archived. *)
Fixpoint status_hits (k : string) (its : list item) : Z :=
  match its with
  | [] => 0
  | it :: its' =>
      (if isArchived it then 0 else hits k (fieldValues it)) + status_hits k its'
  end.

(** The items on which the loop body does not raise: an issue or a pull
    request that is not archived has a content that is not null. *)
Definition readable (it : item) : bool :=
  isArchived it
  || negb (String.eqb (type it) "ISSUE" || String.eqb (type it) "PULL_REQUEST")
  || match item_content it with
     | Some Null => false
     | _ => true
     end.

(** The counters with another count of archived items. *)
Definition with_archived (n : Z) (c : counters) : counters :=
  {| issues_open := issues_open c; issues_closed := issues_closed c;
     prs_open := prs_open c; prs_merged := prs_merged c;
     prs_closed := prs_closed c; drafts := drafts c;
     archived := n; status_counts := status_counts c |}.

End Projects.

(** ** Sample data *)

Module Sample.

(** Wednesday 17 January 2024, 09:00:00. *)
Definition now : DateTime.naive :=
  {| DateTime.year := 2024; DateTime.month := 1; DateTime.day := 17;
     DateTime.hour := 9; DateTime.minute := 0; DateTime.second := 0;
     DateTime.microsecond := 0 |}.

(** The same day at another time. *)
Definition at_time (h m : Z) : DateTime.naive :=
  {| DateTime.year := 2024; DateTime.month := 1; DateTime.day := 17;
     DateTime.hour := h; DateTime.minute := m; DateTime.second := 0;
     DateTime.microsecond := 0 |}.

Definition env : Scheduler.env :=
  {| Scheduler.GITHUB_REPOSITORY := Some "octo/agent";
     Scheduler.PAT_TOKEN := Some "ghp_token";
     Scheduler.GITHUB_TOKEN := None |}.

(** A call with only the action set. *)
Definition call (action : string) : Scheduler.args :=
  {| Scheduler.action := action; Scheduler.job_id := None;
     Scheduler.cron := None; Scheduler.run_at := None; Scheduler.once := false;
     Scheduler.prompt := None; Scheduler.system_prompt := None;
     Scheduler.tools := None; Scheduler.model := None;
     Scheduler.max_tokens := None; Scheduler.context := None;
     Scheduler.repository := None |}.

(** [{"cron": "0 9 * * *", "enabled": true, "prompt": "Review open PRs"}] *)
Definition daily_review : Store.job :=
  <["cron" := JStr "0 9 * * *"]>
    (<["enabled" := JBool true]> (<["prompt" := JStr "Review open PRs"]> ∅)).

(** A one-time job that retires, set for 08:50. *)
Definition deploy : Store.job :=
  <["run_at" := JStr "2024-01-17T08:50:00Z"]>
    (<["once" := JBool true]>
       (<["enabled" := JBool true]> (<["prompt" := JStr "Deploy the release"]> ∅))).

(** A job whose triggers cannot be read. *)
Definition legacy : Store.job :=
  <["cron" := JStr "every day"]>
    (<["run_at" := JStr "tomorrow"]>
       (<["enabled" := JBool true]> (<["prompt" := JStr "Old job"]> ∅))).

(** A disabled job with a system prompt, stored under the id [weekly]. *)
Definition paused : Store.job :=
  <["system_prompt" := JStr "You are a release manager"]>
    (<["cron" := JStr "0 8 * * 1"]>
       (<["enabled" := JBool false]> (<["prompt" := JStr "Plan the week"]> ∅))).

(** [scheduler(action="add", job_id="weekly", cron="0 9 * * 1",
    prompt="Summarise the week", once=True)] *)
Definition add_weekly : Scheduler.args :=
  {| Scheduler.action := "add"; Scheduler.job_id := Some "weekly";
     Scheduler.cron := Some "0 9 * * 1"; Scheduler.run_at := None;
     Scheduler.once := true; Scheduler.prompt := Some "Summarise the week";
     Scheduler.system_prompt := None; Scheduler.tools := None;
     Scheduler.model := None; Scheduler.max_tokens := None;
     Scheduler.context := None; Scheduler.repository := None |}.

(** [scheduler(action="get", job_id="weekly")] *)
Definition get_weekly : Scheduler.args :=
  {| Scheduler.action := "get"; Scheduler.job_id := Some "weekly";
     Scheduler.cron := None; Scheduler.run_at := None; Scheduler.once := false;
     Scheduler.prompt := None; Scheduler.system_prompt := None;
     Scheduler.tools := None; Scheduler.model := None;
     Scheduler.max_tokens := None; Scheduler.context := None;
     Scheduler.repository := None |}.

(** A remote that answers, holding the given jobs. *)
Definition holding (js : list (string * Store.job)) : Store.world :=
  {| Store.content :=
       Store.Document {| Store.jobs := Some js; Store.timezone := Some (JStr "UTC") |};
     Store.reads := Store.Up; Store.writes := Store.Up; Store.saved := [] |}.

(** A remote in the given state, holding the given jobs. *)
Definition remote (reads writes : Store.remote) (js : list (string * Store.job))
  : Store.world :=
  {| Store.content :=
       Store.Document {| Store.jobs := Some js; Store.timezone := Some (JStr "UTC") |};
     Store.reads := reads; Store.writes := writes; Store.saved := [] |}.

(** A call with an action and a job id. *)
Definition call_on (action jid : string) : Scheduler.args :=
  {| Scheduler.action := action; Scheduler.job_id := Some jid;
     Scheduler.cron := None; Scheduler.run_at := None; Scheduler.once := false;
     Scheduler.prompt := None; Scheduler.system_prompt := None;
     Scheduler.tools := None; Scheduler.model := None;
     Scheduler.max_tokens := None; Scheduler.context := None;
     Scheduler.repository := None |}.

(** The same call, naming its repository. *)
Definition call_at (repository action jid : string) : Scheduler.args :=
  {| Scheduler.action := action; Scheduler.job_id := Some jid;
     Scheduler.cron := None; Scheduler.run_at := None; Scheduler.once := false;
     Scheduler.prompt := None; Scheduler.system_prompt := None;
     Scheduler.tools := None; Scheduler.model := None;
     Scheduler.max_tokens := None; Scheduler.context := None;
     Scheduler.repository := Some repository |}.

(** GitHub with the given variable in the repository [octo/agent] and, in
    every other repository, a variable that holds the job [daily_review]. *)
Definition hub (w : Store.world) : Scheduler.variables :=
  fun name => if String.eqb name "octo/agent" then w
              else holding [("daily_review", daily_review)].

(** *** A project board *)

Definition status_field : Projects.field :=
  {| Projects.id := "PVTSSF_status"; Projects.name := "Status";
     Projects.dataType := "SINGLE_SELECT";
     Projects.options :=
       Some [ {| Projects.option_id := "opt_todo"; Projects.option_name := "Todo" |};
              {| Projects.option_id := "opt_doing";
                 Projects.option_name := "In Progress" |};
              {| Projects.option_id := "opt_done"; Projects.option_name := "Done" |} ] |}.

Definition board_fields : list Projects.field :=
  [ {| Projects.id := "PVTF_title"; Projects.name := "Title";
       Projects.dataType := "TITLE"; Projects.options := None |};
    status_field;
    {| Projects.id := "PVTF_estimate"; Projects.name := "Estimate";
       Projects.dataType := "NUMBER"; Projects.options := None |} ].

(** An item of the given type and state, with its Status values. *)
Definition entry (archived : bool) (type state : string) (statuses : list string)
  : Projects.item :=
  {| Projects.isArchived := archived; Projects.type := type;
     Projects.item_content := Some (Projects.Content (Some state));
     Projects.fieldValues :=
       map (fun s => {| Projects.value_field := Some "Status";
                        Projects.value_name := Some s |}) statuses |}.

(** Three open issues, a closed one, two merged pull requests and an
    archived item. *)
Definition board_items : list Projects.item :=
  [ entry false "ISSUE" "OPEN" ["Todo"];
    entry false "PULL_REQUEST" "MERGED" ["Done"];
    entry true "ISSUE" "OPEN" ["Todo"];
    entry false "ISSUE" "OPEN" ["Todo"];
    entry false "ISSUE" "CLOSED" ["Done"];
    entry false "ISSUE" "OPEN" [];
    entry false "PULL_REQUEST" "MERGED" ["Done"] ].

Definition board : Projects.project :=
  {| Projects.fields := board_fields; Projects.items := board_items;
     Projects.totalCount := 7 |}.

(** A graph API that answers with the board and accepts every mutation. *)
Definition github : Projects.world :=
  {| Projects.node := fun _ _ => Projects.Node board;
     Projects.refuses := fun _ => None;
     Projects.sent := [] |}.

Definition board_env : Projects.env :=
  {| Projects.PAT_TOKEN := Some "ghp_token"; Projects.GITHUB_TOKEN := None;
     Projects.STRANDS_CODER_PROJECT_ID := Some "PVT_board" |}.

(** An issue whose content the token cannot read: it comes as [null]. *)
Definition hidden : Projects.item :=
  {| Projects.isArchived := false; Projects.type := "ISSUE";
     Projects.item_content := Some Projects.Null; Projects.fieldValues := [] |}.

(** A graph API that answers with the given project and refuses the
    mutations on the item [PVTI_2]. *)
Definition github_with (p : Projects.project) : Projects.world :=
  {| Projects.node := fun _ _ => Projects.Node p;
     Projects.refuses :=
       fun m => if String.eqb (Projects.itemId m) "PVTI_2"
                then Some "GraphQL errors: Could not resolve to a node"
                else None;
     Projects.sent := [] |}.

(** The float nearest to the integer of absolute value [v]: 53 bits are
    kept, a tie goes to the even one, and from 2^1024 on it is [inf]. *)
Definition nearest (negative : bool) (v : Z) : Projects.pyfloat :=
  let k := Z.log2 v - 52 in
  let r :=
    if k <=? 0 then v
    else
      let q := Z.shiftr v k in
      let rest := v - Z.shiftl q k in
      let half := Z.shiftl 1 (k - 1) in
      Z.shiftl (if (half <? rest) || ((rest =? half) && Z.odd q) then q + 1 else q) k in
  if 2 ^ 1024 <=? r then Projects.Infinity negative
  else Projects.Finite (inject_Z (if negative then - r else r)).

Definition lower (c : ascii) : ascii :=
  let n := N_of_ascii c in
  if ((65 <=? n) && (n <=? 90))%N then ascii_of_N (n + 32) else c.

(** What follows the word [w] at the head of [s], letter case ignored. *)
Fixpoint after_word (w s : string) : option string :=
  match w, s with
  | EmptyString, _ => Some s
  | String c w', String d s' => if Ascii.eqb c (lower d) then after_word w' s' else None
  | String _ _, EmptyString => None
  end.

(** [float] on the integer literals and on the words [inf], [infinity] and
    [nan], a sign and whitespace around them included.  Python's [float]
    also reads fractions and exponents, which this one refuses. *)
Definition float (s : string) : result Projects.pyfloat :=
  let refused :=
    Raise (Exn ValueError ("could not convert string to float: " ++ Py.repr s)) in
  let t := Py.skip_spaces s in
  let '(negative, body) :=
    match t with
    | String "-" r => (true, r)
    | String "+" r => (false, r)
    | _ => (false, t)
    end in
  let ends r := match r with Some r => Py.all_spaces r | None => false end in
  if ends (after_word "infinity" body) || ends (after_word "inf" body)
  then Ok (Projects.Infinity negative)
  else if ends (after_word "nan" body) then Ok Projects.NaN
  else if Py.startswith "_" body then refused
  else
    match Py.digits false 0 0 body with
    | Some (v, n, rest) =>
        if negb (n =? 0) && Py.all_spaces rest then Ok (nearest negative v)
        else refused
    | None => refused
    end.

(** The refusal of the JSON encoder of CPython 3.11. *)
Definition out_of_range (x : Projects.pyfloat) : string :=
  "Out of range float values are not JSON compliant".

End Sample.

(** * Properties *)

(** ** The Python builtins *)

Lemma isdigit_cases (c : ascii) :
  Py.isdigit c = true ->
  c ∈ ["0"; "1"; "2"; "3"; "4"; "5"; "6"; "7"; "8"; "9"]%char.
Proof.
  destruct c as [[] [] [] [] [] [] [] []]; vm_compute; intros H;
    try discriminate H; set_solver.
Qed.

(** Case analysis on a character known to be a digit. *)
Ltac digit_cases H :=
  apply isdigit_cases in H;
  repeat (apply elem_of_cons in H as [-> | H]); [.. | by apply elem_of_nil in H].

Lemma digit_not_space (c : ascii) : Py.isdigit c = true -> Py.isspace c = false.
Proof. intros H. digit_cases H; reflexivity. Qed.

Lemma all_digits_cons (c : ascii) (r : string) :
  Numeral.all_digits (String c r) = true ->
  Py.isdigit c = true /\ Numeral.all_digits r = true.
Proof. simpl. intros H. by apply andb_prop in H. Qed.

Lemma digit_not_int_space (c : ascii) : Py.isdigit c = true -> Py.int_space c = false.
Proof. intros H. digit_cases H; reflexivity. Qed.

Lemma digits_all (s : string) (acc n : Z) :
  Numeral.all_digits s = true ->
  Py.digits false acc n s
  = Some (Numeral.value_from acc s, n + Z.of_nat (String.length s), "").
Proof.
  revert acc n. induction s as [|c r IH]; intros acc n H.
  - simpl. do 3 f_equal. lia.
  - destruct (all_digits_cons _ _ H) as [Hc Hr].
    cbn [Py.digits]. rewrite Hc, (IH _ _ Hr). cbn [Numeral.value_from String.length].
    do 3 f_equal. lia.
Qed.

Lemma numeral_inv (s : string) :
  Numeral.is_numeral s = true ->
  s <> "" /\ Numeral.all_digits s = true
  /\ Z.of_nat (String.length s) <= Py.int_max_str_digits.
Proof.
  unfold Numeral.is_numeral. intros H.
  apply andb_prop in H as [H Hlen]. apply andb_prop in H as [Hne Hall].
  split; [|split; [done | by apply Z.leb_le]].
  intros ->. discriminate Hne.
Qed.

(** [int] reads a numeral as the number it denotes. *)
Lemma int_numeral (s : string) :
  Numeral.is_numeral s = true -> Py.int s = Ok (Numeral.value s).
Proof.
  intros (Hne & Hall & Hlen)%numeral_inv.
  unfold Py.int.
  destruct s as [|c r]; [done|].
  destruct (all_digits_cons _ _ Hall) as [Hc Hr].
  cbn [Py.skip_spaces]. rewrite (digit_not_int_space c Hc).
  pose proof (digits_all (String c r) 0 0 Hall) as Hd.
  assert ((Z.of_nat (String.length (String c r)) =? 0) = false) as Hz
    by (apply Z.eqb_neq; cbn [String.length]; lia).
  assert ((Py.int_max_str_digits <? Z.of_nat (String.length (String c r))) = false) as Hl
    by (apply Z.ltb_ge; exact Hlen).
  rewrite Z.add_0_l in Hd.
  digit_cases Hc; cbv iota beta;
    change (Py.startswith "_" (String _ r)) with false; cbv iota;
    rewrite Hd, Hz, Hl; cbn [Py.all_spaces]; f_equal; unfold Numeral.value; lia.
Qed.

Lemma append_cons (c : ascii) (a b : string) : String c a ++ b = String c (a ++ b).
Proof. reflexivity. Qed.

Lemma append_assoc (a b c : string) : (a ++ b) ++ c = a ++ (b ++ c).
Proof. induction a as [|d a IH]; [done|]. rewrite !append_cons. by rewrite IH. Qed.

Lemma contains_app (c : ascii) (a b : string) :
  Py.contains c (a ++ b) = Py.contains c a || Py.contains c b.
Proof.
  induction a as [|d a IH]; [done|].
  rewrite append_cons. cbn [Py.contains]. rewrite IH. by rewrite orb_assoc.
Qed.

Lemma contains_digits (c : ascii) (s : string) :
  Py.isdigit c = false -> Numeral.all_digits s = true -> Py.contains c s = false.
Proof.
  intros Hc. induction s as [|d r IH]; [done|].
  intros [Hd Hr]%all_digits_cons. simpl. rewrite (IH Hr), orb_false_r.
  apply Ascii.eqb_neq. intros ->. congruence.
Qed.

Lemma pieces_whole (sep : ascii) (s : string) :
  Py.contains sep s = false -> Py.split sep s = [s].
Proof.
  unfold Py.split. induction s as [|c r IH]; [done|].
  simpl. intros [Hc Hr]%orb_false_elim. by rewrite Hc, (IH Hr).
Qed.

Lemma split_app (sep : ascii) (a b : string) :
  Py.contains sep a = false ->
  Py.split sep (a ++ String sep b) = a :: Py.split sep b.
Proof.
  unfold Py.split. induction a as [|c a IH].
  - intros _. change ("" ++ String sep b) with (String sep b).
    cbn [Py.pieces]. by rewrite Ascii.eqb_refl.
  - cbn [Py.contains]. intros [Hc Ha]%orb_false_elim.
    rewrite append_cons. cbn [Py.pieces]. by rewrite Hc, (IH Ha).
Qed.

(** A numeral is none of the other forms of a cron field. *)
Lemma numeral_head (s : string) :
  Numeral.is_numeral s = true ->
  String.eqb s "*" = false /\ Py.startswith "*/" s = false.
Proof.
  intros (Hne & Hall & _)%numeral_inv.
  destruct s as [|c r]; [done|].
  destruct (all_digits_cons _ _ Hall) as [Hc _].
  digit_cases Hc; by destruct r.
Qed.

Lemma numeral_plain (c : ascii) (s : string) :
  Py.isdigit c = false -> Numeral.is_numeral s = true -> Py.contains c s = false.
Proof. intros Hc (_ & Hall & _)%numeral_inv. by apply contains_digits. Qed.

Lemma mapM_int_numerals (ns : list string) :
  Forall (fun n => Numeral.is_numeral n = true) ns ->
  mapM Py.int ns = Ok (map Numeral.value ns).
Proof.
  induction 1 as [|n ns Hn _ IH]; [done|].
  simpl. by rewrite (int_numeral n Hn), IH.
Qed.

Lemma existsb_eqb_elem_of (v : Z) (l : list Z) :
  existsb (Z.eqb v) l = bool_decide (v ∈ l).
Proof.
  induction l as [|x l IH]; [done|].
  simpl. rewrite IH. destruct (Z.eqb_spec v x) as [->|Hne].
  - symmetry. apply bool_decide_eq_true. set_solver.
  - apply bool_decide_ext. rewrite elem_of_cons.
    split; [by right | by intros [|]].
Qed.

(** The join of numerals with commas splits back into them. *)
Lemma split_join_numerals (ns : list string) :
  ns <> [] ->
  Forall (fun n => Numeral.is_numeral n = true) ns ->
  Py.split "," (Py.join "," ns) = ns.
Proof.
  intros Hne Hall. induction Hall as [|n ns Hn Hns IH]; [done|].
  destruct ns as [|n' ns'].
  - simpl. by apply pieces_whole, numeral_plain.
  - change (Py.join "," (n :: n' :: ns')) with (n ++ String "," (Py.join "," (n' :: ns'))).
    rewrite split_app by (by apply numeral_plain). f_equal. by apply IH.
Qed.

Lemma contains_join_numerals (c : ascii) (ns : list string) :
  Py.isdigit c = false -> c <> ","%char ->
  Forall (fun n => Numeral.is_numeral n = true) ns ->
  Py.contains c (Py.join "," ns) = false.
Proof.
  intros Hc Hcomma Hall. induction Hall as [|n ns Hn Hns IH]; [done|].
  destruct ns as [|n' ns'].
  - simpl. by apply numeral_plain.
  - change (Py.join "," (n :: n' :: ns')) with (n ++ String "," (Py.join "," (n' :: ns'))).
    rewrite contains_app, (numeral_plain c n Hc Hn). cbn [Py.contains orb].
    rewrite IH, orb_false_r. by apply Ascii.eqb_neq.
Qed.

Lemma join_head (ns : list string) :
  ns <> [] ->
  Forall (fun n => Numeral.is_numeral n = true) ns ->
  String.eqb (Py.join "," ns) "*" = false /\ Py.startswith "*/" (Py.join "," ns) = false.
Proof.
  intros Hne Hall. destruct Hall as [|n ns Hn Hns]; [done|].
  destruct ns as [|n' ns']; [by apply numeral_head|].
  change (Py.join "," (n :: n' :: ns')) with (n ++ String "," (Py.join "," (n' :: ns'))).
  apply numeral_inv in Hn as (Hn & Hd & _).
  destruct n as [|c r]; [done|].
  destruct (all_digits_cons _ _ Hd) as [Hc _].
  digit_cases Hc; by destruct r.
Qed.

(** ** The cron field matcher *)

Lemma in_range_numerals (a b : string) (v : Z) :
  Numeral.is_numeral a = true -> Numeral.is_numeral b = true ->
  Cron.in_range a b v = Ok ((Numeral.value a <=? v) && (v <=? Numeral.value b)).
Proof.
  intros Ha Hb. unfold Cron.in_range. rewrite (int_numeral a Ha). simpl.
  destruct (Numeral.value a <=? v); [|done]. by rewrite (int_numeral b Hb).
Qed.

Lemma divisible_nonzero (v n : Z) :
  n <> 0 -> Cron.divisible v n = Ok (v mod n =? 0).
Proof. intros Hn. unfold Cron.divisible. by apply Z.eqb_neq in Hn as ->. Qed.

Lemma field_star (v mx : Z) : Cron._cron_field_matches "*" v mx = Ok true.
Proof. reflexivity. Qed.

Lemma field_step (n : string) (v mx : Z) :
  Numeral.is_numeral n = true -> Numeral.value n <> 0 ->
  Cron._cron_field_matches ("*/" ++ n) v mx = Ok (v mod Numeral.value n =? 0).
Proof.
  intros Hn Hnz. unfold Cron._cron_field_matches.
  change ("*/" ++ n) with (String "*" (String "/" n)).
  assert (String.eqb (String "*" (String "/" n)) "*" = false) as -> by done.
  assert (Py.startswith "*/" (String "*" (String "/" n)) = true) as ->
    by (by destruct n).
  cbn [Py.drop]. rewrite (int_numeral n Hn). by apply divisible_nonzero.
Qed.

Lemma field_range (a b : string) (v mx : Z) :
  Numeral.is_numeral a = true -> Numeral.is_numeral b = true ->
  Cron._cron_field_matches (a ++ "-" ++ b) v mx
  = Ok ((Numeral.value a <=? v) && (v <=? Numeral.value b)).
Proof.
  intros Ha Hb. unfold Cron._cron_field_matches.
  change (a ++ "-" ++ b) with (a ++ String "-" b).
  assert (String.eqb (a ++ String "-" b) "*" = false
          /\ Py.startswith "*/" (a ++ String "-" b) = false) as [-> ->].
  { apply numeral_inv in Ha as (Hne & Hd & _). destruct a as [|c r]; [done|].
    destruct (all_digits_cons _ _ Hd) as [Hc _]. digit_cases Hc; by destruct r. }
  rewrite !contains_app. cbn [Py.contains]. rewrite Ascii.eqb_refl.
  rewrite (numeral_plain "/" a), (numeral_plain "/" b) by done.
  rewrite orb_true_r. cbn [orb andb negb Ascii.eqb Bool.eqb].
  rewrite split_app by (by apply numeral_plain).
  rewrite pieces_whole by (by apply numeral_plain).
  by apply in_range_numerals.
Qed.

Lemma field_range_step (a b n : string) (v mx : Z) :
  Numeral.is_numeral a = true -> Numeral.is_numeral b = true ->
  Numeral.is_numeral n = true -> Numeral.value n <> 0 ->
  Cron._cron_field_matches (a ++ "-" ++ b ++ "/" ++ n) v mx
  = Ok ((Numeral.value a <=? v) && (v <=? Numeral.value b)
        && ((v - Numeral.value a) mod Numeral.value n =? 0)).
Proof.
  intros Ha Hb Hn Hnz. unfold Cron._cron_field_matches.
  change (a ++ "-" ++ b ++ "/" ++ n) with (a ++ String "-" (b ++ String "/" n)).
  assert (String.eqb (a ++ String "-" (b ++ String "/" n)) "*" = false
          /\ Py.startswith "*/" (a ++ String "-" (b ++ String "/" n)) = false)
    as [-> ->].
  { apply numeral_inv in Ha as (Hne & Hd & _). destruct a as [|c r]; [done|].
    destruct (all_digits_cons _ _ Hd) as [Hc _]. digit_cases Hc; by destruct r. }
  assert (Py.contains "-" (a ++ String "-" (b ++ String "/" n)) = true) as ->.
  { rewrite contains_app. cbn [Py.contains]. rewrite Ascii.eqb_refl.
    by rewrite orb_true_r. }
  assert (Py.contains "/" (a ++ String "-" (b ++ String "/" n)) = true) as ->.
  { rewrite contains_app. cbn [Py.contains]. rewrite contains_app.
    cbn [Py.contains]. rewrite Ascii.eqb_refl. by rewrite !orb_true_r. }
  cbn [andb negb].
  assert (Py.split "/" (a ++ String "-" (b ++ String "/" n))
          = [a ++ String "-" b; n]) as ->.
  { replace (a ++ String "-" (b ++ String "/" n))
      with ((a ++ String "-" b) ++ String "/" n)
      by apply append_assoc.
    rewrite split_app, pieces_whole; [done | by apply numeral_plain |].
    rewrite contains_app. cbn [Py.contains].
    by rewrite (numeral_plain "/" a), (numeral_plain "/" b). }
  cbn [Py.unpack2 mbind result_bind bind].
  rewrite split_app by (by apply numeral_plain).
  rewrite pieces_whole by (by apply numeral_plain).
  cbn [Py.unpack2 mbind result_bind bind].
  rewrite (in_range_numerals a b v Ha Hb).
  destruct ((Numeral.value a <=? v) && (v <=? Numeral.value b)); [|done].
  cbn. rewrite (int_numeral a Ha), (int_numeral n Hn). cbn.
  by apply divisible_nonzero.
Qed.

Lemma field_list (ns : list string) (v mx : Z) :
  ns <> [] ->
  Forall (fun n => Numeral.is_numeral n = true) ns ->
  Cron._cron_field_matches (Py.join "," ns) v mx
  = Ok (bool_decide (v ∈ map Numeral.value ns)).
Proof.
  intros Hne Hall. unfold Cron._cron_field_matches.
  destruct (join_head ns Hne Hall) as [-> ->].
  rewrite (contains_join_numerals "-" ns) by done. cbn [andb].
  destruct ns as [|n [|n' ns']]; [done | |].
  - apply Forall_cons in Hall as [Hn _].
    cbn [Py.join]. rewrite (numeral_plain "," n) by done.
    rewrite (int_numeral n Hn). cbn.
    rewrite <- existsb_eqb_elem_of. cbn. by rewrite orb_false_r, Z.eqb_sym.
  - assert (Py.contains "," (Py.join "," (n :: n' :: ns')) = true) as ->.
    { change (Py.join "," (n :: n' :: ns'))
        with (n ++ String "," (Py.join "," (n' :: ns'))).
      rewrite contains_app. cbn [Py.contains]. rewrite Ascii.eqb_refl.
      by rewrite orb_true_r. }
    rewrite split_join_numerals, mapM_int_numerals by done.
    cbn [mbind result_bind bind]. by rewrite existsb_eqb_elem_of.
Qed.

Lemma field_number (n : string) (v mx : Z) :
  Numeral.is_numeral n = true ->
  Cron._cron_field_matches n v mx = Ok (Numeral.value n =? v).
Proof.
  intros Hn. unfold Cron._cron_field_matches.
  destruct (numeral_head n Hn) as [-> ->].
  rewrite (numeral_plain "-" n), (numeral_plain "," n) by done.
  cbn [andb]. by rewrite (int_numeral n Hn).
Qed.

(** C5. For every integer [v], [_cron_field_matches] returns: on the star,
    true; on a step [*/N], whether [v mod N = 0]; on a range [A-B], whether
    [A <= v <= B]; on a range with a step [A-B/N], whether [A <= v <= B] and
    [(v - A) mod N = 0]; on a comma list, whether [v] is one of its numbers;
    on a bare number, whether it equals [v].  [A], [B], [N] and the list's
    members are numerals, and a step is not zero. *)
Theorem C5_cron_field_matcher (v mx : Z) :
  Cron._cron_field_matches "*" v mx = Ok true
  /\ (forall n,
        Numeral.is_numeral n = true -> Numeral.value n <> 0 ->
        Cron._cron_field_matches ("*/" ++ n) v mx = Ok (v mod Numeral.value n =? 0))
  /\ (forall a b,
        Numeral.is_numeral a = true -> Numeral.is_numeral b = true ->
        Cron._cron_field_matches (a ++ "-" ++ b) v mx
        = Ok ((Numeral.value a <=? v) && (v <=? Numeral.value b)))
  /\ (forall a b n,
        Numeral.is_numeral a = true -> Numeral.is_numeral b = true ->
        Numeral.is_numeral n = true -> Numeral.value n <> 0 ->
        Cron._cron_field_matches (a ++ "-" ++ b ++ "/" ++ n) v mx
        = Ok ((Numeral.value a <=? v) && (v <=? Numeral.value b)
              && ((v - Numeral.value a) mod Numeral.value n =? 0)))
  /\ (forall ns,
        ns <> [] -> Forall (fun n => Numeral.is_numeral n = true) ns ->
        Cron._cron_field_matches (Py.join "," ns) v mx
        = Ok (bool_decide (v ∈ map Numeral.value ns)))
  /\ (forall n,
        Numeral.is_numeral n = true ->
        Cron._cron_field_matches n v mx = Ok (Numeral.value n =? v)).
Proof.
  split; [apply field_star|].
  split; [intros; by apply field_step|].
  split; [intros; by apply field_range|].
  split; [intros; by apply field_range_step|].
  split; [intros; by apply field_list|].
  intros; by apply field_number.
Qed.

Lemma C5_cron_field_matcher_witness :
  Cron._cron_field_matches "*/15" 30 59 = Ok true
  /\ Cron._cron_field_matches "1-5" 6 6 = Ok false
  /\ Cron._cron_field_matches "0-30/5" 25 59 = Ok true
  /\ Cron._cron_field_matches "1,3,5" 3 6 = Ok true
  /\ Cron._cron_field_matches "9" 9 23 = Ok true.
Proof.
  split; [|split; [|split; [|split]]].
  - exact (proj1 (proj2 (C5_cron_field_matcher 30 59)) "15" eq_refl
             ltac:(vm_compute; discriminate)).
  - exact (proj1 (proj2 (proj2 (C5_cron_field_matcher 6 6))) "1" "5" eq_refl eq_refl).
  - exact (proj1 (proj2 (proj2 (proj2 (C5_cron_field_matcher 25 59))))
             "0" "30" "5" eq_refl eq_refl eq_refl ltac:(vm_compute; discriminate)).
  - exact (proj1 (proj2 (proj2 (proj2 (proj2 (C5_cron_field_matcher 3 6)))))
             ["1"; "3"; "5"] ltac:(discriminate)
             ltac:(repeat constructor)).
  - exact (proj2 (proj2 (proj2 (proj2 (proj2 (C5_cron_field_matcher 9 23))))) "9" eq_refl).
Defined.

(** Outside the numerals the matcher raises: a step of zero divides by zero,
    and a number written with a sign is read as a range. *)
Lemma field_step_zero (v mx : Z) :
  Cron._cron_field_matches "*/0" v mx = Raise (Exn ZeroDivisionError "integer modulo by zero").
Proof. reflexivity. Qed.

Lemma field_signed_number (v mx : Z) :
  Cron._cron_field_matches "-5" v mx = Raise (Py.invalid_literal "").
Proof. reflexivity. Qed.

(** ** Trigger matching *)

Lemma minutes_window (d : Z) :
  Qle_bool (-1) (DateTime.minutes d) && Qle_bool (DateTime.minutes d) 60
  = (- DateTime.minute_us <=? d) && (d <=? 60 * DateTime.minute_us).
Proof.
  unfold DateTime.minutes, Qle_bool, Qdiv, Qmult, Qinv, DateTime.minute_us. cbn.
  f_equal; apply eq_true_iff_eq; rewrite !Z.leb_le; lia.
Qed.

Section Triggers.

Variable fromisoformat : string -> result DateTime.datetime.

(** The window of [_run_at_matches], on the timestamp read from the text. *)
Lemma run_at_window (text : string) (t now : DateTime.naive) :
  Scheduler.parse_run_at fromisoformat text
  = Ok {| DateTime.fields := t; DateTime.tzinfo := None |} ->
  Scheduler._run_at_matches fromisoformat (JStr text) now
  = (DateTime.micros now - 60 * DateTime.minute_us <=? DateTime.micros t)
    && (DateTime.micros t <=? DateTime.micros now + DateTime.minute_us).
Proof.
  intros H. unfold Scheduler._run_at_matches, Scheduler.run_at_body.
  rewrite H. cbn [mbind result_bind bind DateTime.sub DateTime.tzinfo DateTime.fields catch].
  rewrite minutes_window, andb_comm.
  f_equal; apply eq_true_iff_eq; rewrite !Z.leb_le; lia.
Qed.

End Triggers.

(** In [check], a job that is enabled and has a [run_at] and no cron
    expression is due exactly when [_run_at_matches] holds of its [run_at]. *)
Lemma run_at_job_due
      (fromisoformat : string -> result DateTime.datetime)
      (now : DateTime.naive) (j : Store.job) (text : string) :
  Scheduler.enabled j = true ->
  truthy (Store.get "cron" j) = false ->
  Store.get "run_at" j = JStr text -> text <> "" ->
  Scheduler.should_run fromisoformat now j
  = Scheduler._run_at_matches fromisoformat (JStr text) now.
Proof.
  intros Hen Hcron Hrun Htext.
  unfold Scheduler.should_run, Scheduler.cron_due, Scheduler.run_at_due.
  rewrite Hen, Hcron, Hrun. cbn [truthy andb orb].
  by apply String.eqb_neq in Htext as ->.
Qed.

(** C2 (as amended). A [run_at] timestamp is due exactly when it lies between
    60 minutes before [now] and 1 minute after [now], both ends included:
    [now + 61 min] and [now + 60 min] are not due and [now + 1 min] is;
    [now - 1 min], [now - 2 min] and [now - 60 min] are due and
    [now - 61 min] is not. *)
Theorem C2_run_at_window
        (fromisoformat : string -> result DateTime.datetime)
        (text : string) (t now : DateTime.naive) :
  Scheduler.parse_run_at fromisoformat text
  = Ok {| DateTime.fields := t; DateTime.tzinfo := None |} ->
  let due := Scheduler._run_at_matches fromisoformat (JStr text) now in
  let ahead (m : Z) := DateTime.micros t = DateTime.micros now + m * DateTime.minute_us in
  (due = true <->
   DateTime.micros now - 60 * DateTime.minute_us <= DateTime.micros t
   <= DateTime.micros now + DateTime.minute_us)
  /\ (ahead 61 -> due = false)
  /\ (ahead 60 -> due = false)
  /\ (ahead 1 -> due = true)
  /\ (ahead (-1) -> due = true)
  /\ (ahead (-2) -> due = true)
  /\ (ahead (-60) -> due = true)
  /\ (ahead (-61) -> due = false).
Proof.
  intros H due ahead. subst due ahead. cbv beta.
  rewrite (run_at_window fromisoformat text t now H).
  unfold DateTime.minute_us.
  split; [rewrite andb_true_iff, !Z.leb_le; lia|].
  repeat split; intros ->;
    first [ apply andb_true_iff; rewrite !Z.leb_le; lia
          | apply andb_false_iff; rewrite !Z.leb_gt; lia ].
Qed.

Lemma C2_run_at_window_witness :
  Scheduler._run_at_matches Iso.fromisoformat (JStr "2024-01-17T08:58:00Z") Sample.now
  = true.
Proof.
  refine (proj1 (proj2 (proj2 (proj2 (proj2 (proj2
            (C2_run_at_window Iso.fromisoformat "2024-01-17T08:58:00Z"
               (Sample.at_time 8 58) Sample.now _)))))) _);
    vm_compute; reflexivity.
Defined.

(** C2 as stated fails at both inner boundaries: at 09:00 a job set for
    10:00, 60 minutes ahead, is not due, and a job set for 08:58, 2 minutes
    past, is due. *)
Lemma C2_counterexample :
  (Scheduler.parse_run_at Iso.fromisoformat "2024-01-17T10:00:00Z"
   = Ok {| DateTime.fields := Sample.at_time 10 0; DateTime.tzinfo := None |}
   /\ DateTime.micros (Sample.at_time 10 0)
      = DateTime.micros Sample.now + 60 * DateTime.minute_us
   /\ Scheduler._run_at_matches Iso.fromisoformat (JStr "2024-01-17T10:00:00Z")
        Sample.now = false)
  /\ (Scheduler.parse_run_at Iso.fromisoformat "2024-01-17T08:58:00Z"
      = Ok {| DateTime.fields := Sample.at_time 8 58; DateTime.tzinfo := None |}
      /\ DateTime.micros (Sample.at_time 8 58)
         = DateTime.micros Sample.now - 2 * DateTime.minute_us
      /\ Scheduler._run_at_matches Iso.fromisoformat (JStr "2024-01-17T08:58:00Z")
           Sample.now = true).
Proof. split; (split; [|split]); vm_compute; reflexivity. Qed.

(** ** Dictionaries in insertion order *)

Lemma lookup_set {V : Type} (k k' : string) (v : V) (d : list (string * V)) :
  Dict.lookup k' (Dict.set k v d)
  = if String.eqb k' k then Some v else Dict.lookup k' d.
Proof.
  induction d as [|[k0 v0] d IH]; simpl.
  - done.
  - destruct (String.eqb_spec k k0) as [->|Hk]; simpl.
    + by destruct (String.eqb k' k0).
    + rewrite IH. destruct (String.eqb_spec k' k0) as [->|]; [|done].
      by destruct (String.eqb_spec k0 k) as [->|].
Qed.

Lemma lookup_None_keys {V : Type} (k : string) (d : list (string * V)) :
  Dict.lookup k d = None <-> k ∉ Dict.keys d.
Proof.
  unfold Dict.keys. induction d as [|[k0 v0] d IH]; simpl.
  - split; [intros _; apply not_elem_of_nil | done].
  - rewrite not_elem_of_cons, <- IH.
    destruct (String.eqb_spec k k0) as [->|]; [|tauto].
    split; [done | by intros [? _]].
Qed.

Lemma lookup_Some_elem {V : Type} (k : string) (v : V) (d : list (string * V)) :
  Dict.wf d -> (k, v) ∈ d -> Dict.lookup k d = Some v.
Proof.
  unfold Dict.wf, Dict.keys. induction d as [|[k0 v0] d IH]; simpl.
  - intros _ H. by apply elem_of_nil in H.
  - intros [Hk0 Hd]%NoDup_cons [[= -> ->]|Hin]%elem_of_cons.
    + by rewrite String.eqb_refl.
    + destruct (String.eqb_spec k k0) as [->|]; [|by apply IH].
      exfalso. apply Hk0. apply list_elem_of_fmap. by exists (k0, v).
Qed.

Lemma lookup_elem {V : Type} (k : string) (v : V) (d : list (string * V)) :
  Dict.lookup k d = Some v -> (k, v) ∈ d.
Proof.
  induction d as [|[k0 v0] d IH]; simpl; [done|].
  destruct (String.eqb_spec k k0) as [->|].
  - intros [= ->]. apply elem_of_cons. by left.
  - intros H. apply elem_of_cons. right. by apply IH.
Qed.

(** [del] removes the key and leaves the others as they were. *)
Lemma del_present {V : Type} (k : string) (d : list (string * V)) :
  Dict.wf d -> k ∈ Dict.keys d ->
  exists d', Dict.del k d = Ok d'
             /\ Dict.wf d'
             /\ (forall k', Dict.lookup k' d'
                            = if String.eqb k' k then None else Dict.lookup k' d)
             /\ (forall k', k' ∈ Dict.keys d' <-> k' ∈ Dict.keys d /\ k' <> k).
Proof.
  unfold Dict.wf, Dict.keys. induction d as [|[k0 v0] d IH]; simpl.
  - intros _ H. by apply elem_of_nil in H.
  - intros [Hk0 Hd]%NoDup_cons Hin.
    destruct (String.eqb_spec k k0) as [->|Hne].
    + exists d. split; [done|]. split; [done|]. split.
      * intros k'. destruct (String.eqb_spec k' k0) as [->|]; [|done].
        by apply lookup_None_keys.
      * intros k'. rewrite elem_of_cons. split.
        -- intros Hk'. split; [by right | by intros ->].
        -- by intros [[|] ?].
    + apply elem_of_cons in Hin as [->|Hin]; [done|].
      destruct (IH Hd Hin) as (d' & -> & Hwf & Hl & Hk).
      exists ((k0, v0) :: d'). simpl. split; [done|]. split; [|split].
      * apply NoDup_cons. split; [|done]. rewrite Hk. by intros [? _].
      * intros k'. rewrite Hl.
        destruct (String.eqb_spec k' k0) as [->|]; [|done].
        by destruct (String.eqb_spec k0 k) as [->|].
      * intros k'. rewrite !elem_of_cons, Hk. split.
        -- intros [->|[? ?]]; [split; [by left | by intros ->] | split; [by right | done]].
        -- intros [[|] ?]; [by left | by right].
Qed.

(** ** The evaluation loop *)

Section Evaluation.

Variable fromisoformat : string -> result DateTime.datetime.

Local Abbreviation should_run := (Scheduler.should_run fromisoformat).
Local Abbreviation retires := (Scheduler.retires fromisoformat).
Local Abbreviation check_loop := (Scheduler.check_loop fromisoformat).
Local Abbreviation due_of := (Scheduler.due_of fromisoformat).
Local Abbreviation retired_of := (Scheduler.retired_of fromisoformat).

Lemma check_loop_spec (now : DateTime.naive) (js : list (string * Store.job))
      (run : list Scheduler.record) (rem : list string) :
  check_loop now js run rem = ((run ++ due_of now js)%list, (rem ++ retired_of now js)%list).
Proof.
  revert run rem. induction js as [|[jid j] js IH]; intros run rem.
  - unfold Scheduler.due_of, Scheduler.retired_of. simpl. by rewrite !app_nil_r.
  - cbn [Scheduler.check_loop]. unfold Scheduler.due_of, Scheduler.retired_of. cbn [List.filter snd fst].
    unfold Scheduler.should_run, Scheduler.retires, Scheduler.enabled,
      Scheduler.cron_due, Scheduler.run_at_due.
    destruct (truthy (Store.get_or "enabled" (JBool true) j)); cbn [negb andb];
      [|apply IH].
    rewrite IH. unfold Scheduler.due_of, Scheduler.retired_of.
    destruct (truthy (Store.get "run_at" j)
              && Scheduler._run_at_matches fromisoformat (Store.get "run_at" j) now);
      destruct (truthy (Store.get "cron" j)
                && Scheduler._cron_matches (Store.get "cron" j) now);
      destruct (truthy (Store.get "once" j));
      cbn [orb andb map fst snd]; by rewrite <- ?app_assoc.
Qed.

Lemma retired_sublist (now : DateTime.naive) (js : list (string * Store.job)) :
  retired_of now js `sublist_of` Dict.keys js.
Proof.
  unfold Scheduler.retired_of, Dict.keys. induction js as [|[jid j] js IH]; [done|].
  cbn [List.filter]. destruct (retires now (jid, j).2); cbn [map fmap list_fmap fst].
  - by apply sublist_skip.
  - by apply sublist_cons.
Qed.

Lemma del_all_present (ks : list string) (d : list (string * Store.job)) :
  Dict.wf d -> NoDup ks -> ks ⊆ Dict.keys d ->
  exists d', Scheduler.del_all ks d = Ok d'
             /\ Dict.wf d'
             /\ (forall k, Dict.lookup k d'
                           = if bool_decide (k ∈ ks) then None else Dict.lookup k d).
Proof.
  revert d. induction ks as [|k ks IH]; intros d Hwf Hnd Hsub.
  - exists d. split; [done|]. split; [done|]. intros k.
    by rewrite bool_decide_eq_false_2 by apply not_elem_of_nil.
  - apply NoDup_cons in Hnd as [Hk Hnd].
    destruct (del_present k d Hwf) as (d1 & Hdel & Hwf1 & Hl1 & Hk1).
    { apply Hsub, elem_of_cons. by left. }
    destruct (IH d1 Hwf1 Hnd) as (d' & Hall & Hwf' & Hl').
    { intros k' Hk'. apply Hk1. split.
      - apply Hsub, elem_of_cons. by right.
      - by intros ->. }
    exists d'. cbn [Scheduler.del_all]. rewrite Hdel. split; [exact Hall|].
    split; [done|]. intros k'. rewrite Hl', Hl1.
    destruct (String.eqb_spec k' k) as [->|Hne].
    + rewrite (bool_decide_eq_true_2 (k ∈ k :: ks)) by (apply elem_of_cons; by left).
      by destruct (bool_decide (k ∈ ks)).
    + rewrite (bool_decide_ext (k' ∈ k :: ks) (k' ∈ ks)); [done|].
      rewrite elem_of_cons. split; [by intros [|] | by right].
Qed.

(** *** The [check] action *)

(** Nothing retires: nothing is written. *)
Lemma check_quiet (now : DateTime.naive) (w : Store.world) :
  let js := Store.jobs_of (Store._get_schedules w) in
  retired_of now js = [] ->
  Scheduler.check fromisoformat now w = (Scheduler.answer_of (due_of now js), w).
Proof.
  intros js H. unfold Scheduler.check. fold js.
  rewrite check_loop_spec, H. cbn [app].
  unfold Scheduler.answer_of. by destruct (due_of now js).
Qed.

(** Some job retires: the collection without the retired jobs is written,
    once. *)
Lemma check_retiring (now : DateTime.naive) (w : Store.world) :
  let s := Store._get_schedules w in
  let js := Store.jobs_of s in
  Dict.wf js -> retired_of now js <> [] ->
  exists js',
    Scheduler.del_all (retired_of now js) js = Ok js'
    /\ Dict.wf js'
    /\ (forall k, Dict.lookup k js'
                  = if bool_decide (k ∈ retired_of now js) then None
                    else Dict.lookup k js)
    /\ Scheduler.check fromisoformat now w
       = let saving :=
           Store._save_schedules
             {| Store.jobs := Some js'; Store.timezone := Store.timezone s |} w in
         (_ ← saving.1; Scheduler.answer_of (due_of now js), saving.2).
Proof.
  intros s js Hwf Hne.
  destruct (del_all_present (retired_of now js) js Hwf) as (js' & Hdel & Hwf' & Hl).
  { exact (sublist_NoDup _ _ Hwf (retired_sublist now js)). }
  { apply sublist_subseteq, retired_sublist. }
  exists js'. split; [done|]. split; [done|]. split; [done|].
  unfold Scheduler.check. fold s js. rewrite check_loop_spec. cbn [app].
  destruct (retired_of now js) as [|k ks] eqn:Hr; [done|].
  rewrite Hdel.
  destruct (Store._save_schedules _ w) as [r w'] eqn:Hs. cbn [fst snd].
  unfold Scheduler.answer_of. f_equal.
  destruct r as [o|x]; [|done]. cbn [mbind result_bind bind].
  by destruct (due_of now js).
Qed.

(** When every prompt is a string the report is rendered. *)
Lemma render_due_of (now : DateTime.naive) (js : list (string * Store.job)) :
  Forall (fun p => Scheduler.prompt_is_text p.2) js ->
  Scheduler.render_due (due_of now js) = Ok tt.
Proof.
  unfold Scheduler.due_of. induction 1 as [|[jid j] js [p Hp] _ IH]; [done|].
  cbn [List.filter snd]. destruct (should_run now j); [|exact IH].
  cbn [map Scheduler.render_due]. rewrite IH.
  cbn. unfold Store.get_or. cbn in Hp. by rewrite Hp.
Qed.

(** Only a [check] that ran to its end answers with a due list, and the
    list is the one of the due jobs. *)
Lemma check_answer (now : DateTime.naive) (w : Store.world)
      (due : list Scheduler.record) :
  Scheduler.report (Scheduler.check fromisoformat now w).1 = Scheduler.JobsToRun due ->
  due = due_of now (Store.jobs_of (Store._get_schedules w)).
Proof.
  unfold Scheduler.check. rewrite check_loop_spec. cbn [app].
  set (js := Store.jobs_of (Store._get_schedules w)).
  assert (forall r : result unit,
            Scheduler.report
              (_ ← r; match due_of now js with
                      | [] => Ok (Scheduler.JobsToRun [])
                      | _ :: _ =>
                          _ ← Scheduler.render_due (due_of now js);
                          Ok (Scheduler.JobsToRun (due_of now js))
                      end) = Scheduler.JobsToRun due ->
            due = due_of now js) as Hend.
  { intros [[]|x]; [|done]. cbn [mbind result_bind bind].
    destruct (due_of now js) as [|r rs]; [by intros [= <-]|].
    destruct (Scheduler.render_due (r :: rs)); [by intros [= <-] | done]. }
  destruct (retired_of now js) as [|k ks]; [by apply Hend|].
  destruct (Scheduler.del_all (k :: ks) js) as [js'|x].
  - destruct (Store._save_schedules _ w) as [r w']. cbn [fst].
    intros H. apply (Hend (_ ← r; Ok tt)). exact H.
  - cbn [fst]. intros H. by apply (Hend (Raise x)).
Qed.

Lemma scheduler_check (e : Scheduler.env) (now : DateTime.naive)
      (a : Scheduler.args) (w : Store.world) :
  Scheduler.configured e a -> Scheduler.action a = "check" ->
  Scheduler.scheduler fromisoformat e now a w
  = (Scheduler.report (Scheduler.check fromisoformat now w).1,
     (Scheduler.check fromisoformat now w).2).
Proof.
  intros [Hrepo Htoken] Ha. unfold Scheduler.scheduler. rewrite Ha.
  apply String.eqb_neq in Hrepo as ->. apply String.eqb_neq in Htoken as ->.
  cbn [String.eqb Ascii.eqb Bool.eqb]. by destruct (Scheduler.check _ now w).
Qed.

(** Without a repository or a token the tool refuses and touches nothing. *)
Lemma scheduler_cases (e : Scheduler.env) (a : Scheduler.args) :
  (exists text, forall now w,
      Scheduler.scheduler fromisoformat e now a w = (Scheduler.Failure text, w))
  \/ Scheduler.configured e a.
Proof.
  unfold Scheduler.scheduler, Scheduler.configured.
  destruct (String.eqb_spec
              (if Scheduler.given (Scheduler.repository a)
               then Scheduler.text_of (Scheduler.repository a)
               else Scheduler._get_repository e) "") as [Hr|Hr]; [left; eauto|].
  destruct (String.eqb_spec (Scheduler._get_github_token e) "") as [Ht|Ht];
    [left; eauto | by right].
Qed.

(** *** The tool on every repository *)

(** A call answers from the variable of the repository it addresses. *)
Lemma scheduler_at_answer (e : Scheduler.env) (now : DateTime.naive)
      (a : Scheduler.args) (hub : Scheduler.variables) :
  (Scheduler.scheduler_at fromisoformat e now a hub).1
  = (Scheduler.scheduler fromisoformat e now a
       (hub (Scheduler.repository_of e a))).1.
Proof.
  unfold Scheduler.scheduler_at. by destruct (Scheduler.scheduler _ e now a _).
Qed.

(** It leaves that variable as the tool leaves it, and the variables of the
    other repositories as they were. *)
Lemma scheduler_at_variable (e : Scheduler.env) (now : DateTime.naive)
      (a : Scheduler.args) (hub : Scheduler.variables) (name : string) :
  (Scheduler.scheduler_at fromisoformat e now a hub).2 name
  = if String.eqb name (Scheduler.repository_of e a)
    then (Scheduler.scheduler fromisoformat e now a
            (hub (Scheduler.repository_of e a))).2
    else hub name.
Proof.
  unfold Scheduler.scheduler_at. by destruct (Scheduler.scheduler _ e now a _).
Qed.

(** Two calls to the same repository, one after the other. *)
Lemma scheduler_at_then (e : Scheduler.env) (now now' : DateTime.naive)
      (a b : Scheduler.args) (hub : Scheduler.variables) :
  Scheduler.repository_of e b = Scheduler.repository_of e a ->
  (Scheduler.scheduler_at fromisoformat e now' b
     (Scheduler.scheduler_at fromisoformat e now a hub).2).1
  = (Scheduler.scheduler fromisoformat e now' b
       (Scheduler.scheduler fromisoformat e now a
          (hub (Scheduler.repository_of e a))).2).1
  /\ (Scheduler.scheduler_at fromisoformat e now' b
        (Scheduler.scheduler_at fromisoformat e now a hub).2).2
       (Scheduler.repository_of e a)
     = (Scheduler.scheduler fromisoformat e now' b
          (Scheduler.scheduler fromisoformat e now a
             (hub (Scheduler.repository_of e a))).2).2.
Proof.
  intros Hrepo. split.
  - rewrite scheduler_at_answer, scheduler_at_variable, Hrepo.
    by rewrite String.eqb_refl.
  - rewrite scheduler_at_variable, Hrepo, String.eqb_refl.
    by rewrite scheduler_at_variable, String.eqb_refl.
Qed.

(** A call to another repository does not see what the first one did. *)
Lemma scheduler_at_apart (e : Scheduler.env) (now now' : DateTime.naive)
      (a b : Scheduler.args) (hub : Scheduler.variables) :
  Scheduler.repository_of e b <> Scheduler.repository_of e a ->
  (Scheduler.scheduler_at fromisoformat e now' b
     (Scheduler.scheduler_at fromisoformat e now a hub).2).1
  = (Scheduler.scheduler_at fromisoformat e now' b hub).1.
Proof.
  intros Hrepo%String.eqb_neq.
  by rewrite !scheduler_at_answer, scheduler_at_variable, Hrepo.
Qed.

End Evaluation.

(** ** The due report *)

(** C1 (as amended). Each record of the due list that [check] returns has
    exactly the keys [job_id], [prompt], [system_prompt], [tools], [model],
    [max_tokens], [context] and [once], in this order.  It belongs to a
    stored job: [job_id] is the job's id, [prompt] its prompt or the empty
    string, [once] its flag or false, and each of the five optional fields
    holds the job's value, or null when the job does not set it. *)
Theorem C1_due_report
        (fromisoformat : string -> result DateTime.datetime)
        (e : Scheduler.env) (now : DateTime.naive) (a : Scheduler.args)
        (w : Store.world) (due : list Scheduler.record) :
  Scheduler.action a = "check" ->
  (Scheduler.scheduler fromisoformat e now a w).1 = Scheduler.JobsToRun due ->
  due = Scheduler.due_of fromisoformat now (Store.jobs_of (Store._get_schedules w))
  /\ Forall
       (fun r =>
          Dict.keys r = ["job_id"; "prompt"; "system_prompt"; "tools"; "model";
                         "max_tokens"; "context"; "once"]
          /\ exists jid j,
               (jid, j) ∈ Store.jobs_of (Store._get_schedules w)
               /\ Dict.lookup "job_id" r = Some (JStr jid)
               /\ Dict.lookup "prompt" r = Some (default (JStr "") (j !! "prompt"))
               /\ Dict.lookup "once" r = Some (default (JBool false) (j !! "once"))
               /\ forall k,
                    k ∈ ["system_prompt"; "tools"; "model"; "max_tokens"; "context"] ->
                    Dict.lookup k r = Some (default JNull (j !! k)))
       due.
Proof.
  intros Ha Hdue.
  assert (due = Scheduler.due_of fromisoformat now
                  (Store.jobs_of (Store._get_schedules w))) as ->.
  { destruct (scheduler_cases fromisoformat e a) as [[text Hf]|Hc].
    - rewrite Hf in Hdue. discriminate Hdue.
    - rewrite (scheduler_check fromisoformat e now a w Hc Ha) in Hdue.
      by apply check_answer. }
  split; [done|]. clear Hdue.
  unfold Scheduler.due_of. apply Forall_fmap, Forall_forall.
  intros [jid j] Hin%list_elem_of_In%filter_In. destruct Hin as [Hin _].
  apply list_elem_of_In in Hin.
  split; [done|]. exists jid, j. split; [done|]. split; [done|].
  split; [done|]. split; [done|]. intros k Hk.
  repeat (apply elem_of_cons in Hk as [->|Hk]; [done|]).
  by apply elem_of_nil in Hk.
Qed.

Lemma C1_due_report_witness :
  Forall (fun r => Dict.keys r = ["job_id"; "prompt"; "system_prompt"; "tools";
                                  "model"; "max_tokens"; "context"; "once"])
         (Scheduler.due_of Iso.fromisoformat Sample.now
            [("daily_review", Sample.daily_review); ("deploy", Sample.deploy)]).
Proof.
  destruct (C1_due_report Iso.fromisoformat Sample.env Sample.now
              (Sample.call "check")
              (Sample.holding [("daily_review", Sample.daily_review);
                               ("deploy", Sample.deploy)])
              (Scheduler.due_of Iso.fromisoformat Sample.now
                 [("daily_review", Sample.daily_review); ("deploy", Sample.deploy)])
              eq_refl ltac:(vm_compute; reflexivity)) as [_ H].
  eapply Forall_impl; [exact H|]. by intros r [Hr _].
Defined.

(** C1 as stated fails on a job that sets neither [system_prompt] nor any
    other optional field: its record has no key [id], and carries
    [system_prompt] with the value null. *)
Lemma C1_counterexample :
  exists r,
    (Scheduler.scheduler Iso.fromisoformat Sample.env Sample.now (Sample.call "check")
       (Sample.holding [("daily_review", Sample.daily_review)])).1
    = Scheduler.JobsToRun [r]
    /\ Dict.lookup "id" r = None
    /\ Dict.lookup "job_id" r = Some (JStr "daily_review")
    /\ Sample.daily_review !! "system_prompt" = None
    /\ Dict.lookup "system_prompt" r = Some JNull.
Proof.
  eexists. split; [vm_compute; reflexivity|].
  repeat split; vm_compute; reflexivity.
Qed.

(** ** Retirement of one-time jobs *)

Section Retirement.

Variable fromisoformat : string -> result DateTime.datetime.

Local Abbreviation should_run := (Scheduler.should_run fromisoformat).
Local Abbreviation retires := (Scheduler.retires fromisoformat).
Local Abbreviation due_of := (Scheduler.due_of fromisoformat).
Local Abbreviation retired_of := (Scheduler.retired_of fromisoformat).

(** The records of a due list that belong to one id. *)
Lemma reported_count (now : DateTime.naive) (jid : string)
      (js : list (string * Store.job)) :
  length (List.filter (Scheduler.is_for jid) (due_of now js))
  = length (List.filter (fun p => String.eqb p.1 jid && should_run now p.2) js).
Proof.
  unfold Scheduler.due_of. induction js as [|[k j] js IH]; [done|].
  cbn [List.filter fst snd].
  destruct (should_run now j); cbn [map List.filter].
  - change (Scheduler.is_for jid (Scheduler.due_record (k, j).1 (k, j).2))
      with (String.eqb k jid).
    rewrite andb_true_r. destruct (String.eqb k jid); cbn [length]; by rewrite IH.
  - by rewrite andb_false_r.
Qed.

Lemma count_absent (jid : string) (g : Store.job -> bool)
      (js : list (string * Store.job)) :
  jid ∉ Dict.keys js ->
  length (List.filter (fun p => String.eqb p.1 jid && g p.2) js) = 0%nat.
Proof.
  unfold Dict.keys. induction js as [|[k j] js IH]; [done|].
  cbn [fmap list_fmap fst]. intros [Hk Hjs]%not_elem_of_cons.
  cbn [List.filter fst snd].
  destruct (String.eqb_spec k jid) as [->|]; [done|]. by apply IH.
Qed.

Lemma count_present (jid : string) (j : Store.job) (g : Store.job -> bool)
      (js : list (string * Store.job)) :
  Dict.wf js -> Dict.lookup jid js = Some j ->
  length (List.filter (fun p => String.eqb p.1 jid && g p.2) js)
  = if g j then 1%nat else 0%nat.
Proof.
  unfold Dict.wf, Dict.keys. induction js as [|[k j'] js IH]; [done|].
  cbn [fmap list_fmap fst Dict.lookup]. intros [Hk Hjs]%NoDup_cons.
  cbn [List.filter fst snd]. rewrite (String.eqb_sym k jid).
  destruct (String.eqb_spec jid k) as [->|Hne].
  - intros [= ->]. cbn [andb].
    pose proof (count_absent k g js Hk) as H0.
    destruct (g j); cbn [length]; by rewrite H0.
  - intros Hl. by apply IH.
Qed.

Lemma retired_elem (now : DateTime.naive) (jid : string) (j : Store.job)
      (js : list (string * Store.job)) :
  (jid, j) ∈ js -> retires now j = true -> jid ∈ retired_of now js.
Proof.
  intros Hin Hr. unfold Scheduler.retired_of.
  apply list_elem_of_fmap. exists (jid, j). split; [done|].
  apply list_elem_of_In, filter_In. split; [by apply list_elem_of_In | done].
Qed.

Lemma retired_inv (now : DateTime.naive) (jid : string)
      (js : list (string * Store.job)) :
  jid ∈ retired_of now js -> exists j, (jid, j) ∈ js /\ retires now j = true.
Proof.
  unfold Scheduler.retired_of.
  intros ([k j] & -> & Hin%list_elem_of_In%filter_In)%list_elem_of_fmap.
  exists j. destruct Hin as [Hin Hr]. split; [by apply list_elem_of_In | done].
Qed.

End Retirement.

(** Every evaluation writes the collection at most once: not at all when no
    job retires, and otherwise one document, the collection without the
    retired jobs. *)
Lemma check_writes (fromisoformat : string -> result DateTime.datetime)
      (now : DateTime.naive) (w : Store.world) :
  let s := Store._get_schedules w in
  let js := Store.jobs_of s in
  let w' := (Scheduler.check fromisoformat now w).2 in
  Dict.wf js ->
  (Scheduler.retired_of fromisoformat now js = [] /\ w' = w)
  \/ (Scheduler.retired_of fromisoformat now js <> []
      /\ exists js',
           Scheduler.del_all (Scheduler.retired_of fromisoformat now js) js = Ok js'
           /\ (forall k, Dict.lookup k js'
                         = if bool_decide (k ∈ Scheduler.retired_of fromisoformat now js)
                           then None else Dict.lookup k js)
           /\ Store.saved w'
              = (Store.saved w
                   ++ [{| Store.jobs := Some js'; Store.timezone := Store.timezone s |}])%list
           /\ Store.reads w' = Store.reads w
           /\ Store.content w'
              = match Store.writes w with
                | Store.Up =>
                    Store.Document
                      {| Store.jobs := Some js'; Store.timezone := Store.timezone s |}
                | _ => Store.content w
                end).
Proof.
  intros s js w' Hwf. subst w'.
  destruct (Scheduler.retired_of fromisoformat now js) as [|k ks] eqn:Hr.
  - left. split; [done|]. by rewrite (check_quiet fromisoformat now w Hr).
  - right. split; [done|].
    destruct (check_retiring fromisoformat now w Hwf) as (js' & Hdel & _ & Hl & Hc).
    { fold s js. by rewrite Hr. }
    fold s js in Hdel, Hl, Hc. rewrite Hr in Hdel, Hl.
    exists js'. split; [done|]. split; [done|]. rewrite Hc. cbn [snd].
    unfold Store._save_schedules. by destruct (Store.writes w).
Qed.

(** C3. A collection holds an enabled job [jid] with [once] set whose
    [run_at] is 10 minutes before [now], and the remote answers.  Then
    [check] reports the job once; it writes the collection once, without the
    job and without any other job retired by this evaluation; and a later
    [check] of the saved collection, at any time, does not report the job.
    For every collection, an evaluation that retires no job writes nothing
    and one that retires jobs writes exactly one document. *)
Theorem C3_once_retirement
        (fromisoformat : string -> result DateTime.datetime)
        (e : Scheduler.env) (now : DateTime.naive) (a : Scheduler.args)
        (w : Store.world) (jid : string) (j : Store.job)
        (text : string) (t : DateTime.naive) :
  let s := Store._get_schedules w in
  let js := Store.jobs_of s in
  Scheduler.configured e a -> Scheduler.action a = "check" ->
  Store.reads w = Store.Up -> Store.writes w = Store.Up ->
  Dict.wf js -> Forall (fun p => Scheduler.prompt_is_text p.2) js ->
  Dict.lookup jid js = Some j ->
  Scheduler.enabled j = true ->
  truthy (Store.get "once" j) = true ->
  Store.get "run_at" j = JStr text -> text <> "" ->
  Scheduler.parse_run_at fromisoformat text
  = Ok {| DateTime.fields := t; DateTime.tzinfo := None |} ->
  DateTime.micros t = DateTime.micros now - 10 * DateTime.minute_us ->
  let first := Scheduler.scheduler fromisoformat e now a w in
  Scheduler.times_reported jid first.1 = 1%nat
  /\ (exists js',
        Store.content first.2
        = Store.Document {| Store.jobs := Some js'; Store.timezone := Store.timezone s |}
        /\ Dict.lookup jid js' = None
        /\ (forall k, Dict.lookup k js'
                      = if bool_decide (k ∈ Scheduler.retired_of fromisoformat now js)
                        then None else Dict.lookup k js)
        /\ Store.saved first.2
           = (Store.saved w
                ++ [{| Store.jobs := Some js'; Store.timezone := Store.timezone s |}])%list)
  /\ (forall now',
        Scheduler.times_reported jid
          (Scheduler.scheduler fromisoformat e now' a first.2).1 = 0%nat)
  /\ (forall (w0 : Store.world) (now0 : DateTime.naive),
        let js0 := Store.jobs_of (Store._get_schedules w0) in
        let w1 := (Scheduler.scheduler fromisoformat e now0 a w0).2 in
        Dict.wf js0 ->
        (Scheduler.retired_of fromisoformat now0 js0 = [] /\ w1 = w0)
        \/ (Scheduler.retired_of fromisoformat now0 js0 <> []
            /\ exists doc, Store.saved w1 = (Store.saved w0 ++ [doc])%list)).
Proof.
  intros s js Hc Ha Hreads Hwrites Hwf Hprompts Hj Hen Honce Hrun Htext Hparse Ht first.
  assert (Scheduler.run_at_due fromisoformat now j = true) as Hdue.
  { unfold Scheduler.run_at_due. rewrite Hrun. cbn [truthy].
    apply String.eqb_neq in Htext as ->. cbn [negb andb].
    rewrite (run_at_window fromisoformat text t now Hparse), Ht.
    unfold DateTime.minute_us. apply andb_true_iff. rewrite !Z.leb_le. lia. }
  assert (Scheduler.should_run fromisoformat now j = true) as Hshould.
  { unfold Scheduler.should_run. by rewrite Hen, Hdue, orb_true_r. }
  assert (Scheduler.retires fromisoformat now j = true) as Hret.
  { unfold Scheduler.retires. by rewrite Hen, Hdue, Honce. }
  assert (jid ∈ Scheduler.retired_of fromisoformat now js) as Hin.
  { eapply retired_elem; [|exact Hret]. by apply lookup_elem. }
  pose proof (check_writes fromisoformat now w Hwf) as [[Hnil _]|(_ & js' & Hdel & Hl & Hsaved & Hr' & Hcontent)].
  { fold s js in Hnil. rewrite Hnil in Hin. by apply elem_of_nil in Hin. }
  fold s js in Hdel, Hl, Hsaved, Hcontent. rewrite Hwrites in Hcontent.
  assert (Dict.lookup jid js' = None) as Hgone.
  { rewrite Hl. by rewrite bool_decide_eq_true_2. }
  subst first. rewrite (scheduler_check fromisoformat e now a w Hc Ha). cbn [fst snd].
  split; [|split; [|split]].
  - destruct (check_retiring fromisoformat now w Hwf) as (js2 & Hdel2 & _ & _ & Hcheck).
    { fold s js. intros Hnil. rewrite Hnil in Hin. by apply elem_of_nil in Hin. }
    fold s js in Hdel2, Hcheck. rewrite Hcheck. cbn [fst].
    unfold Store._save_schedules. rewrite Hwrites. cbn [fst mbind result_bind bind].
    unfold Scheduler.answer_of. rewrite (render_due_of fromisoformat now js Hprompts).
    cbn [mbind result_bind bind Scheduler.report catch Scheduler.times_reported].
    rewrite reported_count, (count_present jid j _ js Hwf Hj). by rewrite Hshould.
  - exists js'. by repeat split.
  - intros now'.
    set (w' := (Scheduler.check fromisoformat now w).2) in *.
    rewrite (scheduler_check fromisoformat e now' a w' Hc Ha). cbn [fst].
    destruct (Scheduler.report (Scheduler.check fromisoformat now' w').1)
      as [| |due'|] eqn:Hresp; try done.
    apply check_answer in Hresp. subst due'.
    unfold Store._get_schedules. rewrite Hr', Hreads, Hcontent.
    cbn [Scheduler.times_reported Store.jobs_of Store.jobs default].
    rewrite reported_count. apply count_absent. by apply lookup_None_keys.
  - intros w0 now0 Hwf0.
    rewrite (scheduler_check fromisoformat e now0 a w0 Hc Ha). cbn [snd].
    destruct (check_writes fromisoformat now0 w0 Hwf0)
      as [[Hnil Hsame]|(Hne & js1 & _ & _ & Hsaved1 & _)].
    + left. by split.
    + right. split; [done|]. by eexists.
Qed.

Lemma C3_once_retirement_witness :
  Scheduler.times_reported "deploy"
    (Scheduler.scheduler Iso.fromisoformat Sample.env Sample.now (Sample.call "check")
       (Sample.holding [("daily_review", Sample.daily_review);
                        ("deploy", Sample.deploy)])).1 = 1%nat.
Proof.
  refine (proj1 (C3_once_retirement Iso.fromisoformat Sample.env Sample.now
                   (Sample.call "check")
                   (Sample.holding [("daily_review", Sample.daily_review);
                                    ("deploy", Sample.deploy)])
                   "deploy" Sample.deploy "2024-01-17T08:50:00Z" (Sample.at_time 8 50)
                   _ _ _ _ _ _ _ _ _ _ _ _ _)).
  - split; vm_compute; discriminate.
  - reflexivity.
  - reflexivity.
  - reflexivity.
  - unfold Dict.wf. apply (bool_decide_unpack (NoDup _)). vm_compute. exact I.
  - repeat constructor; eexists; vm_compute; reflexivity.
  - vm_compute. reflexivity.
  - vm_compute. reflexivity.
  - vm_compute. reflexivity.
  - vm_compute. reflexivity.
  - discriminate.
  - vm_compute. reflexivity.
  - vm_compute. reflexivity.
Defined.

(** ** Failing closed *)

Section FailClosed.

Variable fromisoformat : string -> result DateTime.datetime.

Lemma cron_parse_failure (text : string) (now : DateTime.naive) (x : exn) :
  Cron._parse_cron text = Raise x ->
  Scheduler._cron_matches (JStr text) now = false.
Proof.
  intros H. unfold Scheduler._cron_matches, Scheduler.cron_body. by rewrite H.
Qed.

Lemma run_at_parse_failure (text : string) (now : DateTime.naive) (x : exn) :
  fromisoformat (Py.replace "Z" "+00:00" text) = Raise x ->
  Scheduler._run_at_matches fromisoformat (JStr text) now = false.
Proof.
  intros H. unfold Scheduler._run_at_matches, Scheduler.run_at_body,
    Scheduler.parse_run_at. rewrite H.
  by destruct (negb (Py.contains "+" _) && negb (Py.contains "-" _)).
Qed.

Lemma unreadable_not_due (now : DateTime.naive) (j : Store.job) :
  Scheduler.unreadable fromisoformat now j ->
  Scheduler.should_run fromisoformat now j = false
  /\ Scheduler.retires fromisoformat now j = false.
Proof.
  intros [Hcron Hrun].
  assert (Scheduler.cron_due now j = false) as Hc.
  { unfold Scheduler.cron_due. destruct (truthy (Store.get "cron" j)); [|done].
    destruct (Hcron eq_refl) as [x Hx]. unfold Scheduler._cron_matches. by rewrite Hx. }
  assert (Scheduler.run_at_due fromisoformat now j = false) as Hr.
  { unfold Scheduler.run_at_due. destruct (truthy (Store.get "run_at" j)); [|done].
    destruct (Hrun eq_refl) as [x Hx]. unfold Scheduler._run_at_matches. by rewrite Hx. }
  unfold Scheduler.should_run, Scheduler.retires. rewrite Hc, Hr.
  by rewrite !andb_false_r.
Qed.

(** A job that is neither due nor retired leaves no trace in the loop. *)
Lemma loop_skips (now : DateTime.naive) (jid : string) (j : Store.job)
      (js1 js2 : list (string * Store.job)) :
  Scheduler.should_run fromisoformat now j = false ->
  Scheduler.retires fromisoformat now j = false ->
  Scheduler.due_of fromisoformat now (js1 ++ (jid, j) :: js2)
  = Scheduler.due_of fromisoformat now (js1 ++ js2)
  /\ Scheduler.retired_of fromisoformat now (js1 ++ (jid, j) :: js2)
     = Scheduler.retired_of fromisoformat now (js1 ++ js2).
Proof.
  intros Hs Hr. unfold Scheduler.due_of, Scheduler.retired_of.
  rewrite !List.filter_app. cbn [List.filter snd]. by rewrite Hs, Hr.
Qed.

End FailClosed.

(** The response of [check] on a collection with unique ids. *)
Lemma check_response (fromisoformat : string -> result DateTime.datetime)
      (now : DateTime.naive) (w : Store.world) :
  let js := Store.jobs_of (Store._get_schedules w) in
  Dict.wf js ->
  (Scheduler.check fromisoformat now w).1
  = match Scheduler.retired_of fromisoformat now js, Store.writes w with
    | _ :: _, Store.Down text => Raise (Exn RequestException text)
    | _, _ => Scheduler.answer_of (Scheduler.due_of fromisoformat now js)
    end.
Proof.
  intros js Hwf.
  destruct (Scheduler.retired_of fromisoformat now js) as [|k ks] eqn:Hr.
  - by rewrite (check_quiet fromisoformat now w Hr).
  - destruct (check_retiring fromisoformat now w Hwf) as (js' & _ & _ & _ & ->).
    { fold js. by rewrite Hr. }
    unfold Store._save_schedules. by destruct (Store.writes w).
Qed.

Lemma wf_without {V : Type} (jid : string) (v : V) (d1 d2 : list (string * V)) :
  Dict.wf (d1 ++ (jid, v) :: d2) -> Dict.wf (d1 ++ d2).
Proof.
  unfold Dict.wf, Dict.keys. rewrite !fmap_app, fmap_cons.
  intros H. eapply sublist_NoDup; [exact H|].
  apply sublist_app; [done|]. by apply sublist_cons.
Qed.

(** The number of times a response of [check] reports an id of the
    collection it read. *)
Lemma check_reports (fromisoformat : string -> result DateTime.datetime)
      (now : DateTime.naive) (w : Store.world) (jid : string) (j : Store.job) :
  let js := Store.jobs_of (Store._get_schedules w) in
  Dict.wf js -> Dict.lookup jid js = Some j ->
  Scheduler.times_reported jid
    (Scheduler.report (Scheduler.check fromisoformat now w).1)
  = match Scheduler.report (Scheduler.check fromisoformat now w).1 with
    | Scheduler.JobsToRun _ =>
        if Scheduler.should_run fromisoformat now j then 1%nat else 0%nat
    | _ => 0%nat
    end.
Proof.
  intros js Hwf Hj.
  destruct (Scheduler.report (Scheduler.check fromisoformat now w).1)
    as [| |due|] eqn:Hresp; try done.
  apply check_answer in Hresp. subst due. fold js.
  cbn [Scheduler.times_reported].
  by rewrite reported_count, (count_present jid j _ js Hwf Hj).
Qed.

(** An entry of a collection with unique ids is found under its id. *)
Lemma lookup_middle {V : Type} (k : string) (v : V) (d1 d2 : list (string * V)) :
  Dict.wf (d1 ++ (k, v) :: d2) -> Dict.lookup k (d1 ++ (k, v) :: d2) = Some v.
Proof.
  intros Hwf. apply lookup_Some_elem; [exact Hwf|].
  apply elem_of_app. right. apply elem_of_cons. by left.
Qed.

(** C7. [check] never raises from trigger matching.  A cron expression that
    [_parse_cron] rejects and a [run_at] that [fromisoformat] rejects do not
    match.  A stored job whose matchers raise is not reported, and every
    other job is still evaluated: the tool answers with the due records of
    the other jobs, as it does on the collection without that job, whatever
    the prompt of the skipped job is; a job that is due is reported once and
    a job that is not due is not reported.  The only error left is the one
    of a write that fails when a job is retired. *)
Theorem C7_fail_closed
        (fromisoformat : string -> result DateTime.datetime)
        (e : Scheduler.env) (now : DateTime.naive) (a : Scheduler.args) :
  (forall text x,
     Cron._parse_cron text = Raise x ->
     Scheduler._cron_matches (JStr text) now = false)
  /\ (forall text x,
        fromisoformat (Py.replace "Z" "+00:00" text) = Raise x ->
        Scheduler._run_at_matches fromisoformat (JStr text) now = false)
  /\ (forall (w : Store.world) (jid : string) (j : Store.job)
             (js1 js2 : list (string * Store.job)),
        Scheduler.action a = "check" ->
        Store.jobs_of (Store._get_schedules w) = (js1 ++ (jid, j) :: js2)%list ->
        Dict.wf (js1 ++ (jid, j) :: js2) ->
        Scheduler.unreadable fromisoformat now j ->
        let answer := (Scheduler.scheduler fromisoformat e now a w).1 in
        Scheduler.due_of fromisoformat now (js1 ++ (jid, j) :: js2)
        = Scheduler.due_of fromisoformat now (js1 ++ js2)
        /\ answer
           = (Scheduler.scheduler fromisoformat e now a
                (Store.with_jobs (js1 ++ js2) w)).1
        /\ (Scheduler.configured e a ->
            Forall (fun p => Scheduler.prompt_is_text p.2) (js1 ++ js2) ->
            answer
            = match Scheduler.retired_of fromisoformat now (js1 ++ js2),
                    Store.writes w with
              | _ :: _, Store.Down text => Scheduler.Failure ("Error: " ++ text)
              | _, _ =>
                  Scheduler.JobsToRun (Scheduler.due_of fromisoformat now (js1 ++ js2))
              end)
        /\ (forall due,
              answer = Scheduler.JobsToRun due ->
              Scheduler.times_reported jid answer = 0%nat
              /\ forall k jk,
                   Dict.lookup k (js1 ++ (jid, j) :: js2) = Some jk ->
                   Scheduler.times_reported k answer
                   = if Scheduler.should_run fromisoformat now jk then 1%nat
                     else 0%nat)).
Proof.
  split; [intros text x; apply cron_parse_failure|].
  split; [intros text x; apply run_at_parse_failure|].
  intros w jid j js1 js2 Ha Hjs Hwf Hbad answer. subst answer.
  destruct (unreadable_not_due fromisoformat now j Hbad) as [Hs Hr].
  destruct (loop_skips fromisoformat now jid j js1 js2 Hs Hr) as [Hdue Hret].
  split; [done|].
  assert (Store.reads w = Store.Up) as Hreads.
  { unfold Store._get_schedules in Hjs.
    destruct (Store.reads w); [done| |]; by destruct js1. }
  assert (Store.jobs_of (Store._get_schedules (Store.with_jobs (js1 ++ js2) w))
          = (js1 ++ js2)%list) as Hjs'.
  { unfold Store._get_schedules, Store.with_jobs. cbn [Store.reads Store.content].
    by rewrite Hreads. }
  assert (Dict.wf (Store.jobs_of (Store._get_schedules w))) as Hwf'
    by (by rewrite Hjs).
  split; [|split].
  - destruct (scheduler_cases fromisoformat e a) as [[text Hf]|Hc].
    + by rewrite !Hf.
    + rewrite !(scheduler_check fromisoformat e now a _ Hc Ha). cbn [fst].
      rewrite !check_response; rewrite ?Hjs, ?Hjs'; [|by eapply wf_without|done].
      by rewrite Hdue, Hret.
  - intros Hc Hprompts.
    rewrite (scheduler_check fromisoformat e now a _ Hc Ha). cbn [fst].
    rewrite check_response by exact Hwf'. rewrite Hjs, Hdue, Hret.
    unfold Scheduler.answer_of.
    rewrite (render_due_of fromisoformat now (js1 ++ js2) Hprompts).
    destruct (Scheduler.retired_of fromisoformat now (js1 ++ js2)) as [|k ks];
      [done|]. by destruct (Store.writes w).
  - intros due Hanswer.
    destruct (scheduler_cases fromisoformat e a) as [[text Hf]|Hc].
    { rewrite Hf in Hanswer. discriminate Hanswer. }
    rewrite (scheduler_check fromisoformat e now a _ Hc Ha) in Hanswer |- *.
    cbn [fst] in Hanswer |- *.
    assert (forall k jk,
              Dict.lookup k (js1 ++ (jid, j) :: js2) = Some jk ->
              Scheduler.times_reported k
                (Scheduler.report (Scheduler.check fromisoformat now w).1)
              = if Scheduler.should_run fromisoformat now jk then 1%nat else 0%nat)
      as Hall.
    { intros k jk Hk. rewrite <- Hjs in Hk.
      rewrite (check_reports fromisoformat now w k jk Hwf' Hk).
      by rewrite Hanswer. }
    split; [|exact Hall].
    rewrite (Hall jid j (lookup_middle jid j js1 js2 Hwf)). by rewrite Hs.
Qed.

Lemma C7_fail_closed_witness :
  Scheduler._cron_matches (JStr "every day") Sample.now = false
  /\ Scheduler._run_at_matches Iso.fromisoformat (JStr "tomorrow") Sample.now = false
  /\ (Scheduler.scheduler Iso.fromisoformat Sample.env Sample.now (Sample.call "check")
        (Sample.holding [("daily_review", Sample.daily_review);
                         ("legacy", Sample.legacy); ("deploy", Sample.deploy)])).1
     = Scheduler.JobsToRun
         [Scheduler.due_record "daily_review" Sample.daily_review;
          Scheduler.due_record "deploy" Sample.deploy]
  /\ Scheduler.times_reported "legacy"
       (Scheduler.scheduler Iso.fromisoformat Sample.env Sample.now
          (Sample.call "check")
          (Sample.holding [("daily_review", Sample.daily_review);
                           ("legacy", Sample.legacy); ("deploy", Sample.deploy)])).1
     = 0%nat
  /\ Scheduler.times_reported "deploy"
       (Scheduler.scheduler Iso.fromisoformat Sample.env Sample.now
          (Sample.call "check")
          (Sample.holding [("daily_review", Sample.daily_review);
                           ("legacy", Sample.legacy); ("deploy", Sample.deploy)])).1
     = 1%nat.
Proof.
  pose proof (C7_fail_closed Iso.fromisoformat Sample.env Sample.now
                (Sample.call "check")) as (Hcron & Hrun & Hskip).
  split; [|split].
  - apply (Hcron "every day"
             (Exn ValueError "Invalid cron expression: every day (expected 5 fields)")).
    vm_compute. reflexivity.
  - apply (Hrun "tomorrow" (Exn ValueError "Invalid isoformat string: 'tomorrow'")).
    vm_compute. reflexivity.
  - destruct (Hskip (Sample.holding [("daily_review", Sample.daily_review);
                                     ("legacy", Sample.legacy);
                                     ("deploy", Sample.deploy)])
                "legacy" Sample.legacy
                [("daily_review", Sample.daily_review)] [("deploy", Sample.deploy)]
                eq_refl)
      as (_ & _ & Hanswer & Hcounts).
    + vm_compute. reflexivity.
    + unfold Dict.wf. apply (bool_decide_unpack (NoDup _)). vm_compute. exact I.
    + split; intros _; eexists; vm_compute; reflexivity.
    + assert ((Scheduler.scheduler Iso.fromisoformat Sample.env Sample.now
                 (Sample.call "check")
                 (Sample.holding [("daily_review", Sample.daily_review);
                                  ("legacy", Sample.legacy);
                                  ("deploy", Sample.deploy)])).1
              = Scheduler.JobsToRun
                  [Scheduler.due_record "daily_review" Sample.daily_review;
                   Scheduler.due_record "deploy" Sample.deploy]) as Hdue.
      { apply Hanswer.
        - split; vm_compute; discriminate.
        - repeat constructor; eexists; vm_compute; reflexivity. }
      destruct (Hcounts _ Hdue) as [Hlegacy Hothers].
      split; [exact Hdue|]. split; [exact Hlegacy|].
      exact (Hothers "deploy" Sample.deploy eq_refl).
Defined.

(** ** Cron-only jobs are never retired *)


Lemma check_keeps
      (fromisoformat : string -> result DateTime.datetime)
      (now : DateTime.naive) (w : Store.world) (jid : string) (j : Store.job) :
  let js := Store.jobs_of (Store._get_schedules w) in
  Dict.wf js -> Dict.lookup jid js = Some j ->
  jid ∉ Scheduler.retired_of fromisoformat now js ->
  Dict.lookup jid
    (Store.jobs_of (Store._get_schedules (Scheduler.check fromisoformat now w).2))
  = Some j.
Proof.
  intros js Hwf Hj Hnot.
  destruct (check_writes fromisoformat now w Hwf)
    as [[_ ->]|(_ & js' & _ & Hl & _ & Hreads & Hcontent)]; [done|].
  fold js in Hl. unfold Store._get_schedules at 1. rewrite Hreads, Hcontent.
  subst js. unfold Store._get_schedules in *.
  destruct (Store.reads w); [|done|done].
  destruct (Store.writes w); [|done|done].
  cbn [Store.jobs_of Store.jobs default]. rewrite Hl.
  by rewrite bool_decide_eq_false_2.
Qed.

(** ** The [add] action *)

Section Add.

Variable fromisoformat : string -> result DateTime.datetime.

Lemma scheduler_add (e : Scheduler.env) (now : DateTime.naive)
      (a : Scheduler.args) (w : Store.world) :
  Scheduler.configured e a -> Scheduler.action a = "add" ->
  Scheduler.scheduler fromisoformat e now a w
  = (Scheduler.report (Scheduler.add fromisoformat a w).1,
     (Scheduler.add fromisoformat a w).2).
Proof.
  intros [Hrepo Htoken] Ha. unfold Scheduler.scheduler. rewrite Ha.
  apply String.eqb_neq in Hrepo as ->. apply String.eqb_neq in Htoken as ->.
  cbn [String.eqb Ascii.eqb Bool.eqb]. by destruct (Scheduler.add _ a w).
Qed.

Lemma scheduler_get (e : Scheduler.env) (now : DateTime.naive)
      (a : Scheduler.args) (w : Store.world) :
  Scheduler.configured e a -> Scheduler.action a = "get" ->
  Scheduler.scheduler fromisoformat e now a w
  = (Scheduler.report (Scheduler.get_job a w).1, (Scheduler.get_job a w).2).
Proof.
  intros [Hrepo Htoken] Ha. unfold Scheduler.scheduler. rewrite Ha.
  apply String.eqb_neq in Hrepo as ->. apply String.eqb_neq in Htoken as ->.
  cbn [String.eqb Ascii.eqb Bool.eqb]. by destruct (Scheduler.get_job a w).
Qed.

(** A validation either passes or refuses with an error. *)
Lemma validate_cron_cases (a : Scheduler.args) :
  Scheduler.validate_cron a = Ok None
  \/ exists text, Scheduler.validate_cron a = Ok (Some (Scheduler.Failure text)).
Proof.
  unfold Scheduler.validate_cron. destruct (Scheduler.given (Scheduler.cron a)); [|by left].
  unfold Cron._parse_cron.
  destruct (Py.split_ws _) as [|p0 [|p1 [|p2 [|p3 [|p4 [|p5 ps]]]]]]; eauto.
Qed.

Lemma validate_run_at_cases (a : Scheduler.args) :
  Scheduler.validate_run_at fromisoformat a = Ok None
  \/ (exists text,
        Scheduler.validate_run_at fromisoformat a = Ok (Some (Scheduler.Failure text)))
  \/ exists x, Scheduler.validate_run_at fromisoformat a = Raise x.
Proof.
  unfold Scheduler.validate_run_at.
  destruct (Scheduler.given (Scheduler.run_at a)); [|by left].
  destruct (fromisoformat _) as [dt|[[] text]]; eauto.
Qed.

(** What a completed [add] did: it passed the validations and wrote the
    collection with the new job under its id. *)
Lemma add_completed (a : Scheduler.args) (w : Store.world) :
  Scheduler.report (Scheduler.add fromisoformat a w).1 = Scheduler.Completed ->
  let s := Store._get_schedules w in
  let doc := {| Store.jobs :=
                  Some (Dict.set (Scheduler.text_of (Scheduler.job_id a))
                                 (Scheduler.new_job a) (Store.jobs_of s));
                Store.timezone := Store.timezone s |} in
  Scheduler.given (Scheduler.job_id a) = true
  /\ (Scheduler.given (Scheduler.cron a) = true
      \/ Scheduler.given (Scheduler.run_at a) = true)
  /\ Scheduler.given (Scheduler.prompt a) = true
  /\ Store.writes w = Store.Up
  /\ (Scheduler.add fromisoformat a w).2
     = {| Store.content := Store.Document doc; Store.reads := Store.reads w;
          Store.writes := Store.writes w;
          Store.saved := (Store.saved w ++ [doc])%list |}.
Proof.
  unfold Scheduler.add.
  destruct (Scheduler.given (Scheduler.job_id a)); cbn [negb]; [|done].
  destruct (Scheduler.given (Scheduler.cron a)) eqn:Hcron;
    destruct (Scheduler.given (Scheduler.run_at a)) eqn:Hrun; cbn [negb andb];
    try done;
    (destruct (Scheduler.given (Scheduler.prompt a)); cbn [negb]; [|done];
     destruct (validate_cron_cases a) as [->|[text ->]]; [|done];
     destruct (validate_run_at_cases a) as [->|[[text ->]|[x ->]]]; [|done|done];
     unfold Store._save_schedules;
     destruct (Store.writes w); [|done|done];
     cbn; intros _; repeat split; auto).
Qed.

End Add.

(** *** The job that [add] stores *)

Lemma lookup_insert_eqb (k k' : string) (v : json) (j : Store.job) :
  <[k := v]> j !! k' = if String.eqb k k' then Some v else j !! k'.
Proof.
  destruct (String.eqb_spec k k') as [->|Hne].
  - apply lookup_insert_eq.
  - by apply lookup_insert_ne.
Qed.

Lemma lookup_set_if (c : bool) (k k' : string) (v : json) (j : Store.job) :
  Scheduler.set_if c k v j !! k'
  = if String.eqb k k' then (if c then Some v else j !! k') else j !! k'.
Proof.
  unfold Scheduler.set_if. destruct c; [apply lookup_insert_eqb|].
  by destruct (String.eqb k k').
Qed.

(** Reads a literal key through the assignments of [new_job]. *)
Ltac job_lookup :=
  repeat (first [rewrite lookup_set_if | rewrite lookup_insert_eqb | rewrite lookup_empty];
          cbn [String.eqb Ascii.eqb Bool.eqb negb]).

(** The fields of the stored job, one by one; there are no others. *)
Lemma new_job_fields (a : Scheduler.args) :
  let j := Scheduler.new_job a in
  j !! "prompt" = Some (JStr (Scheduler.text_of (Scheduler.prompt a)))
  /\ j !! "enabled" = Some (JBool true)
  /\ j !! "cron" = Scheduler.stored_text (Scheduler.cron a)
  /\ j !! "run_at" = Scheduler.stored_text (Scheduler.run_at a)
  /\ j !! "once" = (if Scheduler.given (Scheduler.run_at a) && Scheduler.once a
                    then Some (JBool true) else None)
  /\ j !! "system_prompt" = Scheduler.stored_text (Scheduler.system_prompt a)
  /\ j !! "tools" = Scheduler.stored_text (Scheduler.tools a)
  /\ j !! "model" = Scheduler.stored_text (Scheduler.model a)
  /\ j !! "max_tokens" = match Scheduler.max_tokens a with
                         | Some n => if n =? 0 then None else Some (JInt n)
                         | None => None
                         end
  /\ j !! "context" = Scheduler.stored_text (Scheduler.context a)
  /\ forall k,
       k ∉ ["prompt"; "enabled"; "cron"; "run_at"; "once"; "system_prompt";
            "tools"; "model"; "max_tokens"; "context"] ->
       j !! k = None.
Proof.
  intros j. subst j. unfold Scheduler.new_job, Scheduler.stored_text.
  split; [|split; [|split; [|split; [|split; [|split; [|split; [|split;
    [|split; [|split]]]]]]]]];
    try (destruct (Scheduler.max_tokens a) as [n|]; job_lookup;
         try (destruct (n =? 0)); reflexivity).
  intros k Hk.
  repeat (apply not_elem_of_cons in Hk as [?%String.eqb_neq Hk]).
  rewrite !(String.eqb_sym k) in *.
  destruct (Scheduler.max_tokens a) as [n|];
    repeat (first [rewrite lookup_set_if | rewrite lookup_insert_eqb];
            match goal with
            | H : String.eqb ?x ?y = false |- context [String.eqb ?x ?y] => rewrite H
            end);
    apply lookup_empty.
Qed.



(** ** Validation in [add] *)

Lemma add_refused (fromisoformat : string -> result DateTime.datetime)
      (a : Scheduler.args) (w : Store.world) :
  (Scheduler.given (Scheduler.cron a) = false
   /\ Scheduler.given (Scheduler.run_at a) = false)
  \/ Scheduler.given (Scheduler.prompt a) = false
  \/ (Scheduler.given (Scheduler.cron a) = true
      /\ length (Py.split_ws (Py.strip (Scheduler.text_of (Scheduler.cron a)))) = 4%nat) ->
  Scheduler.add fromisoformat a w = (Ok (Scheduler.Failure (Scheduler.refusal a)), w).
Proof.
  intros H. unfold Scheduler.add, Scheduler.refusal.
  destruct (Scheduler.given (Scheduler.job_id a)); cbn [negb]; [|done].
  destruct H as [[-> ->]|[H|[Hcron Hlen]]]; [done| |].
  - rewrite H. cbn [negb]. by destruct (negb _ && negb _).
  - rewrite Hcron. cbn [negb andb].
    destruct (Scheduler.given (Scheduler.prompt a)); cbn [negb]; [|done].
    unfold Scheduler.validate_cron, Cron._parse_cron. rewrite Hcron.
    by destruct (Py.split_ws _) as [|p0 [|p1 [|p2 [|p3 [|p4 [|p5 ps]]]]]].
Qed.

(** C6. [add] fails with an error, stores no job and writes nothing when
    neither [cron] nor [run_at] is given, when [prompt] is empty, or when the
    cron string has 4 fields; with a repository and a token at hand the
    error is the validation's. *)
Theorem C6_add_validation
        (fromisoformat : string -> result DateTime.datetime)
        (e : Scheduler.env) (now : DateTime.naive) (a : Scheduler.args)
        (w : Store.world) :
  Scheduler.action a = "add" ->
  (Scheduler.given (Scheduler.cron a) = false
   /\ Scheduler.given (Scheduler.run_at a) = false)
  \/ Scheduler.given (Scheduler.prompt a) = false
  \/ (Scheduler.given (Scheduler.cron a) = true
      /\ length (Py.split_ws (Py.strip (Scheduler.text_of (Scheduler.cron a)))) = 4%nat) ->
  exists text,
    Scheduler.scheduler fromisoformat e now a w = (Scheduler.Failure text, w)
    /\ (Scheduler.configured e a -> text = Scheduler.refusal a).
Proof.
  intros Ha H.
  pose proof (add_refused fromisoformat a w H) as Hadd.
  destruct (scheduler_cases fromisoformat e a) as [[text Hf]|Hc].
  - exists text. split; [apply Hf|]. intros Hc.
    specialize (Hf now w).
    rewrite (scheduler_add fromisoformat e now a w Hc Ha), Hadd in Hf.
    cbn in Hf. by injection Hf as <-.
  - exists (Scheduler.refusal a).
    rewrite (scheduler_add fromisoformat e now a w Hc Ha), Hadd. by split.
Qed.

Lemma C6_add_validation_witness :
  exists text,
    Scheduler.scheduler Iso.fromisoformat Sample.env Sample.now
      {| Scheduler.action := "add"; Scheduler.job_id := Some "nightly";
         Scheduler.cron := Some "0 3 * *"; Scheduler.run_at := None;
         Scheduler.once := false; Scheduler.prompt := Some "Run the nightly build";
         Scheduler.system_prompt := None; Scheduler.tools := None;
         Scheduler.model := None; Scheduler.max_tokens := None;
         Scheduler.context := None; Scheduler.repository := None |}
      (Sample.holding [("daily_review", Sample.daily_review)])
    = (Scheduler.Failure text, Sample.holding [("daily_review", Sample.daily_review)])
    /\ (Scheduler.configured Sample.env
          {| Scheduler.action := "add"; Scheduler.job_id := Some "nightly";
             Scheduler.cron := Some "0 3 * *"; Scheduler.run_at := None;
             Scheduler.once := false; Scheduler.prompt := Some "Run the nightly build";
             Scheduler.system_prompt := None; Scheduler.tools := None;
             Scheduler.model := None; Scheduler.max_tokens := None;
             Scheduler.context := None; Scheduler.repository := None |} ->
        text = "Error: Invalid cron expression: 0 3 * * (expected 5 fields)").
Proof.
  apply (C6_add_validation Iso.fromisoformat Sample.env Sample.now
           {| Scheduler.action := "add"; Scheduler.job_id := Some "nightly";
              Scheduler.cron := Some "0 3 * *"; Scheduler.run_at := None;
              Scheduler.once := false; Scheduler.prompt := Some "Run the nightly build";
              Scheduler.system_prompt := None; Scheduler.tools := None;
              Scheduler.model := None; Scheduler.max_tokens := None;
              Scheduler.context := None; Scheduler.repository := None |}
           (Sample.holding [("daily_review", Sample.daily_review)]) eq_refl).
  right. right. split; reflexivity.
Defined.

(** ** [add], then [get] *)

(** On one variable: a completed [add] stores the job built from the
    arguments alone, and a [get] of the id on that variable returns it. *)
Lemma add_then_get_variable
      (fromisoformat : string -> result DateTime.datetime)
      (e : Scheduler.env) (now now' : DateTime.naive)
      (a g : Scheduler.args) (w : Store.world) :
  Scheduler.action a = "add" -> Scheduler.action g = "get" ->
  Scheduler.job_id g = Scheduler.job_id a -> Scheduler.configured e g ->
  Store.reads w = Store.Up ->
  (Scheduler.scheduler fromisoformat e now a w).1 = Scheduler.Completed ->
  exists j,
    (Scheduler.scheduler fromisoformat e now' g
       (Scheduler.scheduler fromisoformat e now a w).2).1 = Scheduler.JobDetail j
    /\ j = Scheduler.new_job a
    /\ j !! "prompt" = Some (JStr (Scheduler.text_of (Scheduler.prompt a)))
    /\ j !! "enabled" = Some (JBool true)
    /\ j !! "cron" = Scheduler.stored_text (Scheduler.cron a)
    /\ j !! "run_at" = Scheduler.stored_text (Scheduler.run_at a)
    /\ j !! "once" = (if Scheduler.given (Scheduler.run_at a) && Scheduler.once a
                      then Some (JBool true) else None)
    /\ j !! "system_prompt" = Scheduler.stored_text (Scheduler.system_prompt a)
    /\ j !! "tools" = Scheduler.stored_text (Scheduler.tools a)
    /\ j !! "model" = Scheduler.stored_text (Scheduler.model a)
    /\ j !! "max_tokens" = match Scheduler.max_tokens a with
                           | Some n => if n =? 0 then None else Some (JInt n)
                           | None => None
                           end
    /\ j !! "context" = Scheduler.stored_text (Scheduler.context a)
    /\ forall k,
         k ∉ ["prompt"; "enabled"; "cron"; "run_at"; "once"; "system_prompt";
              "tools"; "model"; "max_tokens"; "context"] ->
         j !! k = None.
Proof.
  intros Ha Hg Hid Hcg Hreads Hdone.
  destruct (scheduler_cases fromisoformat e a) as [[text Hf]|Hc].
  { rewrite Hf in Hdone. discriminate Hdone. }
  rewrite (scheduler_add fromisoformat e now a w Hc Ha) in Hdone |- *.
  cbn [fst snd] in Hdone |- *.
  destruct (add_completed fromisoformat a w Hdone) as (Hjid & _ & _ & _ & ->).
  exists (Scheduler.new_job a). split; [|split; [done | apply new_job_fields]].
  rewrite (scheduler_get fromisoformat e now' g _ Hcg Hg). cbn [fst].
  unfold Scheduler.get_job. rewrite Hid, Hjid. cbn [negb].
  unfold Store._get_schedules. cbn [Store.reads Store.content]. rewrite Hreads.
  cbn [Store.jobs_of Store.jobs default from_option id].
  by rewrite lookup_set, String.eqb_refl.
Qed.

(** C4 (as amended). A completed [add] replaces any job stored under the id
    by a job built from the arguments alone, with [enabled] true; a [get] of
    the id addressed to the same repository then returns that job.  It holds
    the prompt, every string argument that is given and not empty,
    [max_tokens] when it is not zero, and [once] (as true) only when [run_at]
    is given and [once] is set; it has no other field, whatever the replaced
    job held. *)
Theorem C4_add_then_get
        (fromisoformat : string -> result DateTime.datetime)
        (e : Scheduler.env) (now now' : DateTime.naive)
        (a g : Scheduler.args) (hub : Scheduler.variables) :
  Scheduler.action a = "add" -> Scheduler.action g = "get" ->
  Scheduler.job_id g = Scheduler.job_id a -> Scheduler.configured e g ->
  Scheduler.repository_of e g = Scheduler.repository_of e a ->
  Store.reads (hub (Scheduler.repository_of e a)) = Store.Up ->
  (Scheduler.scheduler_at fromisoformat e now a hub).1 = Scheduler.Completed ->
  exists j,
    (Scheduler.scheduler_at fromisoformat e now' g
       (Scheduler.scheduler_at fromisoformat e now a hub).2).1 = Scheduler.JobDetail j
    /\ j = Scheduler.new_job a
    /\ j !! "prompt" = Some (JStr (Scheduler.text_of (Scheduler.prompt a)))
    /\ j !! "enabled" = Some (JBool true)
    /\ j !! "cron" = Scheduler.stored_text (Scheduler.cron a)
    /\ j !! "run_at" = Scheduler.stored_text (Scheduler.run_at a)
    /\ j !! "once" = (if Scheduler.given (Scheduler.run_at a) && Scheduler.once a
                      then Some (JBool true) else None)
    /\ j !! "system_prompt" = Scheduler.stored_text (Scheduler.system_prompt a)
    /\ j !! "tools" = Scheduler.stored_text (Scheduler.tools a)
    /\ j !! "model" = Scheduler.stored_text (Scheduler.model a)
    /\ j !! "max_tokens" = match Scheduler.max_tokens a with
                           | Some n => if n =? 0 then None else Some (JInt n)
                           | None => None
                           end
    /\ j !! "context" = Scheduler.stored_text (Scheduler.context a)
    /\ forall k,
         k ∉ ["prompt"; "enabled"; "cron"; "run_at"; "once"; "system_prompt";
              "tools"; "model"; "max_tokens"; "context"] ->
         j !! k = None.
Proof.
  intros Ha Hg Hid Hcg Hrepo Hreads Hdone.
  rewrite scheduler_at_answer in Hdone.
  rewrite (proj1 (scheduler_at_then fromisoformat e now now' a g hub Hrepo)).
  exact (add_then_get_variable fromisoformat e now now' a g _
           Ha Hg Hid Hcg Hreads Hdone).
Qed.

Lemma C4_add_then_get_witness :
  exists j,
    (Scheduler.scheduler_at Iso.fromisoformat Sample.env Sample.now
       (Sample.call_at "octo/agent" "get" "weekly")
       (Scheduler.scheduler_at Iso.fromisoformat Sample.env Sample.now
          Sample.add_weekly
          (Sample.hub (Sample.holding [("weekly", Sample.paused)]))).2).1
    = Scheduler.JobDetail j
    /\ j !! "enabled" = Some (JBool true)
    /\ j !! "system_prompt" = None.
Proof.
  destruct (C4_add_then_get Iso.fromisoformat Sample.env Sample.now Sample.now
              Sample.add_weekly (Sample.call_at "octo/agent" "get" "weekly")
              (Sample.hub (Sample.holding [("weekly", Sample.paused)]))
              eq_refl eq_refl eq_refl
              ltac:(split; vm_compute; discriminate) eq_refl eq_refl
              ltac:(vm_compute; reflexivity))
    as (j & Hget & _ & _ & Hen & _ & _ & _ & Hsys & _).
  exists j. split; [exact Hget|]. split; [exact Hen | exact Hsys].
Defined.

(** C4 as stated fails on [once]: the call sets it, and the job that [get]
    returns from the same repository has no [once] field, the call giving a
    cron trigger and no [run_at]. *)
Lemma C4_counterexample :
  Scheduler.once Sample.add_weekly = true
  /\ exists j,
       (Scheduler.scheduler_at Iso.fromisoformat Sample.env Sample.now
          Sample.get_weekly
          (Scheduler.scheduler_at Iso.fromisoformat Sample.env Sample.now
             Sample.add_weekly (Sample.hub (Sample.holding []))).2).1
       = Scheduler.JobDetail j
       /\ j !! "once" = None.
Proof.
  split; [reflexivity|]. eexists. split; vm_compute; reflexivity.
Qed.

(** ** The project board: [update_item] *)

Lemma find_field_none (n : string) (fs : list Projects.field) :
  Projects.find_field n fs = None <-> Forall (fun f => Projects.name f <> n) fs.
Proof.
  induction fs as [|f fs IH]; cbn [Projects.find_field].
  - split; [constructor | done].
  - rewrite Forall_cons, <- IH.
    destruct (String.eqb_spec (Projects.name f) n) as [Heq|Hne].
    + split; [done | by intros [? _]].
    + split; [by split | by intros [_ ?]].
Qed.

(** The loop stops at the first field whose name is the given string. *)
Lemma find_field_first (n : string) (f : Projects.field)
      (fs1 fs2 : list Projects.field) :
  Forall (fun f' => Projects.name f' <> n) fs1 -> Projects.name f = n ->
  Projects.find_field n (fs1 ++ f :: fs2) = Some f.
Proof.
  intros H1 Hf. induction H1 as [|f' fs1 Hne _ IH]; cbn [app Projects.find_field].
  - by apply String.eqb_eq in Hf as ->.
  - by apply String.eqb_neq in Hne as ->.
Qed.

Lemma find_option_none (v : string) (os : list Projects.select_option) :
  Projects.find_option v os = None <-> Forall (fun o => Projects.option_name o <> v) os.
Proof.
  induction os as [|o os IH]; cbn [Projects.find_option].
  - split; [constructor | done].
  - rewrite Forall_cons, <- IH.
    destruct (String.eqb_spec (Projects.option_name o) v) as [Heq|Hne].
    + split; [done | by intros [? _]].
    + split; [by split | by intros [_ ?]].
Qed.

Lemma find_option_first (v : string) (o : Projects.select_option)
      (os1 os2 : list Projects.select_option) :
  Forall (fun o' => Projects.option_name o' <> v) os1 -> Projects.option_name o = v ->
  Projects.find_option v (os1 ++ o :: os2) = Some o.
Proof.
  intros H1 Ho. induction H1 as [|o' os1 Hne _ IH]; cbn [app Projects.find_option].
  - by apply String.eqb_eq in Ho as ->.
  - by apply String.eqb_neq in Hne as ->.
Qed.

(** C8. [update_item] looks the field up by equality of strings, case
    included.  When no fetched field has the name, it fails with the names of
    all fetched fields, in order, joined by a comma and a space.  On a
    single-select field it looks the value up among the option names in the
    same way: when no option has the name it fails with all option names,
    and nothing is sent; when one has, the mutation carries the id of the
    first such option as [singleSelectOptionId]. *)
Theorem C8_update_item
        (float : string -> result Projects.pyfloat)
        (out_of_range : Projects.pyfloat -> string)
        (e : Projects.env) (w : Projects.world)
        (project_id : option string) (pid item_id field_name v : string)
        (p : Projects.project) :
  Projects.resolve_project_id e project_id = Some pid ->
  Projects._get_project e w pid 1 = Ok (Some p) ->
  item_id <> "" -> field_name <> "" ->
  let run := Projects.projects_update_item float out_of_range e project_id
               (Some item_id) (Some field_name) (Some v) w in
  (Forall (fun f => Projects.name f <> field_name) (Projects.fields p) ->
   run = (Projects.Failure
            ("Field '" ++ field_name ++ "' not found. Available: "
             ++ Py.join ", " (map Projects.name (Projects.fields p))), w))
  /\ (forall (f : Projects.field) (fs1 fs2 : list Projects.field),
        Projects.fields p = (fs1 ++ f :: fs2)%list ->
        Forall (fun f' => Projects.name f' <> field_name) fs1 ->
        Projects.name f = field_name ->
        Projects.dataType f = "SINGLE_SELECT" ->
        let os := default [] (Projects.options f) in
        (Forall (fun o => Projects.option_name o <> v) os ->
         run = (Projects.Failure
                  ("Option '" ++ v ++ "' not found. Available: "
                   ++ Py.join ", " (map Projects.option_name os)), w))
        /\ (forall (o : Projects.select_option)
                   (os1 os2 : list Projects.select_option),
              os = (os1 ++ o :: os2)%list ->
              Forall (fun o' => Projects.option_name o' <> v) os1 ->
              Projects.option_name o = v ->
              Projects.option_id o <> "" ->
              let m := {| Projects.projectId := pid; Projects.itemId := item_id;
                          Projects.fieldId := Projects.id f;
                          Projects.sent_value := Projects.Text (Projects.option_id o);
                          Projects.value_type := "singleSelectOptionId" |} in
              Projects.refuses w m = None ->
              run = (Projects.Success,
                     {| Projects.node := Projects.node w;
                        Projects.refuses := Projects.refuses w;
                        Projects.sent := (Projects.sent w ++ [m])%list |}))).
Proof.
  intros Hpid Hget Hitem Hname run. subst run.
  unfold Projects.projects_update_item, Projects.update_item. rewrite Hpid.
  cbn [Projects.given Projects.text_of default from_option id].
  apply String.eqb_neq in Hitem as ->. apply String.eqb_neq in Hname as ->.
  cbn [negb orb]. rewrite Hget. cbn [mbind result_bind bind Projects.deref].
  split.
  - intros Hnone. apply find_field_none in Hnone as ->. reflexivity.
  - intros f fs1 fs2 Hfs Hfs1 Hf Htype. rewrite Hfs.
    rewrite (find_field_first field_name f fs1 fs2 Hfs1 Hf), Htype.
    cbn [String.eqb Ascii.eqb Bool.eqb]. split.
    + intros Hnone. apply find_option_none in Hnone as ->. reflexivity.
    + intros o os1 os2 Hos Hos1 Ho Hid Hacc. rewrite Hos.
      rewrite (find_option_first v o os1 os2 Hos1 Ho).
      apply String.eqb_neq in Hid as ->.
      unfold Projects._update_item_field.
      cbn [Projects.value_type existsb String.eqb Ascii.eqb Bool.eqb orb negb].
      assert (String.eqb (Projects._get_github_token e) "" = false) as ->.
      { unfold Projects._get_project in Hget.
        by destruct (String.eqb (Projects._get_github_token e) ""). }
      by rewrite Hacc.
Qed.

Lemma C8_update_item_witness :
  Projects.projects_update_item Sample.float Sample.out_of_range Sample.board_env None
    (Some "PVTI_1") (Some "status") (Some "Done") Sample.github
  = (Projects.Failure "Field 'status' not found. Available: Title, Status, Estimate",
     Sample.github)
  /\ Projects.projects_update_item Sample.float Sample.out_of_range Sample.board_env None
       (Some "PVTI_1") (Some "Status") (Some "Blocked") Sample.github
     = (Projects.Failure "Option 'Blocked' not found. Available: Todo, In Progress, Done",
        Sample.github)
  /\ Projects.sent
       (Projects.projects_update_item Sample.float Sample.out_of_range Sample.board_env None
          (Some "PVTI_1") (Some "Status") (Some "Done") Sample.github).2
     = [ {| Projects.projectId := "PVT_board"; Projects.itemId := "PVTI_1";
            Projects.fieldId := "PVTSSF_status";
            Projects.sent_value := Projects.Text "opt_done";
            Projects.value_type := "singleSelectOptionId" |} ].
Proof.
  split; [|split].
  - refine (proj1 (C8_update_item Sample.float Sample.out_of_range Sample.board_env Sample.github None
                     "PVT_board" "PVTI_1" "status" "Done" Sample.board
                     eq_refl eq_refl _ _) _); [discriminate | discriminate |].
    repeat constructor; discriminate.
  - refine (proj1 (proj2 (C8_update_item Sample.float Sample.out_of_range Sample.board_env Sample.github None
                            "PVT_board" "PVTI_1" "Status" "Blocked" Sample.board
                            eq_refl eq_refl _ _)
                     Sample.status_field
                     [ {| Projects.id := "PVTF_title"; Projects.name := "Title";
                          Projects.dataType := "TITLE"; Projects.options := None |} ]
                     [ {| Projects.id := "PVTF_estimate"; Projects.name := "Estimate";
                          Projects.dataType := "NUMBER"; Projects.options := None |} ]
                     eq_refl _ eq_refl eq_refl) _);
      [discriminate | discriminate | |]; repeat constructor; discriminate.
  - rewrite (proj2 (proj2 (C8_update_item Sample.float Sample.out_of_range Sample.board_env Sample.github None
                             "PVT_board" "PVTI_1" "Status" "Done" Sample.board
                             eq_refl eq_refl ltac:(discriminate) ltac:(discriminate))
                      Sample.status_field
                      [ {| Projects.id := "PVTF_title"; Projects.name := "Title";
                           Projects.dataType := "TITLE"; Projects.options := None |} ]
                      [ {| Projects.id := "PVTF_estimate"; Projects.name := "Estimate";
                           Projects.dataType := "NUMBER"; Projects.options := None |} ]
                      eq_refl ltac:(repeat constructor; discriminate) eq_refl eq_refl)
                   {| Projects.option_id := "opt_done"; Projects.option_name := "Done" |}
                   [ {| Projects.option_id := "opt_todo"; Projects.option_name := "Todo" |};
                     {| Projects.option_id := "opt_doing";
                        Projects.option_name := "In Progress" |} ]
                   [] eq_refl ltac:(repeat constructor; discriminate) eq_refl
                   ltac:(discriminate) eq_refl).
    reflexivity.
Defined.

(** ** The project board: [get_progress] *)

(** *** The histogram *)

Lemma count_status_lookup (k : string) (fvs : list Projects.field_value)
      (h : list (string * Z)) (n : Z) :
  Dict.lookup k h = Some n ->
  Dict.lookup k (Projects.count_status fvs h) = Some (n + Projects.hits k fvs).
Proof.
  unfold Projects.hits. revert h n.
  induction fvs as [|fv fvs IH]; intros h n Hk; cbn [Projects.count_status List.filter].
  - rewrite Hk. f_equal. simpl. lia.
  - destruct (Projects.is_status fv); cbn [andb].
    + set (k' := Projects.text_of (Projects.value_name fv)).
      destruct (String.eqb_spec k' k) as [Heq|Hne].
      * rewrite (IH _ (n + 1)).
        -- f_equal. cbn [length]. lia.
        -- rewrite lookup_set, Heq, String.eqb_refl, Hk. reflexivity.
      * rewrite (IH _ n); [done|].
        rewrite lookup_set. destruct (String.eqb_spec k k') as [->|]; [done|exact Hk].
    + by apply IH.
Qed.

Lemma declare_keeps (k : string) (os : list Projects.select_option)
      (h : list (string * Z)) :
  Forall (fun o => Projects.option_name o <> k) os ->
  Dict.lookup k (Projects.declare os h) = Dict.lookup k h.
Proof.
  intros H. revert h. induction H as [|o os Hne _ IH]; intros h; [done|].
  cbn [Projects.declare]. rewrite IH, lookup_set.
  destruct (String.eqb_spec k (Projects.option_name o)) as [->|]; done.
Qed.

(** Every declared option starts at zero. *)
Lemma declare_zero (k : string) (os : list Projects.select_option)
      (h : list (string * Z)) :
  Exists (fun o => Projects.option_name o = k) os ->
  Dict.lookup k (Projects.declare os h) = Some 0.
Proof.
  revert h. induction os as [|o os IH]; intros h Hex.
  - by apply Exists_nil in Hex.
  - cbn [Projects.declare].
    destruct (decide (Exists (fun o' => Projects.option_name o' = k) os)) as [Hos|Hno].
    + by apply IH.
    + apply Exists_cons in Hex as [Ho|Hos]; [|done].
      apply not_Exists_Forall in Hno; [|intros x; apply _].
      rewrite declare_keeps by exact Hno.
      by rewrite lookup_set, Ho, String.eqb_refl.
Qed.

(** *** One pass over the items *)

(** Splits the goal along the branches that [count_item] takes on an item
    that is not archived. *)
Ltac count_item_branches it :=
  unfold Projects.count_item, Projects.state_of, Projects.readable,
    Projects.has_state, Projects.active;
  let Hty := fresh "Hty" in
  destruct (String.eqb_spec (Projects.type it) "ISSUE") as [Hty|Hty];
  [rewrite ?Hty
  |destruct (String.eqb_spec (Projects.type it) "PULL_REQUEST") as [Hty'|Hty'];
   [rewrite ?Hty'
   |destruct (String.eqb_spec (Projects.type it) "DRAFT_ISSUE") as [Hty''|Hty''];
    [rewrite ?Hty''|]]];
  cbn [String.eqb Ascii.eqb Bool.eqb negb andb orb];
  destruct (Projects.item_content it) as [[|[s|]]|];
  cbn [mbind result_bind bind default from_option id String.eqb
         Ascii.eqb Bool.eqb negb andb orb];
  try (destruct (String.eqb_spec s "OPEN") as [->|?]);
  try (destruct (String.eqb_spec s "MERGED") as [->|?]);
  try (destruct (String.eqb_spec s "CLOSED") as [->|?]);
  cbn [mbind result_bind bind String.eqb Ascii.eqb Bool.eqb negb andb orb].

(** An archived item adds one to [archived] and changes nothing else. *)
Lemma count_item_archived (c : Projects.counters) (it : Projects.item) :
  Projects.isArchived it = true ->
  Projects.count_item c it = Ok (Projects.with_archived (Projects.archived c + 1) c).
Proof. intros H. unfold Projects.count_item. by rewrite H. Qed.

(** An item that is not archived is counted when it is readable, and only
    then; the count of archived items stays, the histogram takes the item's
    Status values, and the counters move by the item's class. *)
Lemma count_item_active (c : Projects.counters) (it : Projects.item) :
  Projects.isArchived it = false ->
  if Projects.readable it then
    exists c',
      Projects.count_item c it = Ok c'
      /\ Projects.archived c' = Projects.archived c
      /\ Projects.status_counts c'
         = Projects.count_status (Projects.fieldValues it) (Projects.status_counts c)
      /\ Projects.issues_open c'
         = Projects.issues_open c + Projects.b2z (Projects.has_state "ISSUE" "OPEN" it)
      /\ Projects.issues_open c' + Projects.issues_closed c'
         = Projects.issues_open c + Projects.issues_closed c
           + Projects.b2z (String.eqb (Projects.type it) "ISSUE")
      /\ Projects.prs_merged c'
         = Projects.prs_merged c + Projects.b2z (Projects.has_state "PULL_REQUEST" "MERGED" it)
      /\ Projects.prs_open c'
         = Projects.prs_open c + Projects.b2z (Projects.has_state "PULL_REQUEST" "OPEN" it)
      /\ Projects.prs_open c' + Projects.prs_merged c' + Projects.prs_closed c'
         = Projects.prs_open c + Projects.prs_merged c + Projects.prs_closed c
           + Projects.b2z (String.eqb (Projects.type it) "PULL_REQUEST")
      /\ Projects.drafts c'
         = Projects.drafts c + Projects.b2z (String.eqb (Projects.type it) "DRAFT_ISSUE")
  else exists x, Projects.count_item c it = Raise x.
Proof.
  intros Harch.
  unfold Projects.count_item, Projects.readable, Projects.has_state, Projects.active.
  rewrite Harch. cbn [negb andb orb].
  count_item_branches it;
    first [ by eexists
          | eexists; split; [reflexivity|]; cbn; unfold Projects.b2z; repeat split; lia ].
Qed.

Lemma tally_cons (p : Projects.item -> bool) (it : Projects.item)
      (its : list Projects.item) :
  Projects.tally p (it :: its) = Projects.b2z (p it) + Projects.tally p its.
Proof.
  unfold Projects.tally, Projects.b2z. cbn [List.filter].
  destruct (p it); cbn [length]; lia.
Qed.

Lemma tally_nonneg (p : Projects.item -> bool) (its : list Projects.item) :
  0 <= Projects.tally p its.
Proof. unfold Projects.tally. lia. Qed.

(** *** The scenario's classes *)

(** An item is in one class at most. *)
Lemma class_le_one (it : Projects.item) :
  Projects.b2z (Projects.has_state "ISSUE" "OPEN" it)
  + Projects.b2z (Projects.has_state "ISSUE" "CLOSED" it)
  + Projects.b2z (Projects.has_state "PULL_REQUEST" "MERGED" it)
  + Projects.b2z (Projects.isArchived it)
  = Projects.b2z (Projects.scenario_class it).
Proof.
  unfold Projects.scenario_class, Projects.has_state, Projects.active.
  destruct (Projects.isArchived it); cbn [negb andb orb]; [done|].
  destruct (String.eqb_spec (Projects.type it) "ISSUE") as [Hty|?];
    [rewrite ?Hty|destruct (String.eqb_spec (Projects.type it) "PULL_REQUEST")];
    cbn [String.eqb Ascii.eqb Bool.eqb negb andb orb]; [| |done];
    destruct (Projects.item_content it) as [[|[s|]]|]; try done;
    [ destruct (String.eqb_spec s "OPEN") as [->|?] | ];
    try done; by destruct (String.eqb s _).
Qed.

(** When the four classes account for every item, each item is in one. *)
Lemma classes_cover (its : list Projects.item) :
  let sum := Projects.tally (Projects.has_state "ISSUE" "OPEN") its
             + Projects.tally (Projects.has_state "ISSUE" "CLOSED") its
             + Projects.tally (Projects.has_state "PULL_REQUEST" "MERGED") its
             + Projects.tally Projects.isArchived its in
  sum <= Z.of_nat (length its)
  /\ (sum = Z.of_nat (length its) ->
      Forall (fun it => Projects.scenario_class it = true) its).
Proof.
  induction its as [|it its [Hle IH]]; cbn zeta.
  - split; [done | constructor].
  - rewrite !tally_cons. pose proof (class_le_one it) as Hit.
    cbn zeta in Hle, IH.
    assert (Projects.b2z (Projects.scenario_class it) <= 1) as Hb
      by (unfold Projects.b2z; destruct (Projects.scenario_class it); lia).
    cbn [length]. split; [lia|]. intros Hsum. constructor.
    + unfold Projects.b2z in Hit, Hb.
      destruct (Projects.scenario_class it); [done|]. exfalso.
      unfold Projects.b2z in Hsum, Hit. lia.
    + apply IH. lia.
Qed.

(** An item of one of the four classes moves its class's counter by one. *)
Lemma count_item_class (c : Projects.counters) (it : Projects.item) :
  Projects.scenario_class it = true ->
  exists c',
    Projects.count_item c it = Ok c'
    /\ Projects.issues_open c'
       = Projects.issues_open c + Projects.b2z (Projects.has_state "ISSUE" "OPEN" it)
    /\ Projects.issues_closed c'
       = Projects.issues_closed c + Projects.b2z (Projects.has_state "ISSUE" "CLOSED" it)
    /\ Projects.prs_open c' = Projects.prs_open c
    /\ Projects.prs_merged c'
       = Projects.prs_merged c
         + Projects.b2z (Projects.has_state "PULL_REQUEST" "MERGED" it)
    /\ Projects.prs_closed c' = Projects.prs_closed c
    /\ Projects.drafts c' = Projects.drafts c
    /\ Projects.archived c' = Projects.archived c + Projects.b2z (Projects.isArchived it).
Proof.
  destruct (Projects.isArchived it) eqn:Harch.
  - intros _. exists (Projects.with_archived (Projects.archived c + 1) c).
    split; [by apply count_item_archived|].
    unfold Projects.has_state, Projects.active. rewrite Harch.
    cbn. repeat split; lia.
  - unfold Projects.scenario_class. rewrite Harch.
    unfold Projects.count_item, Projects.has_state, Projects.active.
    rewrite Harch. cbn [negb andb orb].
    count_item_branches it; intros Hclass; try discriminate Hclass;
      (eexists; split; [reflexivity|]; cbn; unfold Projects.b2z; repeat split; lia).
Qed.

Lemma count_items_classes (c : Projects.counters) (its : list Projects.item) :
  Forall (fun it => Projects.scenario_class it = true) its ->
  exists c',
    Projects.count_items c its = Ok c'
    /\ Projects.issues_open c'
       = Projects.issues_open c + Projects.tally (Projects.has_state "ISSUE" "OPEN") its
    /\ Projects.issues_closed c'
       = Projects.issues_closed c
         + Projects.tally (Projects.has_state "ISSUE" "CLOSED") its
    /\ Projects.prs_open c' = Projects.prs_open c
    /\ Projects.prs_merged c'
       = Projects.prs_merged c
         + Projects.tally (Projects.has_state "PULL_REQUEST" "MERGED") its
    /\ Projects.prs_closed c' = Projects.prs_closed c
    /\ Projects.drafts c' = Projects.drafts c
    /\ Projects.archived c' = Projects.archived c + Projects.tally Projects.isArchived its.
Proof.
  intros H. revert c. induction H as [|it its Hit _ IH]; intros c.
  - exists c. split; [done|]. unfold Projects.tally. cbn. repeat split; lia.
  - destruct (count_item_class c it Hit)
      as (c1 & Hc1 & H1 & H2 & H3 & H4 & H5 & H6 & H7).
    destruct (IH c1) as (c' & Hc' & G1 & G2 & G3 & G4 & G5 & G6 & G7).
    exists c'. cbn [Projects.count_items]. rewrite Hc1.
    cbn [mbind result_bind bind]. split; [exact Hc'|].
    rewrite !tally_cons. repeat split; lia.
Qed.

(** *** Every project *)

(** On readable items the pass ends, and each counter is a tally over the
    items that are not archived; the histogram adds, to each key it has, the
    Status values of those items. *)
Lemma count_items_readable (c : Projects.counters) (its : list Projects.item) :
  Forall (fun it => Projects.readable it = true) its ->
  exists c',
    Projects.count_items c its = Ok c'
    /\ Projects.archived c' = Projects.archived c + Projects.tally Projects.isArchived its
    /\ Projects.issues_open c'
       = Projects.issues_open c + Projects.tally (Projects.has_state "ISSUE" "OPEN") its
    /\ Projects.issues_open c' + Projects.issues_closed c'
       = Projects.issues_open c + Projects.issues_closed c
         + Projects.tally
             (fun it => Projects.active it && String.eqb (Projects.type it) "ISSUE") its
    /\ Projects.prs_merged c'
       = Projects.prs_merged c
         + Projects.tally (Projects.has_state "PULL_REQUEST" "MERGED") its
    /\ Projects.prs_open c'
       = Projects.prs_open c
         + Projects.tally (Projects.has_state "PULL_REQUEST" "OPEN") its
    /\ Projects.prs_open c' + Projects.prs_merged c' + Projects.prs_closed c'
       = Projects.prs_open c + Projects.prs_merged c + Projects.prs_closed c
         + Projects.tally
             (fun it => Projects.active it
                        && String.eqb (Projects.type it) "PULL_REQUEST") its
    /\ Projects.drafts c'
       = Projects.drafts c
         + Projects.tally
             (fun it => Projects.active it
                        && String.eqb (Projects.type it) "DRAFT_ISSUE") its
    /\ forall k n,
         Dict.lookup k (Projects.status_counts c) = Some n ->
         Dict.lookup k (Projects.status_counts c')
         = Some (n + Projects.status_hits k its).
Proof.
  intros H. revert c. induction H as [|it its Hit _ IH]; intros c.
  - exists c. split; [done|]. unfold Projects.tally. cbn.
    repeat split; try lia. intros k n ->. f_equal. lia.
  - cbn [Projects.count_items]. rewrite !tally_cons. cbn [Projects.status_hits].
    destruct (Projects.isArchived it) eqn:Harch.
    + rewrite (count_item_archived c it Harch). cbn [mbind result_bind bind].
      destruct (IH (Projects.with_archived (Projects.archived c + 1) c))
        as (c' & -> & G1 & G2 & G3 & G4 & G5 & G6 & G7 & G8).
      exists c'. split; [done|].
      assert (forall ty st, Projects.has_state ty st it = false) as Hst
        by (intros; unfold Projects.has_state, Projects.active; by rewrite Harch).
      assert (Projects.active it = false) as Hact
        by (unfold Projects.active; by rewrite Harch).
      rewrite !Hst, Hact. cbn [andb Projects.b2z].
      cbn in G1, G2, G3, G4, G5, G6, G7, G8.
      split; [lia|]. split; [lia|]. split; [lia|]. split; [lia|].
      split; [lia|]. split; [lia|]. split; [lia|].
      intros k n Hk. rewrite (G8 k n Hk). f_equal.
    + pose proof (count_item_active c it Harch) as Hact. rewrite Hit in Hact.
      destruct Hact as (c1 & -> & H1 & H2 & H3 & H4 & H5 & H6 & H7 & H8).
      cbn [mbind result_bind bind].
      destruct (IH c1) as (c' & -> & G1 & G2 & G3 & G4 & G5 & G6 & G7 & G8).
      exists c'. split; [done|].
      assert (Projects.active it = true) as Hact
        by (unfold Projects.active; by rewrite Harch).
      rewrite Hact. cbn [andb Projects.b2z].
      split; [lia|]. split; [lia|]. split; [lia|]. split; [lia|].
      split; [lia|]. split; [lia|]. split; [lia|].
      intros k n Hk.
      rewrite (G8 k (n + Projects.hits k (Projects.fieldValues it))).
      * f_equal. lia.
      * rewrite H2. by apply count_status_lookup.
Qed.

(** C9. When the fetched items are three open issues, one closed issue, two
    merged pull requests and one archived item, [_get_progress] returns 3
    open and 1 closed issues, 4 in total, and 2 merged pull requests out of
    2, no draft and 1 archived item.  For every project whose items can be
    read, each counter is a tally over the items that are not archived, and
    the histogram has every declared option of the Status field as a key,
    with the number of Status values of that name on the items that are not
    archived: zero when there is none. *)
Theorem C9_get_progress
        (e : Projects.env) (w : Projects.world) (project_id : string)
        (p : Projects.project) :
  Projects._get_project e w project_id 100 = Ok (Some p) ->
  let its := Projects.items p in
  (Projects.tally (Projects.has_state "ISSUE" "OPEN") its = 3 ->
   Projects.tally (Projects.has_state "ISSUE" "CLOSED") its = 1 ->
   Projects.tally (Projects.has_state "PULL_REQUEST" "MERGED") its = 2 ->
   Projects.tally Projects.isArchived its = 1 ->
   length its = 7%nat ->
   exists pr,
     Projects._get_progress e w project_id = Ok pr
     /\ Projects.issues pr = (3, 1, 4)
     /\ Projects.pull_requests pr = (0, 2, 0, 2)
     /\ Projects.draft_items pr = 0
     /\ Projects.archived_items pr = 1)
  /\ (Forall (fun it => Projects.readable it = true) its ->
      exists pr,
        Projects._get_progress e w project_id = Ok pr
        /\ Projects.archived_items pr = Projects.tally Projects.isArchived its
        /\ (Projects.issues pr).1.1 = Projects.tally (Projects.has_state "ISSUE" "OPEN") its
        /\ (Projects.issues pr).2
           = Projects.tally
               (fun it => Projects.active it && String.eqb (Projects.type it) "ISSUE") its
        /\ (Projects.pull_requests pr).1.1.2
           = Projects.tally (Projects.has_state "PULL_REQUEST" "MERGED") its
        /\ (Projects.pull_requests pr).2
           = Projects.tally
               (fun it => Projects.active it
                          && String.eqb (Projects.type it) "PULL_REQUEST") its
        /\ Projects.draft_items pr
           = Projects.tally
               (fun it => Projects.active it
                          && String.eqb (Projects.type it) "DRAFT_ISSUE") its
        /\ forall o,
             o ∈ Projects.status_options p ->
             Dict.lookup (Projects.option_name o) (Projects.by_status pr)
             = Some (Projects.status_hits (Projects.option_name o) its)).
Proof.
  intros Hget its. unfold Projects._get_progress. rewrite Hget.
  cbn [mbind result_bind bind Projects.deref]. fold its. split.
  - intros HA HB HC HD Hlen.
    destruct (classes_cover its) as [_ Hcover]. cbn zeta in Hcover.
    rewrite HA, HB, HC, HD, Hlen in Hcover. specialize (Hcover eq_refl).
    destruct (count_items_classes (Projects.start p) its Hcover)
      as (c & -> & G1 & G2 & G3 & G4 & G5 & G6 & G7).
    cbn in G1, G2, G3, G4, G5, G6, G7.
    eexists. split; [reflexivity|].
    unfold Projects.summary. cbn.
    rewrite G1, G2, G3, G4, G5, G6, G7, HA, HB, HC, HD. by repeat split.
  - intros Hread.
    destruct (count_items_readable (Projects.start p) its Hread)
      as (c & -> & G1 & G2 & G3 & G4 & G5 & G6 & G7 & G8).
    cbn in G1, G2, G3, G4, G5, G6, G7.
    eexists. split; [reflexivity|]. unfold Projects.summary. cbn.
    split; [lia|]. split; [lia|]. split; [lia|]. split; [lia|].
    split; [lia|]. split; [lia|].
    intros o Ho. rewrite (G8 (Projects.option_name o) 0); [f_equal; lia|].
    cbn [Projects.start Projects.status_counts]. apply declare_zero.
    apply Exists_exists. by exists o.
Qed.

Lemma C9_get_progress_witness :
  (exists pr,
     Projects._get_progress Sample.board_env Sample.github "PVT_board" = Ok pr
     /\ Projects.issues pr = (3, 1, 4)
     /\ Projects.pull_requests pr = (0, 2, 0, 2)
     /\ Projects.draft_items pr = 0
     /\ Projects.archived_items pr = 1)
  /\ (exists pr,
        Projects._get_progress Sample.board_env Sample.github "PVT_board" = Ok pr
        /\ Dict.lookup "In Progress" (Projects.by_status pr) = Some 0
        /\ Dict.lookup "Todo" (Projects.by_status pr) = Some 2).
Proof.
  pose proof (C9_get_progress Sample.board_env Sample.github "PVT_board" Sample.board
                eq_refl) as [Hscenario Hall].
  split.
  - apply Hscenario; vm_compute; reflexivity.
  - destruct Hall as (pr & Hpr & _ & _ & _ & _ & _ & _ & Hstatus).
    { repeat constructor. }
    exists pr. split; [exact Hpr|]. split.
    + apply (Hstatus {| Projects.option_id := "opt_doing";
                        Projects.option_name := "In Progress" |}).
      vm_compute. apply elem_of_cons. right. apply elem_of_cons. by left.
    + apply (Hstatus {| Projects.option_id := "opt_todo";
                        Projects.option_name := "Todo" |}).
      vm_compute. apply elem_of_cons. by left.
Defined.

(** * Further properties of the scheduler *)

(** With a repository and a token the tool runs the action's branch. *)
Lemma scheduler_dispatch (fromisoformat : string -> result DateTime.datetime)
      (e : Scheduler.env) (now : DateTime.naive) (a : Scheduler.args)
      (w : Store.world) :
  Scheduler.configured e a ->
  Scheduler.scheduler fromisoformat e now a w
  = let branch :=
      if String.eqb (Scheduler.action a) "list" then Scheduler.list_jobs w
      else if String.eqb (Scheduler.action a) "check"
      then Scheduler.check fromisoformat now w
      else if String.eqb (Scheduler.action a) "add" then Scheduler.add fromisoformat a w
      else if String.eqb (Scheduler.action a) "remove" then Scheduler.remove a w
      else if String.eqb (Scheduler.action a) "enable" then Scheduler.toggle true a w
      else if String.eqb (Scheduler.action a) "disable" then Scheduler.toggle false a w
      else if String.eqb (Scheduler.action a) "get" then Scheduler.get_job a w
      else (Ok (Scheduler.unknown_action (Scheduler.action a)), w) in
    (Scheduler.report branch.1, branch.2).
Proof.
  intros [Hrepo Htoken]. unfold Scheduler.scheduler.
  apply String.eqb_neq in Hrepo as ->. apply String.eqb_neq in Htoken as ->.
  cbn zeta. by destruct (if String.eqb (Scheduler.action a) "list" then _ else _).
Qed.

(** What a disabled job contributes to an evaluation: nothing. *)
Lemma disabled_not_due (fromisoformat : string -> result DateTime.datetime)
      (now : DateTime.naive) (j : Store.job) :
  Scheduler.enabled j = false ->
  Scheduler.should_run fromisoformat now j = false
  /\ Scheduler.retires fromisoformat now j = false.
Proof.
  intros H. unfold Scheduler.should_run, Scheduler.retires. by rewrite H.
Qed.


(** X1. A job whose [enabled] is false is never reported by [check], whatever
    its triggers, and is still in the collection afterwards. *)
Theorem disabled_jobs_are_skipped
        (fromisoformat : string -> result DateTime.datetime)
        (e : Scheduler.env) (now : DateTime.naive) (a : Scheduler.args)
        (w : Store.world) (jid : string) (j : Store.job) :
  let js := Store.jobs_of (Store._get_schedules w) in
  Scheduler.action a = "check" ->
  Dict.wf js -> Dict.lookup jid js = Some j ->
  Scheduler.enabled j = false ->
  Scheduler.times_reported jid (Scheduler.scheduler fromisoformat e now a w).1 = 0%nat
  /\ Dict.lookup jid
       (Store.jobs_of
          (Store._get_schedules (snd (Scheduler.scheduler fromisoformat e now a w))))
     = Some j.
Proof.
  intros js Ha Hwf Hj Hen.
  destruct (disabled_not_due fromisoformat now j Hen) as [Hs Hr].
  destruct (scheduler_cases fromisoformat e a) as [[text Hf]|Hc].
  { rewrite Hf. by split. }
  rewrite (scheduler_check fromisoformat e now a w Hc Ha). cbn [fst snd]. split.
  - rewrite (check_reports fromisoformat now w jid j Hwf Hj), Hs.
    by destruct (Scheduler.report _).
  - apply check_keeps; [done | done |].
    intros (j' & Hin & Hret)%retired_inv.
    rewrite (lookup_Some_elem jid j' js Hwf Hin) in Hj. injection Hj as ->.
    congruence.
Qed.

Lemma disabled_jobs_are_skipped_witness :
  Scheduler.times_reported "weekly"
    (Scheduler.scheduler Iso.fromisoformat Sample.env Sample.now (Sample.call "check")
       (Sample.holding [("weekly", <["cron" := JStr "* * * * *"]> Sample.paused)])).1
  = 0%nat.
Proof.
  refine (proj1 (disabled_jobs_are_skipped Iso.fromisoformat Sample.env Sample.now
                   (Sample.call "check")
                   (Sample.holding
                      [("weekly", <["cron" := JStr "* * * * *"]> Sample.paused)])
                   "weekly" (<["cron" := JStr "* * * * *"]> Sample.paused)
                   eq_refl _ _ _)).
  - unfold Dict.wf. apply (bool_decide_unpack (NoDup _)). vm_compute. exact I.
  - vm_compute. reflexivity.
  - vm_compute. reflexivity.
Defined.

(** When no stored job can retire, no job retires at any time. *)
Lemma nothing_retires (fromisoformat : string -> result DateTime.datetime)
      (now : DateTime.naive) (js : list (string * Store.job)) :
  Forall (fun p => truthy (Store.get "run_at" p.2) = false
                   \/ truthy (Store.get "once" p.2) = false) js ->
  Scheduler.retired_of fromisoformat now js = [].
Proof.
  unfold Scheduler.retired_of. induction 1 as [|[jid j] js Hj _ IH]; [done|].
  cbn [List.filter snd].
  assert (Scheduler.retires fromisoformat now j = false) as ->; [|exact IH].
  unfold Scheduler.retires, Scheduler.run_at_due. cbn [snd] in Hj.
  destruct Hj as [-> | ->]; by rewrite ?andb_false_r.
Qed.

(** X2. On a collection in which no job has both a [run_at] and [once] (so
    on every collection of cron jobs), [check] changes nothing, at any time:
    the variable keeps its content and nothing is written.  Asking again at
    the same time gives the same answer. *)
Theorem check_without_once_jobs_is_pure
        (fromisoformat : string -> result DateTime.datetime)
        (e : Scheduler.env) (now : DateTime.naive) (a : Scheduler.args)
        (w : Store.world) :
  Scheduler.action a = "check" ->
  Forall (fun p => truthy (Store.get "run_at" p.2) = false
                   \/ truthy (Store.get "once" p.2) = false)
         (Store.jobs_of (Store._get_schedules w)) ->
  (Scheduler.scheduler fromisoformat e now a w).2 = w
  /\ Scheduler.scheduler fromisoformat e now a
       (Scheduler.scheduler fromisoformat e now a w).2
     = Scheduler.scheduler fromisoformat e now a w.
Proof.
  intros Ha Hjs.
  assert ((Scheduler.scheduler fromisoformat e now a w).2 = w) as Hsame.
  { destruct (scheduler_cases fromisoformat e a) as [[text Hf]|Hc]; [by rewrite Hf|].
    rewrite (scheduler_check fromisoformat e now a w Hc Ha). cbn [snd].
    by rewrite (check_quiet fromisoformat now w
                  (nothing_retires fromisoformat now _ Hjs)). }
  split; [exact Hsame | by rewrite Hsame].
Qed.

Lemma check_without_once_jobs_is_pure_witness :
  (Scheduler.scheduler Iso.fromisoformat Sample.env Sample.now (Sample.call "check")
     (Sample.holding [("daily_review", Sample.daily_review);
                      ("legacy", Sample.legacy)])).2
  = Sample.holding [("daily_review", Sample.daily_review); ("legacy", Sample.legacy)].
Proof.
  refine (proj1 (check_without_once_jobs_is_pure Iso.fromisoformat Sample.env
                   Sample.now (Sample.call "check")
                   (Sample.holding [("daily_review", Sample.daily_review);
                                    ("legacy", Sample.legacy)])
                   eq_refl _)).
  cbv [Sample.holding Store._get_schedules Store.jobs_of Store.reads Store.content
         Store.jobs default from_option id].
  constructor; [vm_compute; auto|]. constructor; [vm_compute; auto|]. constructor.
Defined.

(** A job with [once] whose [run_at] lies in the window is due and retires. *)
Lemma once_job_in_window (fromisoformat : string -> result DateTime.datetime)
      (now t : DateTime.naive) (j : Store.job) (text : string) :
  Scheduler.enabled j = true ->
  truthy (Store.get "once" j) = true ->
  Store.get "run_at" j = JStr text -> text <> "" ->
  Scheduler.parse_run_at fromisoformat text
  = Ok {| DateTime.fields := t; DateTime.tzinfo := None |} ->
  DateTime.micros now - 60 * DateTime.minute_us <= DateTime.micros t
  <= DateTime.micros now + DateTime.minute_us ->
  Scheduler.should_run fromisoformat now j = true
  /\ Scheduler.retires fromisoformat now j = true.
Proof.
  intros Hen Honce Hrun Htext Hparse Ht.
  assert (Scheduler.run_at_due fromisoformat now j = true) as Hdue.
  { unfold Scheduler.run_at_due. rewrite Hrun. cbn [truthy].
    apply String.eqb_neq in Htext as ->. cbn [negb andb].
    rewrite (run_at_window fromisoformat text t now Hparse).
    apply andb_true_iff. rewrite !Z.leb_le. lia. }
  unfold Scheduler.should_run, Scheduler.retires.
  by rewrite Hen, Hdue, Honce, orb_true_r.
Qed.

(** X3. When the remote rejects the write, [check] still answers with the
    due list, and the retired job stays in the variable: the same [check]
    reports the job again.  A [once] job is delivered at least once, not
    exactly once. *)
Theorem rejected_save_reports_again
        (fromisoformat : string -> result DateTime.datetime)
        (e : Scheduler.env) (now : DateTime.naive) (a : Scheduler.args)
        (w : Store.world) (jid : string) (j : Store.job)
        (text refusal : string) (t : DateTime.naive) :
  let js := Store.jobs_of (Store._get_schedules w) in
  Scheduler.configured e a -> Scheduler.action a = "check" ->
  Store.writes w = Store.Rejecting refusal ->
  Dict.wf js -> Forall (fun p => Scheduler.prompt_is_text p.2) js ->
  Dict.lookup jid js = Some j ->
  Scheduler.enabled j = true ->
  truthy (Store.get "once" j) = true ->
  Store.get "run_at" j = JStr text -> text <> "" ->
  Scheduler.parse_run_at fromisoformat text
  = Ok {| DateTime.fields := t; DateTime.tzinfo := None |} ->
  DateTime.micros now - 60 * DateTime.minute_us <= DateTime.micros t
  <= DateTime.micros now + DateTime.minute_us ->
  let first := Scheduler.scheduler fromisoformat e now a w in
  Scheduler.times_reported jid first.1 = 1%nat
  /\ Store.content first.2 = Store.content w
  /\ length (Store.saved first.2) = S (length (Store.saved w))
  /\ Scheduler.times_reported jid
       (Scheduler.scheduler fromisoformat e now a first.2).1 = 1%nat.
Proof.
  intros js Hc Ha Hwrites Hwf Hprompts Hj Hen Honce Hrun Htext Hparse Ht first.
  destruct (once_job_in_window fromisoformat now t j text Hen Honce Hrun Htext Hparse Ht)
    as [Hshould Hret].
  assert (jid ∈ Scheduler.retired_of fromisoformat now js) as Hin.
  { eapply retired_elem; [|exact Hret]. by apply lookup_elem. }
  assert (forall w0,
            Store.jobs_of (Store._get_schedules w0) = js ->
            Store.writes w0 = Store.Rejecting refusal ->
            Scheduler.times_reported jid
              (Scheduler.scheduler fromisoformat e now a w0).1 = 1%nat) as Hreport.
  { intros w0 Hjs0 Hw0.
    rewrite (scheduler_check fromisoformat e now a w0 Hc Ha). cbn [fst].
    rewrite check_response by (by rewrite Hjs0). rewrite Hjs0, Hw0.
    assert (Scheduler.report
              (Scheduler.answer_of (Scheduler.due_of fromisoformat now js))
            = Scheduler.JobsToRun (Scheduler.due_of fromisoformat now js)) as Hans.
    { unfold Scheduler.answer_of.
      by rewrite (render_due_of fromisoformat now js Hprompts). }
    destruct (Scheduler.retired_of fromisoformat now js); rewrite Hans;
      cbn [Scheduler.times_reported];
      by rewrite reported_count, (count_present jid j _ js Hwf Hj), Hshould. }
  destruct (check_writes fromisoformat now w Hwf)
    as [[Hnil _]|(_ & js' & _ & _ & Hsaved & Hreads & Hcontent)].
  { fold js in Hnil. rewrite Hnil in Hin. by apply elem_of_nil in Hin. }
  rewrite Hwrites in Hcontent.
  assert (first.2 = (Scheduler.check fromisoformat now w).2) as Hw1
    by (subst first; by rewrite (scheduler_check fromisoformat e now a w Hc Ha)).
  split; [by apply Hreport|]. rewrite Hw1.
  split; [exact Hcontent|]. split; [by rewrite Hsaved, length_app, Nat.add_1_r|].
  apply Hreport.
  - unfold Store._get_schedules. by rewrite Hreads, Hcontent.
  - unfold Scheduler.check. rewrite check_loop_spec. cbn [app].
    fold js. destruct (Scheduler.retired_of fromisoformat now js); [done|].
    destruct (Scheduler.del_all _ js); [|done].
    unfold Store._save_schedules. by rewrite Hwrites.
Qed.

Lemma rejected_save_reports_again_witness :
  Scheduler.times_reported "deploy"
    (Scheduler.scheduler Iso.fromisoformat Sample.env Sample.now (Sample.call "check")
       (Scheduler.scheduler Iso.fromisoformat Sample.env Sample.now (Sample.call "check")
          (Sample.remote Store.Up (Store.Rejecting "HTTP 403: Forbidden")
             [("deploy", Sample.deploy)])).2).1 = 1%nat.
Proof.
  refine (proj2 (proj2 (proj2
            (rejected_save_reports_again Iso.fromisoformat Sample.env Sample.now
               (Sample.call "check")
               (Sample.remote Store.Up (Store.Rejecting "HTTP 403: Forbidden")
                  [("deploy", Sample.deploy)])
               "deploy" Sample.deploy "2024-01-17T08:50:00Z" "HTTP 403: Forbidden"
               (Sample.at_time 8 50) _ eq_refl eq_refl _ _ _ _ _ _ _ _ _)))).
  - split; vm_compute; discriminate.
  - unfold Dict.wf. apply (bool_decide_unpack (NoDup _)). vm_compute. exact I.
  - repeat constructor. eexists. vm_compute. reflexivity.
  - vm_compute. reflexivity.
  - vm_compute. reflexivity.
  - vm_compute. reflexivity.
  - vm_compute. reflexivity.
  - discriminate.
  - vm_compute. reflexivity.
  - vm_compute. split; discriminate.
Defined.

(** X4. When the write of the retirement raises (the remote does not
    answer), [check] returns an error carrying the exception's text instead
    of the due list, although jobs were due; the variable keeps the job. *)
Theorem failed_save_loses_the_due_list
        (fromisoformat : string -> result DateTime.datetime)
        (e : Scheduler.env) (now : DateTime.naive) (a : Scheduler.args)
        (w : Store.world) (jid : string) (j : Store.job)
        (text trouble : string) (t : DateTime.naive) :
  let js := Store.jobs_of (Store._get_schedules w) in
  Scheduler.configured e a -> Scheduler.action a = "check" ->
  Store.writes w = Store.Down trouble ->
  Dict.wf js -> Dict.lookup jid js = Some j ->
  Scheduler.enabled j = true ->
  truthy (Store.get "once" j) = true ->
  Store.get "run_at" j = JStr text -> text <> "" ->
  Scheduler.parse_run_at fromisoformat text
  = Ok {| DateTime.fields := t; DateTime.tzinfo := None |} ->
  DateTime.micros now - 60 * DateTime.minute_us <= DateTime.micros t
  <= DateTime.micros now + DateTime.minute_us ->
  (Scheduler.scheduler fromisoformat e now a w).1
  = Scheduler.Failure ("Error: " ++ trouble)
  /\ Store.content (Scheduler.scheduler fromisoformat e now a w).2 = Store.content w.
Proof.
  intros js Hc Ha Hwrites Hwf Hj Hen Honce Hrun Htext Hparse Ht.
  destruct (once_job_in_window fromisoformat now t j text Hen Honce Hrun Htext Hparse Ht)
    as [_ Hret].
  assert (jid ∈ Scheduler.retired_of fromisoformat now js) as Hin.
  { eapply retired_elem; [|exact Hret]. by apply lookup_elem. }
  rewrite (scheduler_check fromisoformat e now a w Hc Ha). cbn [fst snd].
  rewrite check_response by done. fold js. rewrite Hwrites.
  destruct (check_writes fromisoformat now w Hwf)
    as [[Hnil _]|(_ & js' & _ & _ & _ & _ & Hcontent)].
  { fold js in Hnil. rewrite Hnil in Hin. by apply elem_of_nil in Hin. }
  rewrite Hwrites in Hcontent. split; [|exact Hcontent].
  destruct (Scheduler.retired_of fromisoformat now js); [|done].
  by apply elem_of_nil in Hin.
Qed.

Lemma failed_save_loses_the_due_list_witness :
  (Scheduler.scheduler Iso.fromisoformat Sample.env Sample.now (Sample.call "check")
     (Sample.remote Store.Up (Store.Down "Connection refused")
        [("deploy", Sample.deploy)])).1
  = Scheduler.Failure "Error: Connection refused".
Proof.
  refine (proj1
            (failed_save_loses_the_due_list Iso.fromisoformat Sample.env Sample.now
               (Sample.call "check")
               (Sample.remote Store.Up (Store.Down "Connection refused")
                  [("deploy", Sample.deploy)])
               "deploy" Sample.deploy "2024-01-17T08:50:00Z" "Connection refused"
               (Sample.at_time 8 50) _ eq_refl eq_refl _ _ _ _ _ _ _ _)).
  - split; vm_compute; discriminate.
  - unfold Dict.wf. apply (bool_decide_unpack (NoDup _)). vm_compute. exact I.
  - vm_compute. reflexivity.
  - vm_compute. reflexivity.
  - vm_compute. reflexivity.
  - vm_compute. reflexivity.
  - discriminate.
  - vm_compute. reflexivity.
  - vm_compute. split; discriminate.
Defined.

(** ** [remove], [enable], [disable], [get] *)

Lemma keys_set {V : Type} (k : string) (v : V) (d : list (string * V)) :
  Dict.keys (Dict.set k v d)
  = if bool_decide (k ∈ Dict.keys d) then Dict.keys d else (Dict.keys d ++ [k])%list.
Proof.
  unfold Dict.keys. induction d as [|[k0 v0] d IH]; [done|].
  cbn [Dict.set fmap list_fmap fst].
  destruct (String.eqb_spec k k0) as [->|Hne].
  - rewrite bool_decide_eq_true_2 by (apply elem_of_cons; by left). done.
  - cbn [fmap list_fmap fst]. rewrite IH.
    rewrite (bool_decide_ext (k ∈ k0 :: d.*1) (k ∈ d.*1)).
    + by destruct (bool_decide (k ∈ d.*1)).
    + rewrite elem_of_cons. split; [by intros [|] | by right].
Qed.

(** Deleting a key that was just set on a dictionary without it gives the
    dictionary back. *)
Lemma del_set_fresh {V : Type} (k : string) (v : V) (d : list (string * V)) :
  k ∉ Dict.keys d -> Dict.del k (Dict.set k v d) = Ok d.
Proof.
  unfold Dict.keys. induction d as [|[k0 v0] d IH]; cbn [Dict.set Dict.del].
  - intros _. by rewrite String.eqb_refl.
  - cbn [fmap list_fmap fst]. intros [Hne Hd]%not_elem_of_cons.
    apply String.eqb_neq in Hne. rewrite Hne. cbn [Dict.del]. rewrite Hne.
    by rewrite (IH Hd).
Qed.

(** What [remove], [enable] and [disable] write, and their answer. *)
Lemma save_and_report_spec (s : Store.schedules) (w : Store.world) :
  Scheduler.save_and_report s w
  = (match Store.writes w with
     | Store.Up => Ok Scheduler.Completed
     | Store.Rejecting text => Ok (Scheduler.Failure ("Failed to save: " ++ text))
     | Store.Down text => Raise (Exn RequestException text)
     end,
     {| Store.content := match Store.writes w with
                         | Store.Up => Store.Document s
                         | _ => Store.content w
                         end;
        Store.reads := Store.reads w; Store.writes := Store.writes w;
        Store.saved := (Store.saved w ++ [s])%list |}).
Proof.
  unfold Scheduler.save_and_report, Store._save_schedules.
  by destruct (Store.writes w).
Qed.

(** X5. [remove] of an id that is not stored fails with "Job `id` not found"
    and writes nothing.  [remove] of a stored id, on a remote that answers,
    succeeds and writes once the collection without that job: the id is gone
    and every other id keeps its job. *)
Theorem remove_deletes_one_job
        (fromisoformat : string -> result DateTime.datetime)
        (e : Scheduler.env) (now : DateTime.naive) (a : Scheduler.args)
        (w : Store.world) (jid : string) :
  let s := Store._get_schedules w in
  let js := Store.jobs_of s in
  let run := Scheduler.scheduler fromisoformat e now a w in
  Scheduler.configured e a -> Scheduler.action a = "remove" ->
  Scheduler.job_id a = Some jid -> jid <> "" ->
  (Dict.lookup jid js = None ->
   run = (Scheduler.Failure ("Job `" ++ jid ++ "` not found"), w))
  /\ (forall j,
        Dict.lookup jid js = Some j -> Dict.wf js -> Store.writes w = Store.Up ->
        exists js',
          run.1 = Scheduler.Completed
          /\ Store.content run.2
             = Store.Document {| Store.jobs := Some js';
                                 Store.timezone := Store.timezone s |}
          /\ Store.saved run.2
             = (Store.saved w ++ [{| Store.jobs := Some js';
                                     Store.timezone := Store.timezone s |}])%list
          /\ forall k, Dict.lookup k js'
                       = if String.eqb k jid then None else Dict.lookup k js).
Proof.
  intros s js run Hc Ha Hid Hne. subst run.
  rewrite (scheduler_dispatch fromisoformat e now a w Hc), Ha.
  cbn [String.eqb Ascii.eqb Bool.eqb]. cbn zeta.
  unfold Scheduler.remove. rewrite Hid.
  cbn [Scheduler.given Scheduler.text_of default from_option id].
  apply String.eqb_neq in Hne as ->. cbn [negb]. fold s js. split.
  - by intros ->.
  - intros j Hj Hwf Hup. rewrite Hj.
    destruct (del_present jid js Hwf) as (js' & Hdel & _ & Hl & _).
    { apply dec_stable. intros Hno%lookup_None_keys. congruence. }
    rewrite Hdel, save_and_report_spec, Hup. cbn [fst snd Store.content Store.saved].
    exists js'. by repeat split.
Qed.

Lemma remove_deletes_one_job_witness :
  Scheduler.scheduler Iso.fromisoformat Sample.env Sample.now
    (Sample.call_on "remove" "nightly")
    (Sample.holding [("daily_review", Sample.daily_review)])
  = (Scheduler.Failure "Job `nightly` not found",
     Sample.holding [("daily_review", Sample.daily_review)])
  /\ exists js',
       (Scheduler.scheduler Iso.fromisoformat Sample.env Sample.now
          (Sample.call_on "remove" "deploy")
          (Sample.holding [("daily_review", Sample.daily_review);
                           ("deploy", Sample.deploy)])).1 = Scheduler.Completed
       /\ Store.content
            (Scheduler.scheduler Iso.fromisoformat Sample.env Sample.now
               (Sample.call_on "remove" "deploy")
               (Sample.holding [("daily_review", Sample.daily_review);
                                ("deploy", Sample.deploy)])).2
          = Store.Document {| Store.jobs := Some js';
                              Store.timezone := Some (JStr "UTC") |}
       /\ Dict.lookup "deploy" js' = None
       /\ Dict.lookup "daily_review" js' = Some Sample.daily_review.
Proof.
  split.
  - refine (proj1 (remove_deletes_one_job Iso.fromisoformat Sample.env Sample.now
                     (Sample.call_on "remove" "nightly")
                     (Sample.holding [("daily_review", Sample.daily_review)])
                     "nightly" _ eq_refl eq_refl _) _).
    + split; vm_compute; discriminate.
    + discriminate.
    + vm_compute. reflexivity.
  - destruct (proj2 (remove_deletes_one_job Iso.fromisoformat Sample.env Sample.now
                       (Sample.call_on "remove" "deploy")
                       (Sample.holding [("daily_review", Sample.daily_review);
                                        ("deploy", Sample.deploy)])
                       "deploy"
                       ltac:(split; vm_compute; discriminate) eq_refl eq_refl
                       ltac:(discriminate))
                Sample.deploy eq_refl
                ltac:(unfold Dict.wf; apply (bool_decide_unpack (NoDup _));
                      vm_compute; exact I)
                eq_refl)
      as (js' & Hdone & Hcontent & _ & Hjobs).
    exists js'. split; [exact Hdone|]. split; [exact Hcontent|].
    split; [exact (Hjobs "deploy") | exact (Hjobs "daily_review")].
Defined.

(** On one variable: adding a job under an id that is not stored and then
    removing that id gives back the stored jobs, in their order. *)
Lemma add_then_remove_variable
      (fromisoformat : string -> result DateTime.datetime)
      (e : Scheduler.env) (now now' : DateTime.naive)
      (a r : Scheduler.args) (w : Store.world) :
  let js := Store.jobs_of (Store._get_schedules w) in
  let added := Scheduler.scheduler fromisoformat e now a w in
  let removed := Scheduler.scheduler fromisoformat e now' r added.2 in
  Scheduler.action a = "add" -> Scheduler.action r = "remove" ->
  Scheduler.job_id r = Scheduler.job_id a -> Scheduler.configured e r ->
  Store.reads w = Store.Up ->
  Dict.lookup (Scheduler.text_of (Scheduler.job_id a)) js = None ->
  added.1 = Scheduler.Completed ->
  removed.1 = Scheduler.Completed
  /\ Store.jobs_of (Store._get_schedules removed.2) = js.
Proof.
  intros js added removed Ha Hr Hid Hcr Hreads Hfresh Hdone. subst added removed.
  destruct (scheduler_cases fromisoformat e a) as [[text Hf]|Hc].
  { rewrite Hf in Hdone. discriminate Hdone. }
  rewrite (scheduler_add fromisoformat e now a w Hc Ha) in Hdone |- *.
  cbn [fst snd] in Hdone |- *.
  destruct (add_completed fromisoformat a w Hdone) as (Hjid & _ & _ & Hup & Hw1).
  set (w1 := (Scheduler.add fromisoformat a w).2) in *.
  set (jid := Scheduler.text_of (Scheduler.job_id a)) in *.
  assert (Store._get_schedules w1
          = {| Store.jobs := Some (Dict.set jid (Scheduler.new_job a) js);
               Store.timezone := Store.timezone (Store._get_schedules w) |}) as Hs1.
  { rewrite Hw1. unfold Store._get_schedules at 1.
    cbn [Store.reads Store.content]. by rewrite Hreads. }
  assert (Store.writes w1 = Store.Up) as Hup1 by (by rewrite Hw1).
  assert (Store.reads w1 = Store.Up) as Hreads1 by (by rewrite Hw1).
  rewrite (scheduler_dispatch fromisoformat e now' r w1 Hcr), Hr.
  cbn [String.eqb Ascii.eqb Bool.eqb]. cbn zeta.
  unfold Scheduler.remove. rewrite Hid, Hjid. cbn [negb]. fold jid. rewrite Hs1.
  cbn [Store.jobs_of Store.jobs Store.timezone default from_option id].
  rewrite lookup_set, String.eqb_refl.
  rewrite del_set_fresh by (by apply lookup_None_keys).
  rewrite save_and_report_spec, Hup1.
  cbn [fst snd Scheduler.report catch]. split; [done|].
  unfold Store._get_schedules at 1. cbn [Store.reads Store.content].
  by rewrite Hreads1.
Qed.

(** X6. Adding a job under an id that is not stored and then removing that
    id, both calls addressing the same repository, gives back the jobs stored
    in that repository, in their order.  The variables of the other
    repositories are as they were. *)
Theorem add_then_remove_restores
        (fromisoformat : string -> result DateTime.datetime)
        (e : Scheduler.env) (now now' : DateTime.naive)
        (a r : Scheduler.args) (hub : Scheduler.variables) :
  let repo := Scheduler.repository_of e a in
  let js := Store.jobs_of (Store._get_schedules (hub repo)) in
  let added := Scheduler.scheduler_at fromisoformat e now a hub in
  let removed := Scheduler.scheduler_at fromisoformat e now' r added.2 in
  Scheduler.action a = "add" -> Scheduler.action r = "remove" ->
  Scheduler.job_id r = Scheduler.job_id a -> Scheduler.configured e r ->
  Scheduler.repository_of e r = repo ->
  Store.reads (hub repo) = Store.Up ->
  Dict.lookup (Scheduler.text_of (Scheduler.job_id a)) js = None ->
  added.1 = Scheduler.Completed ->
  removed.1 = Scheduler.Completed
  /\ Store.jobs_of (Store._get_schedules (removed.2 repo)) = js
  /\ forall name, name <> repo -> removed.2 name = hub name.
Proof.
  intros repo js added removed Ha Hr Hid Hcr Hrepo Hreads Hfresh Hdone.
  subst added removed. rewrite scheduler_at_answer in Hdone.
  destruct (scheduler_at_then fromisoformat e now now' a r hub Hrepo) as [H1 H2].
  fold repo in H1, H2, Hdone. rewrite H1, H2.
  destruct (add_then_remove_variable fromisoformat e now now' a r (hub repo)
              Ha Hr Hid Hcr Hreads Hfresh Hdone) as [Hdone' Hjs].
  split; [exact Hdone'|]. split; [exact Hjs|].
  intros name Hname%String.eqb_neq.
  rewrite !scheduler_at_variable, Hrepo. fold repo. by rewrite Hname.
Qed.

Lemma add_then_remove_restores_witness :
  Store.jobs_of
    (Store._get_schedules
       ((Scheduler.scheduler_at Iso.fromisoformat Sample.env Sample.now
           (Sample.call_at "octo/agent" "remove" "weekly")
           (Scheduler.scheduler_at Iso.fromisoformat Sample.env Sample.now
              Sample.add_weekly
              (Sample.hub (Sample.holding [("daily_review", Sample.daily_review)]))).2).2
          "octo/agent"))
  = [("daily_review", Sample.daily_review)].
Proof.
  refine (proj1 (proj2 (add_then_remove_restores Iso.fromisoformat Sample.env
                          Sample.now Sample.now Sample.add_weekly
                          (Sample.call_at "octo/agent" "remove" "weekly")
                          (Sample.hub
                             (Sample.holding [("daily_review", Sample.daily_review)]))
                          eq_refl eq_refl eq_refl _ eq_refl eq_refl _ _))).
  - split; vm_compute; discriminate.
  - vm_compute. reflexivity.
  - vm_compute. reflexivity.
Defined.

(** A stored job that is not due is not reported, whatever the outcome. *)
Lemma not_due_not_reported (fromisoformat : string -> result DateTime.datetime)
      (e : Scheduler.env) (now : DateTime.naive) (a : Scheduler.args)
      (w : Store.world) (jid : string) (j : Store.job) :
  let js := Store.jobs_of (Store._get_schedules w) in
  Scheduler.action a = "check" ->
  Dict.wf js -> Dict.lookup jid js = Some j ->
  Scheduler.should_run fromisoformat now j = false ->
  Scheduler.times_reported jid (Scheduler.scheduler fromisoformat e now a w).1 = 0%nat.
Proof.
  intros js Ha Hwf Hj Hs.
  destruct (scheduler_cases fromisoformat e a) as [[text Hf]|Hc]; [by rewrite Hf|].
  rewrite (scheduler_check fromisoformat e now a w Hc Ha). cbn [fst].
  rewrite (check_reports fromisoformat now w jid j Hwf Hj), Hs.
  by destruct (Scheduler.report _).
Qed.

(** On one variable: [enable] and [disable] set the [enabled] field of the
    job and nothing else, and after [disable] no [check] of that variable
    reports the job. *)
Lemma toggle_variable
      (fromisoformat : string -> result DateTime.datetime)
      (e : Scheduler.env) (now : DateTime.naive) (a : Scheduler.args)
      (w : Store.world) (jid : string) (j : Store.job) (on : bool) :
  let js := Store.jobs_of (Store._get_schedules w) in
  let run := Scheduler.scheduler fromisoformat e now a w in
  let js' := Store.jobs_of (Store._get_schedules run.2) in
  Scheduler.configured e a ->
  Scheduler.action a = (if on then "enable" else "disable") ->
  Scheduler.job_id a = Some jid -> jid <> "" ->
  Store.reads w = Store.Up -> Store.writes w = Store.Up ->
  Dict.wf js -> Dict.lookup jid js = Some j ->
  run.1 = Scheduler.Completed
  /\ Dict.keys js' = Dict.keys js
  /\ (forall k, Dict.lookup k js'
                = if String.eqb k jid then Some (<["enabled" := JBool on]> j)
                  else Dict.lookup k js)
  /\ (forall k, k <> "enabled" -> (<["enabled" := JBool on]> j) !! k = j !! k)
  /\ (on = false ->
      forall (c : Scheduler.args) (now' : DateTime.naive),
        Scheduler.action c = "check" ->
        Scheduler.times_reported jid
          (Scheduler.scheduler fromisoformat e now' c run.2).1 = 0%nat).
Proof.
  intros js run js' Hc Ha Hid Hne Hreads Hup Hwf Hj.
  assert (run = (Scheduler.Completed,
                 {| Store.content :=
                      Store.Document
                        {| Store.jobs :=
                             Some (Dict.set jid (<["enabled" := JBool on]> j) js);
                           Store.timezone := Store.timezone (Store._get_schedules w) |};
                    Store.reads := Store.reads w; Store.writes := Store.writes w;
                    Store.saved :=
                      (Store.saved w
                         ++ [{| Store.jobs :=
                                  Some (Dict.set jid (<["enabled" := JBool on]> j) js);
                                Store.timezone :=
                                  Store.timezone (Store._get_schedules w) |}])%list |}))
    as Hrun.
  { subst run. rewrite (scheduler_dispatch fromisoformat e now a w Hc), Ha.
    destruct on; cbn [String.eqb Ascii.eqb Bool.eqb]; cbn zeta;
      unfold Scheduler.toggle; rewrite Hid;
      cbn [Scheduler.given Scheduler.text_of default from_option id];
      apply String.eqb_neq in Hne as ->; cbn [negb]; fold js; rewrite Hj;
      rewrite save_and_report_spec, Hup; reflexivity. }
  assert (js' = Dict.set jid (<["enabled" := JBool on]> j) js) as Hjs'.
  { subst js'. rewrite Hrun. unfold Store._get_schedules.
    cbn [snd Store.reads Store.content]. by rewrite Hreads. }
  assert (Dict.keys js' = Dict.keys js) as Hkeys.
  { rewrite Hjs', keys_set. rewrite bool_decide_eq_true_2; [done|].
    apply dec_stable. intros Hno%lookup_None_keys. congruence. }
  split; [by rewrite Hrun|]. split; [exact Hkeys|]. split; [|split].
  - intros k. by rewrite Hjs', lookup_set.
  - intros k Hk. by apply lookup_insert_ne.
  - intros -> c now' Hcheck.
    apply (not_due_not_reported fromisoformat e now' c run.2 jid
             (<["enabled" := JBool false]> j) Hcheck).
    + fold js'. unfold Dict.wf. by rewrite Hkeys.
    + fold js'. by rewrite Hjs', lookup_set, String.eqb_refl.
    + unfold Scheduler.should_run, Scheduler.enabled, Store.get_or.
      by rewrite lookup_insert_eq.
Qed.

(** X7. [enable] and [disable] set the [enabled] field of the job and
    nothing else: the other fields of the job, the other jobs of the
    repository and the order of the ids stay, and so do the variables of the
    other repositories.  After [disable], no [check] addressed to the same
    repository reports the job, at any time. *)
Theorem toggle_sets_enabled_only
        (fromisoformat : string -> result DateTime.datetime)
        (e : Scheduler.env) (now : DateTime.naive) (a : Scheduler.args)
        (hub : Scheduler.variables) (jid : string) (j : Store.job) (on : bool) :
  let repo := Scheduler.repository_of e a in
  let js := Store.jobs_of (Store._get_schedules (hub repo)) in
  let run := Scheduler.scheduler_at fromisoformat e now a hub in
  let js' := Store.jobs_of (Store._get_schedules (run.2 repo)) in
  Scheduler.configured e a ->
  Scheduler.action a = (if on then "enable" else "disable") ->
  Scheduler.job_id a = Some jid -> jid <> "" ->
  Store.reads (hub repo) = Store.Up -> Store.writes (hub repo) = Store.Up ->
  Dict.wf js -> Dict.lookup jid js = Some j ->
  run.1 = Scheduler.Completed
  /\ Dict.keys js' = Dict.keys js
  /\ (forall k, Dict.lookup k js'
                = if String.eqb k jid then Some (<["enabled" := JBool on]> j)
                  else Dict.lookup k js)
  /\ (forall k, k <> "enabled" -> (<["enabled" := JBool on]> j) !! k = j !! k)
  /\ (forall name, name <> repo -> run.2 name = hub name)
  /\ (on = false ->
      forall (c : Scheduler.args) (now' : DateTime.naive),
        Scheduler.action c = "check" ->
        Scheduler.repository_of e c = repo ->
        Scheduler.times_reported jid
          (Scheduler.scheduler_at fromisoformat e now' c run.2).1 = 0%nat).
Proof.
  intros repo js run js' Hc Ha Hid Hne Hreads Hup Hwf Hj. subst run js'.
  rewrite scheduler_at_answer, scheduler_at_variable. fold repo.
  rewrite String.eqb_refl.
  destruct (toggle_variable fromisoformat e now a (hub repo) jid j on
              Hc Ha Hid Hne Hreads Hup Hwf Hj) as (H1 & H2 & H3 & H4 & H5).
  split; [exact H1|]. split; [exact H2|]. split; [exact H3|]. split; [exact H4|].
  split.
  - intros name Hname%String.eqb_neq. rewrite scheduler_at_variable. fold repo.
    by rewrite Hname.
  - intros Hoff c now' Hcheck Hrepo.
    rewrite (proj1 (scheduler_at_then fromisoformat e now now' a c hub Hrepo)).
    by apply H5.
Qed.

Lemma toggle_sets_enabled_only_witness :
  Scheduler.times_reported "daily_review"
    (Scheduler.scheduler_at Iso.fromisoformat Sample.env Sample.now
       (Sample.call "check")
       (Scheduler.scheduler_at Iso.fromisoformat Sample.env Sample.now
          (Sample.call_at "octo/agent" "disable" "daily_review")
          (Sample.hub (Sample.holding [("daily_review", Sample.daily_review)]))).2).1
  = 0%nat.
Proof.
  refine (proj2 (proj2 (proj2 (proj2 (proj2
            (toggle_sets_enabled_only Iso.fromisoformat Sample.env Sample.now
               (Sample.call_at "octo/agent" "disable" "daily_review")
               (Sample.hub (Sample.holding [("daily_review", Sample.daily_review)]))
               "daily_review" Sample.daily_review false
               _ eq_refl eq_refl _ eq_refl eq_refl _ _)))))
            eq_refl (Sample.call "check") Sample.now eq_refl eq_refl).
  - split; vm_compute; discriminate.
  - discriminate.
  - unfold Dict.wf. apply (bool_decide_unpack (NoDup _)). vm_compute. exact I.
  - vm_compute. reflexivity.
Defined.

(** ** More on [add] *)

(** X8. A completed [add] leaves every other job as it was.  An id that was
    stored keeps its place in the order of the ids; a new id goes last. *)
Theorem add_keeps_the_other_jobs
        (fromisoformat : string -> result DateTime.datetime)
        (e : Scheduler.env) (now : DateTime.naive) (a : Scheduler.args)
        (w : Store.world) :
  let js := Store.jobs_of (Store._get_schedules w) in
  let run := Scheduler.scheduler fromisoformat e now a w in
  let js' := Store.jobs_of (Store._get_schedules run.2) in
  let jid := Scheduler.text_of (Scheduler.job_id a) in
  Scheduler.action a = "add" -> Store.reads w = Store.Up ->
  run.1 = Scheduler.Completed ->
  Dict.keys js' = (if bool_decide (jid ∈ Dict.keys js) then Dict.keys js
                   else (Dict.keys js ++ [jid])%list)
  /\ (forall k, k <> jid -> Dict.lookup k js' = Dict.lookup k js)
  /\ length (Store.saved run.2) = S (length (Store.saved w)).
Proof.
  intros js run js' jid Ha Hreads Hdone. subst run js'.
  destruct (scheduler_cases fromisoformat e a) as [[text Hf]|Hc].
  { rewrite Hf in Hdone. discriminate Hdone. }
  rewrite (scheduler_add fromisoformat e now a w Hc Ha) in Hdone |- *.
  cbn [fst snd] in Hdone |- *.
  destruct (add_completed fromisoformat a w Hdone) as (_ & _ & _ & _ & Hw1).
  set (w1 := (Scheduler.add fromisoformat a w).2) in *.
  assert (Store.jobs_of (Store._get_schedules w1)
          = Dict.set jid (Scheduler.new_job a) js) as ->.
  { rewrite Hw1. unfold Store._get_schedules at 1.
    cbn [Store.reads Store.content]. by rewrite Hreads. }
  split; [apply keys_set|]. split.
  - intros k Hk. rewrite lookup_set. by apply String.eqb_neq in Hk as ->.
  - rewrite Hw1. cbn [Store.saved]. by rewrite length_app, Nat.add_1_r.
Qed.

Lemma add_keeps_the_other_jobs_witness :
  Dict.keys
    (Store.jobs_of
       (Store._get_schedules
          (Scheduler.scheduler Iso.fromisoformat Sample.env Sample.now Sample.add_weekly
             (Sample.holding [("weekly", Sample.paused);
                              ("daily_review", Sample.daily_review)])).2))
  = ["weekly"; "daily_review"].
Proof.
  refine (proj1 (add_keeps_the_other_jobs Iso.fromisoformat Sample.env Sample.now
                   Sample.add_weekly
                   (Sample.holding [("weekly", Sample.paused);
                                    ("daily_review", Sample.daily_review)])
                   eq_refl eq_refl _)).
  vm_compute. reflexivity.
Defined.

(** X9. When the variable cannot be read (the remote rejects the read or
    does not answer) and the write goes through, a completed [add] replaces
    the variable by a collection that holds the new job alone, with timezone
    UTC: whatever was stored is overwritten. *)
Theorem add_after_failed_read_overwrites
        (fromisoformat : string -> result DateTime.datetime)
        (e : Scheduler.env) (now : DateTime.naive) (a : Scheduler.args)
        (w : Store.world) :
  Scheduler.action a = "add" -> Store.reads w <> Store.Up ->
  (Scheduler.scheduler fromisoformat e now a w).1 = Scheduler.Completed ->
  Store.content (Scheduler.scheduler fromisoformat e now a w).2
  = Store.Document
      {| Store.jobs := Some [(Scheduler.text_of (Scheduler.job_id a),
                              Scheduler.new_job a)];
         Store.timezone := Some (JStr "UTC") |}.
Proof.
  intros Ha Hreads Hdone.
  destruct (scheduler_cases fromisoformat e a) as [[text Hf]|Hc].
  { rewrite Hf in Hdone. discriminate Hdone. }
  rewrite (scheduler_add fromisoformat e now a w Hc Ha) in Hdone |- *.
  cbn [fst snd] in Hdone |- *.
  destruct (add_completed fromisoformat a w Hdone) as (_ & _ & _ & _ & ->).
  cbn [Store.content]. unfold Store._get_schedules.
  by destruct (Store.reads w).
Qed.

Lemma add_after_failed_read_overwrites_witness :
  Store.content
    (Scheduler.scheduler Iso.fromisoformat Sample.env Sample.now Sample.add_weekly
       (Sample.remote (Store.Rejecting "HTTP 500") Store.Up
          [("daily_review", Sample.daily_review)])).2
  = Store.Document
      {| Store.jobs := Some [("weekly", Scheduler.new_job Sample.add_weekly)];
         Store.timezone := Some (JStr "UTC") |}.
Proof.
  refine (add_after_failed_read_overwrites Iso.fromisoformat Sample.env Sample.now
            Sample.add_weekly
            (Sample.remote (Store.Rejecting "HTTP 500") Store.Up
               [("daily_review", Sample.daily_review)])
            eq_refl _ _).
  - discriminate.
  - vm_compute. reflexivity.
Defined.

(** A cron expression of five fields passes the validation of [add]. *)
Lemma validate_cron_five (a : Scheduler.args) :
  (Scheduler.given (Scheduler.cron a) = true ->
   length (Py.split_ws (Py.strip (Scheduler.text_of (Scheduler.cron a)))) = 5%nat) ->
  Scheduler.validate_cron a = Ok None.
Proof.
  unfold Scheduler.validate_cron, Cron._parse_cron.
  destruct (Scheduler.given (Scheduler.cron a)); [|done].
  intros H. specialize (H eq_refl).
  by destruct (Py.split_ws _) as [|p0 [|p1 [|p2 [|p3 [|p4 [|p5 ps]]]]]].
Qed.

Lemma validate_run_at_parsed (fromisoformat : string -> result DateTime.datetime)
      (a : Scheduler.args) :
  (Scheduler.given (Scheduler.run_at a) = true ->
   exists dt,
     fromisoformat (Py.replace "Z" "+00:00" (Scheduler.text_of (Scheduler.run_at a)))
     = Ok dt) ->
  Scheduler.validate_run_at fromisoformat a = Ok None.
Proof.
  unfold Scheduler.validate_run_at.
  destruct (Scheduler.given (Scheduler.run_at a)); [|done].
  intros H. by destruct (H eq_refl) as [dt ->].
Qed.

(** X10. An [add] that passes the validations and whose write is rejected
    answers "Failed to save: " followed by the remote's message, and the
    variable keeps its content; when the write raises, it answers "Error: "
    followed by the exception's text. *)
Theorem add_reports_a_failed_save
        (fromisoformat : string -> result DateTime.datetime)
        (e : Scheduler.env) (now : DateTime.naive) (a : Scheduler.args)
        (w : Store.world) :
  let run := Scheduler.scheduler fromisoformat e now a w in
  Scheduler.configured e a -> Scheduler.action a = "add" ->
  Scheduler.given (Scheduler.job_id a) = true ->
  Scheduler.given (Scheduler.prompt a) = true ->
  Scheduler.given (Scheduler.cron a) = true
  \/ Scheduler.given (Scheduler.run_at a) = true ->
  (Scheduler.given (Scheduler.cron a) = true ->
   length (Py.split_ws (Py.strip (Scheduler.text_of (Scheduler.cron a)))) = 5%nat) ->
  (Scheduler.given (Scheduler.run_at a) = true ->
   exists dt,
     fromisoformat (Py.replace "Z" "+00:00" (Scheduler.text_of (Scheduler.run_at a)))
     = Ok dt) ->
  (forall text, Store.writes w = Store.Rejecting text ->
                run.1 = Scheduler.Failure ("Failed to save: " ++ text)
                /\ Store.content run.2 = Store.content w)
  /\ (forall text, Store.writes w = Store.Down text ->
                   run.1 = Scheduler.Failure ("Error: " ++ text)
                   /\ Store.content run.2 = Store.content w)
  /\ (Store.writes w = Store.Up -> run.1 = Scheduler.Completed).
Proof.
  intros run Hc Ha Hjid Hprompt Htrigger Hcron Hrun. subst run.
  rewrite (scheduler_add fromisoformat e now a w Hc Ha). cbn [fst snd].
  unfold Scheduler.add. rewrite Hjid, Hprompt. cbn [negb].
  assert (negb (Scheduler.given (Scheduler.cron a))
          && negb (Scheduler.given (Scheduler.run_at a)) = false) as ->.
  { destruct Htrigger as [-> | ->]; by rewrite ?andb_false_r. }
  rewrite (validate_cron_five a Hcron), (validate_run_at_parsed fromisoformat a Hrun).
  unfold Store._save_schedules.
  split; [|split]; [intros text Hw | intros text Hw | intros Hw]; by rewrite Hw.
Qed.

Lemma add_reports_a_failed_save_witness :
  (Scheduler.scheduler Iso.fromisoformat Sample.env Sample.now Sample.add_weekly
     (Sample.remote Store.Up (Store.Rejecting "HTTP 403: Forbidden") [])).1
  = Scheduler.Failure "Failed to save: HTTP 403: Forbidden".
Proof.
  refine (proj1 (proj1 (add_reports_a_failed_save Iso.fromisoformat Sample.env
                          Sample.now Sample.add_weekly
                          (Sample.remote Store.Up (Store.Rejecting "HTTP 403: Forbidden") [])
                          _ eq_refl eq_refl eq_refl (or_introl eq_refl) _ _)
                   "HTTP 403: Forbidden" eq_refl)).
  - split; vm_compute; discriminate.
  - intros _. vm_compute. reflexivity.
  - intros H. discriminate H.
Defined.

(** ** What the tool writes *)

(** Membership in a list given by its elements. *)
Ltac in_list := repeat (apply elem_of_cons; first [by left | right]).

Section Frame.

Variable fromisoformat : string -> result DateTime.datetime.

(** The second world is the first one, or the first one after one write. *)
Local Abbreviation framed w w' :=
  (Store.reads w' = Store.reads (w : Store.world) /\ Store.writes w' = Store.writes w
   /\ (w' = w
       \/ exists s,
            Store.saved w' = app (Store.saved w) [s]
            /\ Store.content w' = match Store.writes w with
                                  | Store.Up => Store.Document s
                                  | _ => Store.content w
                                  end)).

Lemma framed_same (w : Store.world) : framed w w.
Proof. split; [done|]. split; [done|]. by left. Qed.

Lemma framed_save (s : Store.schedules) (w : Store.world) :
  framed w (Store._save_schedules s w).2.
Proof.
  unfold Store._save_schedules.
  destruct (Store.writes w) eqn:Hw; cbn [snd Store.reads Store.writes];
    (split; [done|]; split; [done|]; right; exists s; by rewrite ?Hw).
Qed.

Lemma framed_save_and_report (s : Store.schedules) (w : Store.world) :
  framed w (Scheduler.save_and_report s w).2.
Proof.
  pose proof (framed_save s w) as H. unfold Scheduler.save_and_report.
  by destruct (Store._save_schedules s w).
Qed.

Lemma check_framed (now : DateTime.naive) (w : Store.world) :
  framed w (Scheduler.check fromisoformat now w).2.
Proof.
  unfold Scheduler.check. rewrite check_loop_spec. cbn [app].
  destruct (Scheduler.retired_of _ _ _) as [|k ks]; [apply framed_same|].
  destruct (Scheduler.del_all _ _) as [js'|x]; [|apply framed_same].
  pose proof (framed_save
                {| Store.jobs := Some js';
                   Store.timezone := Store.timezone (Store._get_schedules w) |} w) as H.
  by destruct (Store._save_schedules _ w).
Qed.

Lemma add_framed (a : Scheduler.args) (w : Store.world) :
  framed w (Scheduler.add fromisoformat a w).2.
Proof.
  unfold Scheduler.add.
  destruct (negb (Scheduler.given (Scheduler.job_id a))); [apply framed_same|].
  destruct (_ && _); [apply framed_same|].
  destruct (negb (Scheduler.given (Scheduler.prompt a))); [apply framed_same|].
  destruct (Scheduler.validate_cron a) as [[r|]|x]; try apply framed_same.
  destruct (Scheduler.validate_run_at fromisoformat a) as [[r|]|x];
    try apply framed_same.
  cbn zeta.
  match goal with
  | |- context [Store._save_schedules ?s w] =>
      pose proof (framed_save s w) as H; by destruct (Store._save_schedules s w)
  end.
Qed.

Lemma remove_framed (a : Scheduler.args) (w : Store.world) :
  framed w (Scheduler.remove a w).2.
Proof.
  unfold Scheduler.remove.
  destruct (negb (Scheduler.given (Scheduler.job_id a))); [apply framed_same|].
  cbn zeta. destruct (Dict.lookup _ _); [|apply framed_same].
  destruct (Dict.del _ _); [apply framed_save_and_report | apply framed_same].
Qed.

Lemma toggle_framed (on : bool) (a : Scheduler.args) (w : Store.world) :
  framed w (Scheduler.toggle on a w).2.
Proof.
  unfold Scheduler.toggle.
  destruct (negb (Scheduler.given (Scheduler.job_id a))); [apply framed_same|].
  cbn zeta. destruct (Dict.lookup _ _); [apply framed_save_and_report | apply framed_same].
Qed.

Lemma get_job_reads (a : Scheduler.args) (w : Store.world) :
  (Scheduler.get_job a w).2 = w.
Proof.
  unfold Scheduler.get_job.
  destruct (negb (Scheduler.given (Scheduler.job_id a))); [done|].
  cbn zeta. by destruct (Dict.lookup _ _).
Qed.

End Frame.

(** X11. Whatever the action and the arguments, one call of the tool writes
    the variable once at most: the remote is left as it was, or one document
    was handed to the write and the variable holds it exactly when the remote
    accepts writes.  Only [check], [add], [remove], [enable] and [disable]
    ever write: every other action, known or not, leaves everything as it
    was. *)
Theorem scheduler_writes_at_most_once
        (fromisoformat : string -> result DateTime.datetime)
        (e : Scheduler.env) (now : DateTime.naive) (a : Scheduler.args)
        (w : Store.world) :
  let run := Scheduler.scheduler fromisoformat e now a w in
  Store.reads run.2 = Store.reads w /\ Store.writes run.2 = Store.writes w
  /\ (run.2 = w
      \/ exists s,
           Store.saved run.2 = (Store.saved w ++ [s])%list
           /\ Store.content run.2 = match Store.writes w with
                                    | Store.Up => Store.Document s
                                    | _ => Store.content w
                                    end)
  /\ (Scheduler.action a ∉ ["check"; "add"; "remove"; "enable"; "disable"] ->
      run.2 = w).
Proof.
  intros run. subst run.
  destruct (scheduler_cases fromisoformat e a) as [[text Hf]|Hc].
  { rewrite Hf. cbn [snd]. split; [done|]. split; [done|]. split; [by left | done]. }
  rewrite (scheduler_dispatch fromisoformat e now a w Hc). cbn zeta. cbn [snd].
  destruct (String.eqb_spec (Scheduler.action a) "list") as [Ha|_].
  { cbn [Scheduler.list_jobs snd].
    split; [done|]. split; [done|]. split; [by left | done]. }
  destruct (String.eqb_spec (Scheduler.action a) "check") as [Ha|_].
  { destruct (check_framed fromisoformat now w) as (H1 & H2 & H3).
    split; [done|]. split; [done|]. split; [done|].
    intros Hno. exfalso. apply Hno. rewrite Ha. in_list. }
  destruct (String.eqb_spec (Scheduler.action a) "add") as [Ha|_].
  { destruct (add_framed fromisoformat a w) as (H1 & H2 & H3).
    split; [done|]. split; [done|]. split; [done|].
    intros Hno. exfalso. apply Hno. rewrite Ha. in_list. }
  destruct (String.eqb_spec (Scheduler.action a) "remove") as [Ha|_].
  { destruct (remove_framed a w) as (H1 & H2 & H3).
    split; [done|]. split; [done|]. split; [done|].
    intros Hno. exfalso. apply Hno. rewrite Ha. in_list. }
  destruct (String.eqb_spec (Scheduler.action a) "enable") as [Ha|_].
  { destruct (toggle_framed true a w) as (H1 & H2 & H3).
    split; [done|]. split; [done|]. split; [done|].
    intros Hno. exfalso. apply Hno. rewrite Ha. in_list. }
  destruct (String.eqb_spec (Scheduler.action a) "disable") as [Ha|_].
  { destruct (toggle_framed false a w) as (H1 & H2 & H3).
    split; [done|]. split; [done|]. split; [done|].
    intros Hno. exfalso. apply Hno. rewrite Ha. in_list. }
  destruct (String.eqb_spec (Scheduler.action a) "get") as [Ha|_].
  { rewrite get_job_reads. split; [done|]. split; [done|]. split; [by left | done]. }
  cbn [snd]. split; [done|]. split; [done|]. split; [by left | done].
Qed.

(** ** Cron jobs within one minute *)

(** The cron matcher reads the minute, the hour, the day, the month and the
    day of the week of the instant, and nothing else. *)
Lemma cron_matches_fields (c : json) (dt dt' : DateTime.naive) :
  DateTime.minute dt = DateTime.minute dt' -> DateTime.hour dt = DateTime.hour dt' ->
  DateTime.day dt = DateTime.day dt' -> DateTime.month dt = DateTime.month dt' ->
  DateTime.weekday dt = DateTime.weekday dt' ->
  Scheduler._cron_matches c dt = Scheduler._cron_matches c dt'.
Proof.
  intros H1 H2 H3 H4 H5. unfold Scheduler._cron_matches, Scheduler.cron_body.
  by rewrite H1, H2, H3, H4, H5.
Qed.

Lemma due_of_ext (fromisoformat : string -> result DateTime.datetime)
      (dt dt' : DateTime.naive) (js : list (string * Store.job)) :
  Forall (fun p => Scheduler.should_run fromisoformat dt p.2
                   = Scheduler.should_run fromisoformat dt' p.2) js ->
  Scheduler.due_of fromisoformat dt js = Scheduler.due_of fromisoformat dt' js.
Proof.
  unfold Scheduler.due_of. induction 1 as [|p js Hp _ IH]; [done|].
  cbn [List.filter]. rewrite Hp. destruct (Scheduler.should_run _ dt' _); cbn [map];
    by rewrite IH.
Qed.

(** X12. Nothing records that a cron job was reported.  On a collection
    without [run_at] jobs, two checks at instants that agree on the minute,
    the hour, the day, the month and the day of the week give the same
    status and the same due list (the text of the response, which shows the
    date, is not modelled), and the first leaves everything as it was: a
    second check in the same minute reports every due job again. *)
Theorem cron_jobs_are_reported_again
        (fromisoformat : string -> result DateTime.datetime)
        (e : Scheduler.env) (dt dt' : DateTime.naive) (a : Scheduler.args)
        (w : Store.world) :
  Scheduler.action a = "check" ->
  Forall (fun p => truthy (Store.get "run_at" p.2) = false)
         (Store.jobs_of (Store._get_schedules w)) ->
  DateTime.minute dt = DateTime.minute dt' -> DateTime.hour dt = DateTime.hour dt' ->
  DateTime.day dt = DateTime.day dt' -> DateTime.month dt = DateTime.month dt' ->
  DateTime.weekday dt = DateTime.weekday dt' ->
  Scheduler.scheduler fromisoformat e dt' a
    (Scheduler.scheduler fromisoformat e dt a w).2
  = Scheduler.scheduler fromisoformat e dt a w.
Proof.
  intros Ha Hjs H1 H2 H3 H4 H5.
  destruct (scheduler_cases fromisoformat e a) as [[text Hf]|Hc]; [by rewrite !Hf|].
  assert (forall now, Scheduler.retired_of fromisoformat now
                        (Store.jobs_of (Store._get_schedules w)) = []) as Hnone.
  { intros now. apply nothing_retires.
    eapply Forall_impl; [exact Hjs|]. intros p Hp. by left. }
  rewrite !(scheduler_check fromisoformat e _ a _ Hc Ha).
  rewrite (check_quiet fromisoformat dt w (Hnone dt)). cbn [fst snd].
  rewrite (check_quiet fromisoformat dt' w (Hnone dt')). cbn [fst snd].
  do 3 f_equal. apply due_of_ext.
  eapply Forall_impl; [exact Hjs|]. intros p Hp. cbn beta.
  unfold Scheduler.should_run, Scheduler.cron_due, Scheduler.run_at_due.
  rewrite Hp. cbn [andb].
  by rewrite (cron_matches_fields (Store.get "cron" p.2) dt dt' H1 H2 H3 H4 H5).
Qed.

Lemma cron_jobs_are_reported_again_witness :
  Scheduler.scheduler Iso.fromisoformat Sample.env
    {| DateTime.year := 2024; DateTime.month := 1; DateTime.day := 17;
       DateTime.hour := 9; DateTime.minute := 0; DateTime.second := 59;
       DateTime.microsecond := 0 |}
    (Sample.call "check")
    (Scheduler.scheduler Iso.fromisoformat Sample.env Sample.now (Sample.call "check")
       (Sample.holding [("daily_review", Sample.daily_review)])).2
  = Scheduler.scheduler Iso.fromisoformat Sample.env Sample.now (Sample.call "check")
      (Sample.holding [("daily_review", Sample.daily_review)]).
Proof.
  refine (cron_jobs_are_reported_again Iso.fromisoformat Sample.env Sample.now _
            (Sample.call "check")
            (Sample.holding [("daily_review", Sample.daily_review)])
            eq_refl _ eq_refl eq_refl eq_refl eq_refl eq_refl).
  cbv [Sample.holding Store._get_schedules Store.jobs_of Store.reads Store.content
         Store.jobs default from_option id].
  constructor; [vm_compute; reflexivity|]. constructor.
Defined.

(** ** The offset of [run_at] *)

(** X13. When [run_at] carries a UTC offset (a [Z], a [+], or a [-] after
    the date), the offset is dropped, not applied: the job is due when the
    date and time written in [run_at] lie between 60 minutes before and one
    minute after now, whatever the offset is. *)
Theorem run_at_offset_is_dropped
        (fromisoformat : string -> result DateTime.datetime)
        (text : string) (now : DateTime.naive) (dt : DateTime.datetime) :
  let run_at_str := Py.replace "Z" "+00:00" text in
  Py.contains "+" run_at_str || Py.contains "-" (Py.drop 10 run_at_str) = true ->
  fromisoformat run_at_str = Ok dt ->
  Scheduler._run_at_matches fromisoformat (JStr text) now
  = (DateTime.micros now - 60 * DateTime.minute_us <=? DateTime.micros (DateTime.fields dt))
    && (DateTime.micros (DateTime.fields dt) <=? DateTime.micros now + DateTime.minute_us).
Proof.
  intros run_at_str Hoff Hparse. apply run_at_window.
  unfold Scheduler.parse_run_at. fold run_at_str.
  apply orb_true_iff in Hoff.
  assert (negb (Py.contains "+" run_at_str)
          && negb (Py.contains "-" (Py.drop 10 run_at_str)) = false) as ->.
  { destruct Hoff as [-> | ->]; by rewrite ?andb_false_r. }
  by rewrite Hparse.
Qed.

Lemma run_at_offset_is_dropped_witness :
  Scheduler._run_at_matches Iso.fromisoformat (JStr "2024-01-17T08:50:00+05:00")
    Sample.now = true.
Proof.
  refine (run_at_offset_is_dropped Iso.fromisoformat "2024-01-17T08:50:00+05:00"
            Sample.now
            {| DateTime.fields := Sample.at_time 8 50; DateTime.tzinfo := Some 18000 |}
            _ _).
  - vm_compute. reflexivity.
  - vm_compute. reflexivity.
Defined.

(** ** Cron expressions as words *)

Lemma append_nil_r (s : string) : s ++ "" = s.
Proof. induction s as [|c s IH]; [done|]. by rewrite append_cons, IH. Qed.

Lemma pieces_nonempty (f : ascii -> bool) (s : string) : Py.pieces f s <> [].
Proof.
  induction s as [|c r IH]; [done|]. cbn [Py.pieces].
  destruct (f c); [done|]. by destruct (Py.pieces f r).
Qed.

Lemma pieces_cons (f : ascii -> bool) (c : ascii) (r : string) :
  Py.pieces f (String c r)
  = if f c then "" :: Py.pieces f r
    else match Py.pieces f r with
         | w :: ws => String c w :: ws
         | [] => [String c ""]
         end.
Proof. reflexivity. Qed.

Lemma split_ws_space (c : ascii) (r : string) :
  Py.isspace c = true -> Py.split_ws (String c r) = Py.split_ws r.
Proof. intros H. unfold Py.split_ws. cbn [Py.pieces]. by rewrite H. Qed.

(** Leading whitespace gives no word. *)
Lemma split_ws_blank (b s : string) :
  Word.is_blank b = true -> Py.split_ws (b ++ s) = Py.split_ws s.
Proof.
  induction b as [|c b IH]; [done|]. cbn [Word.is_blank].
  intros [Hc Hb]%andb_prop. rewrite append_cons, split_ws_space by done. by apply IH.
Qed.

Lemma split_ws_only_blank (b : string) : Word.is_blank b = true -> Py.split_ws b = [].
Proof.
  intros H. rewrite <- (append_nil_r b). by rewrite split_ws_blank.
Qed.

Lemma pieces_word (w : string) (c : ascii) (r : string) :
  Word.no_space w = true -> Py.isspace c = true ->
  Py.pieces Py.isspace (w ++ String c r) = w :: Py.pieces Py.isspace r.
Proof.
  intros Hw Hc. induction w as [|d w IH].
  - change ("" ++ String c r) with (String c r). cbn [Py.pieces]. by rewrite Hc.
  - cbn [Word.no_space] in Hw. apply andb_prop in Hw as [Hd Hw].
    apply negb_true_iff in Hd. rewrite append_cons. cbn [Py.pieces].
    by rewrite Hd, (IH Hw).
Qed.

Lemma pieces_word_end (w : string) :
  Word.no_space w = true -> Py.pieces Py.isspace w = [w].
Proof.
  induction w as [|d w IH]; [done|]. cbn [Word.no_space].
  intros [Hd Hw]%andb_prop. apply negb_true_iff in Hd. cbn [Py.pieces].
  by rewrite Hd, (IH Hw).
Qed.

Lemma split_ws_word (w : string) (c : ascii) (r : string) :
  Word.is_word w = true -> Py.isspace c = true ->
  Py.split_ws (w ++ String c r) = w :: Py.split_ws r.
Proof.
  unfold Word.is_word. intros [Hne Hw]%andb_prop Hc.
  unfold Py.split_ws. rewrite pieces_word by done. cbn [List.filter]. by rewrite Hne.
Qed.

Lemma split_ws_word_end (w : string) : Word.is_word w = true -> Py.split_ws w = [w].
Proof.
  unfold Word.is_word. intros [Hne Hw]%andb_prop.
  unfold Py.split_ws. rewrite pieces_word_end by done. cbn [List.filter]. by rewrite Hne.
Qed.

Lemma split_ws_lstrip (s : string) : Py.split_ws (Py.lstrip s) = Py.split_ws s.
Proof.
  induction s as [|c r IH]; [done|]. cbn [Py.lstrip].
  destruct (Py.isspace c) eqn:Hc; [|done]. by rewrite split_ws_space.
Qed.

(** Stripping on the right keeps the first piece and the words after it. *)
Lemma pieces_rstrip (s : string) :
  exists hd tl tl',
    Py.pieces Py.isspace s = hd :: tl
    /\ Py.pieces Py.isspace (Py.rstrip s) = hd :: tl'
    /\ List.filter (fun w => negb (String.eqb w "")) tl
       = List.filter (fun w => negb (String.eqb w "")) tl'.
Proof.
  induction s as [|c r (hd & tl & tl' & Hr & Hs & Hf)].
  - by exists "", [], [].
  - rewrite pieces_cons, Hr. cbn [Py.rstrip].
    destruct (Py.rstrip r) as [|d r'] eqn:Hstrip.
    + cbn [Py.pieces] in Hs. injection Hs as <- <-. cbn [List.filter] in Hf.
      destruct (Py.isspace c) eqn:Hc.
      * exists "", ("" :: tl), []. split; [done|]. split; [done|]. exact Hf.
      * exists (String c ""), tl, []. cbn [Py.pieces]. rewrite Hc.
        split; [done|]. split; [done|]. exact Hf.
    + rewrite (pieces_cons _ c (String d r')), Hs.
      destruct (Py.isspace c) eqn:Hc.
      * exists "", (hd :: tl), (hd :: tl').
        split; [done|]. split; [done|]. cbn [List.filter]. by rewrite Hf.
      * by exists (String c hd), tl, tl'.
Qed.

(** [s.strip().split()] is [s.split()]. *)
Lemma split_ws_strip (s : string) : Py.split_ws (Py.strip s) = Py.split_ws s.
Proof.
  unfold Py.strip. rewrite <- (split_ws_lstrip s).
  destruct (pieces_rstrip (Py.lstrip s)) as (hd & tl & tl' & H1 & H2 & Hf).
  unfold Py.split_ws. rewrite H1, H2. cbn [List.filter]. by rewrite Hf.
Qed.

(** Words joined by blanks split back into the words. *)
Lemma split_ws_join (ws : list string) (sep r : string) :
  Forall (fun w => Word.is_word w = true) ws ->
  Word.is_blank sep = true -> sep <> "" -> Word.is_blank r = true ->
  Py.split_ws (Py.join sep ws ++ r) = ws.
Proof.
  intros Hws Hsep Hne Hr. induction Hws as [|w ws Hw Hws IH].
  - by apply split_ws_only_blank.
  - destruct ws as [|w' ws'].
    + cbn [Py.join]. destruct r as [|c r'].
      * rewrite append_nil_r. by apply split_ws_word_end.
      * cbn [Word.is_blank] in Hr. apply andb_prop in Hr as [Hc Hr'].
        rewrite split_ws_word by done. by rewrite split_ws_only_blank.
    + change (Py.join sep (w :: w' :: ws')) with (w ++ sep ++ Py.join sep (w' :: ws')).
      rewrite !append_assoc. destruct sep as [|c sep']; [done|].
      cbn [Word.is_blank] in Hsep. apply andb_prop in Hsep as [Hc Hsep'].
      rewrite append_cons, split_ws_word by done.
      rewrite split_ws_blank by done. f_equal. apply IH.
Qed.

(** [_parse_cron] reads the words of the expression: the fields may be
    separated by any run of whitespace, and whitespace around the expression
    is ignored.  It succeeds exactly on five words, which become the five
    fields in order; otherwise it raises [ValueError] with the expression as
    it was given. *)
Lemma parse_cron_words (ws : list string) (sep l r : string) :
  Forall (fun w => Word.is_word w = true) ws ->
  Word.is_blank sep = true -> sep <> "" ->
  Word.is_blank l = true -> Word.is_blank r = true ->
  let cron_expr := l ++ Py.join sep ws ++ r in
  Cron._parse_cron cron_expr
  = match ws with
    | [p0; p1; p2; p3; p4] =>
        Ok {| Cron.minute := p0; Cron.hour := p1; Cron.day_of_month := p2;
              Cron.month := p3; Cron.day_of_week := p4 |}
    | _ => Raise (Exn ValueError
                    ("Invalid cron expression: " ++ cron_expr ++ " (expected 5 fields)"))
    end.
Proof.
  intros Hws Hsep Hne Hl Hr cron_expr. unfold Cron._parse_cron.
  assert (Py.split_ws (Py.strip cron_expr) = ws) as ->.
  { subst cron_expr. rewrite split_ws_strip, split_ws_blank by done.
    by apply split_ws_join. }
  by destruct ws as [|p0 [|p1 [|p2 [|p3 [|p4 [|p5 ws]]]]]].
Qed.

(** X14. [_parse_cron] reads the words of the expression: the fields may be
    separated by any run of whitespace, and whitespace around the expression
    is ignored.  It succeeds exactly on five words, which become the five
    fields in order; otherwise it raises [ValueError] with the expression as
    it was given. *)
Theorem parse_cron_reads_the_words (ws : list string) (sep l r : string) :
  Forall (fun w => Word.is_word w = true) ws ->
  Word.is_blank sep = true -> sep <> "" ->
  Word.is_blank l = true -> Word.is_blank r = true ->
  let cron_expr := l ++ Py.join sep ws ++ r in
  Cron._parse_cron cron_expr
  = match ws with
    | [p0; p1; p2; p3; p4] =>
        Ok {| Cron.minute := p0; Cron.hour := p1; Cron.day_of_month := p2;
              Cron.month := p3; Cron.day_of_week := p4 |}
    | _ => Raise (Exn ValueError
                    ("Invalid cron expression: " ++ cron_expr ++ " (expected 5 fields)"))
    end.
Proof. exact (parse_cron_words ws sep l r). Qed.

Lemma parse_cron_reads_the_words_witness :
  Cron._parse_cron (" " ++ Py.join "  " ["*/15"; "9-17"; "*"; "*"; "1-5"] ++ " ")
  = Ok {| Cron.minute := "*/15"; Cron.hour := "9-17"; Cron.day_of_month := "*";
          Cron.month := "*"; Cron.day_of_week := "1-5" |}.
Proof.
  refine (parse_cron_reads_the_words ["*/15"; "9-17"; "*"; "*"; "1-5"] "  " " " " "
            _ eq_refl _ eq_refl eq_refl).
  - repeat constructor.
  - discriminate.
Defined.

(** ** The day of the week *)

(** A cron expression matches only when it parses and its five fields
    match. *)
Lemma cron_matches_inv (text : string) (dt : DateTime.naive) :
  Scheduler._cron_matches (JStr text) dt = true ->
  exists cron,
    Cron._parse_cron text = Ok cron
    /\ Cron._cron_field_matches (Cron.minute cron) (DateTime.minute dt) 59 = Ok true
    /\ Cron._cron_field_matches (Cron.hour cron) (DateTime.hour dt) 23 = Ok true
    /\ Cron._cron_field_matches (Cron.day_of_month cron) (DateTime.day dt) 31 = Ok true
    /\ Cron._cron_field_matches (Cron.month cron) (DateTime.month dt) 12 = Ok true
    /\ Cron._cron_field_matches (Cron.day_of_week cron)
         ((DateTime.weekday dt + 1) mod 7) 6 = Ok true.
Proof.
  unfold Scheduler._cron_matches, Scheduler.cron_body.
  destruct (Cron._parse_cron text) as [cron|x]; [|done].
  cbn [mbind result_bind bind].
  destruct (Cron._cron_field_matches (Cron.minute cron) _ _) as [[]|] eqn:H1; try done.
  cbn [mbind result_bind bind negb].
  destruct (Cron._cron_field_matches (Cron.hour cron) _ _) as [[]|] eqn:H2; try done.
  cbn [mbind result_bind bind negb].
  destruct (Cron._cron_field_matches (Cron.day_of_month cron) _ _) as [[]|] eqn:H3;
    try done.
  cbn [mbind result_bind bind negb].
  destruct (Cron._cron_field_matches (Cron.month cron) _ _) as [[]|] eqn:H4; try done.
  cbn [mbind result_bind bind negb]. cbn zeta.
  destruct (Cron._cron_field_matches (Cron.day_of_week cron) _ _) as [[]|] eqn:H5;
    try done.
  intros _. exists cron. by rewrite H1, H2, H3, H4, H5.
Qed.

(** When the expression parses and every field is read, it matches when
    the five fields do. *)
Lemma cron_matches_all (text : string) (dt : DateTime.naive) (cron : Cron.cron_fields)
      (b1 b2 b3 b4 b5 : bool) :
  Cron._parse_cron text = Ok cron ->
  Cron._cron_field_matches (Cron.minute cron) (DateTime.minute dt) 59 = Ok b1 ->
  Cron._cron_field_matches (Cron.hour cron) (DateTime.hour dt) 23 = Ok b2 ->
  Cron._cron_field_matches (Cron.day_of_month cron) (DateTime.day dt) 31 = Ok b3 ->
  Cron._cron_field_matches (Cron.month cron) (DateTime.month dt) 12 = Ok b4 ->
  Cron._cron_field_matches (Cron.day_of_week cron)
    ((DateTime.weekday dt + 1) mod 7) 6 = Ok b5 ->
  Scheduler._cron_matches (JStr text) dt = b1 && b2 && b3 && b4 && b5.
Proof.
  intros Hp H1 H2 H3 H4 H5. unfold Scheduler._cron_matches, Scheduler.cron_body.
  rewrite Hp. cbn [mbind result_bind bind]. rewrite H1. cbn [mbind result_bind bind].
  destruct b1; [|done]. cbn [negb]. rewrite H2. cbn [mbind result_bind bind].
  destruct b2; [|done]. cbn [negb]. rewrite H3. cbn [mbind result_bind bind].
  destruct b3; [|done]. cbn [negb]. rewrite H4. cbn [mbind result_bind bind].
  destruct b4; [|done]. cbn [negb]. cbn zeta. rewrite H5. cbn [mbind result_bind bind].
  by destruct b5.
Qed.

Lemma numeral_is_word (n : string) : Numeral.is_numeral n = true -> Word.is_word n = true.
Proof.
  intros (Hne & Hall & _)%numeral_inv. unfold Word.is_word.
  apply andb_true_iff. split; [by apply negb_true_iff, String.eqb_neq|].
  clear Hne. induction n as [|c r IH]; [done|].
  apply all_digits_cons in Hall as [Hc Hr]. cbn [Word.no_space].
  by rewrite (digit_not_space c Hc), (IH Hr).
Qed.

(** X15. The day of the week counts from Sunday as 0 to Saturday as 6: an
    expression whose first four fields are stars and whose last field is a
    number matches exactly on the instants whose weekday, shifted by one from
    Python's Monday-based numbering, is that number.  The number 7, which
    some cron dialects read as Sunday, never matches, and neither does any
    larger one. *)
Theorem day_of_week_counts_from_sunday (n : string) (dt : DateTime.naive) :
  Numeral.is_numeral n = true ->
  Scheduler._cron_matches (JStr ("* * * * " ++ n)) dt
  = (Numeral.value n =? (DateTime.weekday dt + 1) mod 7)
  /\ (7 <= Numeral.value n ->
      Scheduler._cron_matches (JStr ("* * * * " ++ n)) dt = false).
Proof.
  intros Hn.
  assert (Scheduler._cron_matches (JStr ("* * * * " ++ n)) dt
          = (Numeral.value n =? (DateTime.weekday dt + 1) mod 7)) as Heq.
  { pose proof (parse_cron_words ["*"; "*"; "*"; "*"; n] " " "" ""
                  ltac:(repeat constructor; by apply numeral_is_word)
                  eq_refl ltac:(discriminate) eq_refl eq_refl) as Hp.
    cbn zeta in Hp. rewrite append_nil_r in Hp.
    change ("" ++ Py.join " " ["*"; "*"; "*"; "*"; n]) with ("* * * * " ++ n) in Hp.
    rewrite (cron_matches_all _ dt _ true true true true
               (Numeral.value n =? (DateTime.weekday dt + 1) mod 7) Hp);
      [done | done | done | done | done |].
    cbn [Cron.day_of_week]. by apply field_number. }
  split; [exact Heq|]. intros Hbig. rewrite Heq. apply Z.eqb_neq.
  pose proof (Z.mod_pos_bound (DateTime.weekday dt + 1) 7 ltac:(lia)). lia.
Qed.

Lemma day_of_week_counts_from_sunday_witness :
  Scheduler._cron_matches (JStr ("* * * * " ++ "7")) Sample.now = false.
Proof.
  refine (proj2 (day_of_week_counts_from_sunday "7" Sample.now eq_refl) _).
  vm_compute. discriminate.
Defined.

(** ** Fields that mix a list and a range *)

Lemma contains_skip_spaces (c : ascii) (s : string) :
  Py.int_space c = false -> Py.contains c (Py.skip_spaces s) = Py.contains c s.
Proof.
  intros Hc. induction s as [|d r IH]; [done|]. cbn [Py.skip_spaces].
  destruct (Py.int_space d) eqn:Hd; [|done]. cbn [Py.contains]. rewrite IH.
  assert (Ascii.eqb c d = false) as -> by (apply Ascii.eqb_neq; congruence). done.
Qed.

(** The digits of a literal stop before a comma. *)
Lemma digits_comma (s : string) (b : bool) (acc n : Z) :
  Py.contains "," s = true ->
  match Py.digits b acc n s with
  | Some (_, _, rest) => Py.all_spaces rest = false
  | None => True
  end.
Proof.
  revert b acc n. induction s as [|c r IH]; intros b acc n; [done|].
  cbn [Py.contains Py.digits]. destruct (Ascii.eqb_spec "," c) as [<-|Hne].
  - intros _. cbn [Py.isdigit Ascii.eqb Bool.eqb]. by destruct b.
  - cbn [orb]. intros Hr. destruct (Py.isdigit c); [by apply IH|].
    destruct (Ascii.eqb c "_"); [destruct b; [done | by apply IH]|].
    destruct b; [done|]. cbn [Py.all_spaces].
    destruct (Py.int_space c); [|done]. cbn [andb].
    clear IH. induction r as [|d r IH]; [done|].
    cbn [Py.contains] in Hr. cbn [Py.all_spaces].
    destruct (Ascii.eqb_spec "," d) as [<-|Hd]; [done|].
    cbn [orb] in Hr. rewrite (IH Hr). by rewrite andb_false_r.
Qed.

(** No integer literal has a comma. *)
Lemma int_comma (s : string) :
  Py.contains "," s = true -> exists x, Py.int s = Raise x.
Proof.
  intros H. unfold Py.int.
  assert (Py.contains "," (Py.skip_spaces s) = true) as Ht
    by (by rewrite contains_skip_spaces).
  destruct (Py.skip_spaces s) as [|c t]; [done|].
  assert (exists sign body,
            match String c t with
            | String "-" r => (-1, r)
            | String "+" r => (1, r)
            | _ => (1, String c t)
            end = (sign, body)
            /\ Py.contains "," body = true) as (sign & body & -> & Hb).
  { destruct c as [[] [] [] [] [] [] [] []];
      (eexists _, _; split; [reflexivity | exact Ht]). }
  destruct (Py.startswith "_" body); [by eexists|].
  pose proof (digits_comma body false 0 0 Hb) as Hd.
  destruct (Py.digits false 0 0 body) as [[[v n] rest]|]; [|by eexists].
  rewrite Hd. destruct (n =? 0); [by eexists|].
  destruct (Py.int_max_str_digits <? n); by eexists.
Qed.

(** [sep.join(s.split(sep))] is [s]. *)
Lemma join_split (sep : ascii) (s : string) :
  Py.join (String sep "") (Py.split sep s) = s.
Proof.
  unfold Py.split. induction s as [|c r IH]; [done|].
  rewrite pieces_cons.
  destruct (Py.pieces (Ascii.eqb sep) r) as [|w ws] eqn:Hp;
    [by apply pieces_nonempty in Hp|].
  destruct (Ascii.eqb_spec sep c) as [<-|Hne].
  - change (Py.join (String sep "") ("" :: w :: ws))
      with (String sep (Py.join (String sep "") (w :: ws))).
    by rewrite IH.
  - destruct ws as [|w' ws'].
    + cbn [Py.join] in IH |- *. by rewrite IH.
    + change (Py.join (String sep "") (String c w :: w' :: ws'))
        with (String c (w ++ String sep "" ++ Py.join (String sep "") (w' :: ws'))).
      change (Py.join (String sep "") (w :: w' :: ws'))
        with (w ++ String sep "" ++ Py.join (String sep "") (w' :: ws')) in IH.
      by rewrite IH.
Qed.

Lemma split_two (sep : ascii) (s a b : string) :
  Py.split sep s = [a; b] -> s = a ++ String sep b.
Proof. intros H. rewrite <- (join_split sep s), H. reflexivity. Qed.

(** A field with a comma and a hyphen matches no value: it is read as a
    range, and one end of the range, or the step, is not an integer. *)
Lemma field_mixed (f : string) (v mx : Z) :
  Py.contains "," f = true -> Py.contains "-" f = true ->
  Cron._cron_field_matches f v mx <> Ok true.
Proof.
  intros Hcomma Hdash. unfold Cron._cron_field_matches.
  destruct (String.eqb_spec f "*") as [->|_]; [discriminate Hcomma|].
  destruct (Py.startswith "*/" f) eqn:Hstar.
  { destruct f as [|c1 [|c2 r]]; try discriminate Hstar.
    - unfold Py.startswith in Hstar. cbn [String.prefix] in Hstar.
      by destruct (ascii_dec "*" c1).
    - unfold Py.startswith in Hstar. cbn [String.prefix] in Hstar.
      destruct (ascii_dec "*" c1) as [<-|]; [|discriminate].
      destruct (ascii_dec "/" c2) as [<-|]; [|discriminate].
      cbn [Py.drop]. by destruct (int_comma r Hcomma) as [x ->]. }
  rewrite Hdash. cbn [andb].
  destruct (Py.contains "/" f) eqn:Hslash; cbn [negb].
  - destruct (Py.split "/" f) as [|range_part [|step [|]]] eqn:Hsplit; try done.
    apply split_two in Hsplit. subst f. cbn [Py.unpack2 mbind result_bind bind].
    destruct (Py.split "-" range_part) as [|start [|end_ [|]]] eqn:Hsplit2; try done.
    apply split_two in Hsplit2. subst range_part.
    cbn [Py.unpack2 mbind result_bind bind].
    rewrite !contains_app in Hcomma. cbn [Py.contains] in Hcomma.
    unfold Cron.in_range.
    destruct (Py.contains "," start) eqn:H1; [by destruct (int_comma start H1) as [x ->]|].
    destruct (Py.int start) as [a|x]; [|done]. cbn [mbind result_bind bind].
    destruct (a <=? v); [|done].
    destruct (Py.contains "," end_) eqn:H2; [by destruct (int_comma end_ H2) as [x ->]|].
    destruct (Py.int end_) as [b|x]; [|done]. cbn [mbind result_bind bind].
    destruct (v <=? b); [|done].
    cbn [Ascii.eqb Bool.eqb orb] in Hcomma.
    by destruct (int_comma step Hcomma) as [x ->].
  - destruct (Py.split "-" f) as [|start [|end_ [|]]] eqn:Hsplit; try done.
    apply split_two in Hsplit. subst f. cbn [Py.unpack2 mbind result_bind bind].
    rewrite !contains_app in Hcomma. cbn [Py.contains] in Hcomma.
    unfold Cron.in_range.
    destruct (Py.contains "," start) eqn:H1; [by destruct (int_comma start H1) as [x ->]|].
    destruct (Py.int start) as [a|x]; [|done]. cbn [mbind result_bind bind].
    destruct (a <=? v); [|done].
    cbn [Ascii.eqb Bool.eqb orb] in Hcomma.
    by destruct (int_comma end_ Hcomma) as [x ->].
Qed.

(** X16. A cron expression of five words one of whose fields has both a
    comma and a hyphen (a list of ranges such as [1-5,10]) passes the
    validation of [add], which counts the fields only, and is never due:
    the matcher reads the field as one range, fails on a bound or on the
    step, and the failure is taken as no match. *)
Theorem list_of_ranges_is_never_due
        (a : Scheduler.args) (ws : list string) (f : string) (dt : DateTime.naive) :
  Forall (fun w => Word.is_word w = true) ws -> length ws = 5%nat ->
  Scheduler.cron a = Some (Py.join " " ws) ->
  f ∈ ws -> Py.contains "," f = true -> Py.contains "-" f = true ->
  Scheduler.validate_cron a = Ok None
  /\ Scheduler._cron_matches (JStr (Py.join " " ws)) dt = false.
Proof.
  intros Hws Hlen Hcron Hf Hcomma Hdash.
  destruct ws as [|p0 [|p1 [|p2 [|p3 [|p4 [|p5 ws]]]]]]; try discriminate Hlen.
  pose proof (parse_cron_words [p0; p1; p2; p3; p4] " " "" "" Hws
                eq_refl ltac:(discriminate) eq_refl eq_refl) as Hp.
  cbn zeta in Hp. rewrite append_nil_r in Hp.
  change ("" ++ Py.join " " [p0; p1; p2; p3; p4])
    with (Py.join " " [p0; p1; p2; p3; p4]) in Hp.
  split.
  - unfold Scheduler.validate_cron. rewrite Hcron.
    destruct (Scheduler.given _); [|done].
    cbn [Scheduler.text_of default from_option id]. by rewrite Hp.
  - destruct (Scheduler._cron_matches _ dt) eqn:Hm; [|done]. exfalso.
    apply cron_matches_inv in Hm as (cron & Hcron' & H1 & H2 & H3 & H4 & H5).
    rewrite Hp in Hcron'. injection Hcron' as <-.
    cbn [Cron.minute Cron.hour Cron.day_of_month Cron.month Cron.day_of_week]
      in H1, H2, H3, H4, H5.
    repeat (apply elem_of_cons in Hf as [->|Hf]);
      [ by apply (field_mixed p0 _ _ Hcomma Hdash) in H1
      | by apply (field_mixed p1 _ _ Hcomma Hdash) in H2
      | by apply (field_mixed p2 _ _ Hcomma Hdash) in H3
      | by apply (field_mixed p3 _ _ Hcomma Hdash) in H4
      | by apply (field_mixed p4 _ _ Hcomma Hdash) in H5
      | by apply elem_of_nil in Hf ].
Qed.

Lemma list_of_ranges_is_never_due_witness :
  Scheduler._cron_matches (JStr (Py.join " " ["0"; "9"; "*"; "*"; "1-5,0"])) Sample.now
  = false.
Proof.
  refine (proj2 (list_of_ranges_is_never_due
                   {| Scheduler.action := "add"; Scheduler.job_id := Some "weekdays";
                      Scheduler.cron := Some (Py.join " " ["0"; "9"; "*"; "*"; "1-5,0"]);
                      Scheduler.run_at := None; Scheduler.once := false;
                      Scheduler.prompt := Some "Review"; Scheduler.system_prompt := None;
                      Scheduler.tools := None; Scheduler.model := None;
                      Scheduler.max_tokens := None; Scheduler.context := None;
                      Scheduler.repository := None |}
                   ["0"; "9"; "*"; "*"; "1-5,0"] "1-5,0" Sample.now
                   _ eq_refl eq_refl _ eq_refl eq_refl)).
  - repeat constructor.
  - in_list.
Defined.

(** * Further properties of the project board *)

(** ** Repository names *)

(** No piece of a split holds the separator. *)
Lemma pieces_clean (sep : ascii) (s : string) :
  Forall (fun p => Py.contains sep p = false) (Py.split sep s).
Proof.
  unfold Py.split. induction s as [|c r IH]; [by repeat constructor|].
  rewrite pieces_cons. destruct (Ascii.eqb sep c) eqn:Hc.
  - by constructor.
  - destruct (Py.pieces (Ascii.eqb sep) r) as [|w ws].
    + constructor; [|constructor]. cbn [Py.contains]. by rewrite Hc.
    + apply Forall_cons in IH as [Hw Hws]. constructor; [|done].
      cbn [Py.contains]. by rewrite Hc, Hw.
Qed.

(** X17. [_parse_repository] returns the owner and the name exactly on the
    strings with one slash: [owner/repo] gives back both parts when neither
    holds a slash, an empty part included, and every string it accepts is of
    that form. *)
Theorem parse_repository_round_trip :
  (forall owner repo,
      Py.contains "/" owner = false -> Py.contains "/" repo = false ->
      Projects._parse_repository (owner ++ "/" ++ repo) = Ok (owner, repo))
  /\ (forall repository owner repo,
        Projects._parse_repository repository = Ok (owner, repo) ->
        repository = owner ++ "/" ++ repo
        /\ Py.contains "/" owner = false /\ Py.contains "/" repo = false).
Proof.
  split.
  - intros owner repo Ho Hr. unfold Projects._parse_repository.
    change (owner ++ "/" ++ repo) with (owner ++ String "/" repo).
    by rewrite split_app, pieces_whole.
  - intros repository owner repo. unfold Projects._parse_repository.
    pose proof (pieces_clean "/" repository) as Hclean.
    destruct (Py.split "/" repository) as [|o [|r [|]]] eqn:Hsplit; try done.
    intros [= <- <-]. apply split_two in Hsplit.
    apply Forall_cons in Hclean as [Ho Hr]. apply Forall_cons in Hr as [Hr _].
    done.
Qed.

Lemma parse_repository_round_trip_witness :
  Projects._parse_repository ("octo" ++ "/" ++ "agent") = Ok ("octo", "agent").
Proof.
  exact (proj1 parse_repository_round_trip "octo" "agent" eq_refl eq_refl).
Defined.

(** ** Bulk updates *)

(** The loop of [_bulk_update_status] with a token: one mutation per id. *)
Lemma bulk_update_loop_spec (e : Projects.env) (project_id : string)
      (item_ids : list string) (status_field_id status_option_id : string)
      (results : Projects.bulk_result) (w : Projects.world) :
  let m item_id :=
    {| Projects.projectId := project_id; Projects.itemId := item_id;
       Projects.fieldId := status_field_id;
       Projects.sent_value := Projects.Text status_option_id;
       Projects.value_type := "singleSelectOptionId" |} in
  Projects._get_github_token e <> "" ->
  Projects.bulk_update_loop e project_id item_ids status_field_id status_option_id
    results w
  = ({| Projects.succeeded :=
          (Projects.succeeded results
             ++ List.filter (fun i => match Projects.refuses w (m i) with
                                      | None => true
                                      | Some _ => false
                                      end) item_ids)%list;
        Projects.failed :=
          (Projects.failed results
             ++ omap (fun i => (fun text => (i ++ ": " ++ text)%string) <$> Projects.refuses w (m i))
                     item_ids)%list |},
     {| Projects.node := Projects.node w; Projects.refuses := Projects.refuses w;
        Projects.sent := (Projects.sent w ++ map m item_ids)%list |}).
Proof.
  intros m Htoken. apply String.eqb_neq in Htoken.
  revert results w. induction item_ids as [|i ids IH]; intros results w.
  - cbn [Projects.bulk_update_loop List.filter omap list_omap map]. rewrite !app_nil_r.
    by destruct results, w.
  - cbn [Projects.bulk_update_loop]. unfold Projects._update_item_field.
    cbn [Projects.value_type existsb String.eqb Ascii.eqb Bool.eqb orb negb].
    rewrite Htoken. fold (m i).
    destruct (Projects.refuses w (m i)) as [text|] eqn:Hm.
    + rewrite IH. cbn [Projects.succeeded Projects.failed Projects.node
                         Projects.refuses Projects.sent List.filter omap list_omap map
                         fmap option_fmap option_map str].
      rewrite Hm. cbn [fmap option_fmap option_map]. by rewrite <- !app_assoc.
    + rewrite IH. cbn [Projects.succeeded Projects.failed Projects.node
                         Projects.refuses Projects.sent List.filter omap list_omap map].
      rewrite Hm. cbn [fmap option_fmap option_map]. by rewrite <- !app_assoc.
Qed.

(** The accepted and the refused elements of a list are all its elements. *)
Lemma partition_lengths {A B C : Type} (f : A -> option B) (g : A -> B -> C)
      (l : list A) :
  (length (List.filter (fun a => match f a with None => true | Some _ => false end) l)
   + length (omap (fun a => g a <$> f a) l) = length l)%nat.
Proof.
  induction l as [|a l IH]; [done|]. cbn [List.filter omap list_omap].
  fold (omap (fun a => g a <$> f a) l).
  destruct (f a); cbn [fmap option_fmap option_map length]; lia.
Qed.

(** X18. With a token, [_bulk_update_status] sends one mutation for each id,
    in order, whether or not an earlier one failed.  The ids whose mutation
    is accepted come out under [success] and the others under [failed], each
    with the error's text, both in the order given: every id is in one list
    and one only. *)
Theorem bulk_update_status_partitions
        (e : Projects.env) (project_id : string) (item_ids : list string)
        (status_field_id status_option_id : string) (w : Projects.world) :
  let m item_id :=
    {| Projects.projectId := project_id; Projects.itemId := item_id;
       Projects.fieldId := status_field_id;
       Projects.sent_value := Projects.Text status_option_id;
       Projects.value_type := "singleSelectOptionId" |} in
  let run := Projects._bulk_update_status e project_id item_ids
               status_field_id status_option_id w in
  Projects._get_github_token e <> "" ->
  Projects.sent run.2 = (Projects.sent w ++ map m item_ids)%list
  /\ Projects.succeeded run.1
     = List.filter (fun i => match Projects.refuses w (m i) with
                             | None => true
                             | Some _ => false
                             end) item_ids
  /\ Projects.failed run.1
     = omap (fun i => (fun text => (i ++ ": " ++ text)%string) <$> Projects.refuses w (m i))
            item_ids
  /\ (length (Projects.succeeded run.1) + length (Projects.failed run.1)
      = length item_ids)%nat.
Proof.
  intros m run Htoken. subst run. unfold Projects._bulk_update_status.
  rewrite bulk_update_loop_spec by done. fold m.
  cbn [fst snd Projects.sent Projects.succeeded Projects.failed app].
  split; [done|]. split; [done|]. split; [done|].
  apply (partition_lengths (fun i => Projects.refuses w (m i))
           (fun i text => (i ++ ": " ++ text)%string)).
Qed.

Lemma bulk_update_status_partitions_witness :
  Projects.succeeded
    (Projects._bulk_update_status Sample.board_env "PVT_board"
       ["PVTI_1"; "PVTI_2"; "PVTI_3"] "PVTSSF_status" "opt_done"
       (Sample.github_with Sample.board)).1
  = ["PVTI_1"; "PVTI_3"].
Proof.
  refine (proj1 (proj2 (bulk_update_status_partitions Sample.board_env "PVT_board"
                          ["PVTI_1"; "PVTI_2"; "PVTI_3"] "PVTSSF_status" "opt_done"
                          (Sample.github_with Sample.board) _))).
  vm_compute. discriminate.
Defined.

(** ** [update_item] on the other field types *)

(** A mutation is refused before it is sent, or sent and then answered. *)
Lemma update_item_field_cases (e : Projects.env) (m : Projects.mutation)
      (w : Projects.world) :
  (exists x, Projects._update_item_field e m w = (Raise x, w))
  \/ (Projects._get_github_token e <> ""
      /\ Projects._update_item_field e m w
         = (match Projects.refuses w m with
            | None => Ok tt
            | Some text => Raise (Exn RequestException text)
            end,
            {| Projects.node := Projects.node w; Projects.refuses := Projects.refuses w;
               Projects.sent := (Projects.sent w ++ [m])%list |})).
Proof.
  unfold Projects._update_item_field.
  destruct (negb (existsb _ _)); [left; by eexists|].
  destruct (String.eqb_spec (Projects._get_github_token e) "") as [|Hne];
    [left; by eexists|].
  right. split; [done|]. by destruct (Projects.refuses w m).
Qed.

(** With a token, a mutation of a valid kind is sent. *)
Lemma update_item_field_sent (e : Projects.env) (m : Projects.mutation)
      (w : Projects.world) :
  Projects._get_github_token e <> "" ->
  Projects.value_type m ∈ ["text"; "number"; "date"; "singleSelectOptionId"; "iterationId"] ->
  Projects._update_item_field e m w
  = (match Projects.refuses w m with
     | None => Ok tt
     | Some text => Raise (Exn RequestException text)
     end,
     {| Projects.node := Projects.node w; Projects.refuses := Projects.refuses w;
        Projects.sent := (Projects.sent w ++ [m])%list |}).
Proof.
  intros Htoken Hkind. unfold Projects._update_item_field.
  apply String.eqb_neq in Htoken. rewrite Htoken.
  assert (existsb (String.eqb (Projects.value_type m))
            ["text"; "number"; "date"; "singleSelectOptionId"; "iterationId"] = true) as ->.
  { repeat (apply elem_of_cons in Hkind as [->|Hkind]); try reflexivity.
    by apply elem_of_nil in Hkind. }
  cbn [negb]. by destruct (Projects.refuses w m).
Qed.

(** X19. On a field that is not a single select, [update_item] sends the
    value as it is given: read by [float] as [number] on a NUMBER field, as
    a [date] string, not checked, on a DATE field, and as [text] on every
    other type.  When [float] fails nothing is sent and the error is
    reported; when [float] returns [inf], [-inf] or [nan] nothing is sent
    either, the request cannot be encoded, and the error of the encoder is
    reported.  A mutation that the API refuses was still sent, and its error
    is reported. *)
Theorem update_item_by_data_type
        (float : string -> result Projects.pyfloat)
        (out_of_range : Projects.pyfloat -> string)
        (e : Projects.env) (w : Projects.world)
        (project_id : option string) (pid item_id field_name v : string)
        (p : Projects.project) (f : Projects.field) (fs1 fs2 : list Projects.field) :
  Projects.resolve_project_id e project_id = Some pid ->
  Projects._get_project e w pid 1 = Ok (Some p) ->
  item_id <> "" -> field_name <> "" ->
  Projects.fields p = (fs1 ++ f :: fs2)%list ->
  Forall (fun f' => Projects.name f' <> field_name) fs1 ->
  Projects.name f = field_name ->
  Projects.dataType f <> "SINGLE_SELECT" ->
  let run := Projects.projects_update_item float out_of_range e project_id
               (Some item_id) (Some field_name) (Some v) w in
  let sending value kind :=
    let m := {| Projects.projectId := pid; Projects.itemId := item_id;
                Projects.fieldId := Projects.id f;
                Projects.sent_value := value; Projects.value_type := kind |} in
    (match Projects.refuses w m with
     | None => Projects.Success
     | Some text => Projects.Failure ("Error: " ++ text)
     end,
     {| Projects.node := Projects.node w; Projects.refuses := Projects.refuses w;
        Projects.sent := (Projects.sent w ++ [m])%list |}) in
  (Projects.dataType f = "NUMBER" ->
   match float v with
   | Ok (Projects.Finite x) => run = sending (Projects.Number x) "number"
   | Ok x => run = (Projects.Failure ("Error: " ++ out_of_range x), w)
   | Raise x => run = (Projects.Failure ("Error: " ++ str x), w)
   end)
  /\ (Projects.dataType f = "DATE" -> run = sending (Projects.Text v) "date")
  /\ (Projects.dataType f <> "NUMBER" -> Projects.dataType f <> "DATE" ->
      run = sending (Projects.Text v) "text").
Proof.
  intros Hpid Hget Hitem Hname Hfs Hfs1 Hf Hss run sending. subst run sending.
  assert (Projects._get_github_token e <> "") as Htoken.
  { unfold Projects._get_project in Hget.
    by destruct (String.eqb_spec (Projects._get_github_token e) ""). }
  unfold Projects.projects_update_item, Projects.update_item. rewrite Hpid.
  cbn [Projects.given Projects.text_of default from_option id].
  apply String.eqb_neq in Hitem as ->. apply String.eqb_neq in Hname as ->.
  cbn [negb orb]. rewrite Hget. cbn [mbind result_bind bind Projects.deref].
  rewrite Hfs, (find_field_first field_name f fs1 fs2 Hfs1 Hf).
  apply String.eqb_neq in Hss as ->. cbn zeta.
  split; [|split].
  - intros Hty. rewrite Hty. cbn [String.eqb Ascii.eqb Bool.eqb].
    destruct (float v) as [[x|negative|]|x]; try reflexivity.
    rewrite update_item_field_sent by (done || (cbn [Projects.value_type]; in_list)).
    by destruct (Projects.refuses w _).
  - intros Hty. rewrite Hty. cbn [String.eqb Ascii.eqb Bool.eqb].
    rewrite update_item_field_sent by (done || (cbn [Projects.value_type]; in_list)).
    by destruct (Projects.refuses w _).
  - intros Hn Hd. apply String.eqb_neq in Hn as ->. apply String.eqb_neq in Hd as ->.
    rewrite update_item_field_sent by (done || (cbn [Projects.value_type]; in_list)).
    by destruct (Projects.refuses w _).
Qed.

Lemma update_item_by_data_type_witness :
  Projects.sent
    (Projects.projects_update_item Sample.float Sample.out_of_range Sample.board_env
       None (Some "PVTI_1") (Some "Estimate") (Some "5") Sample.github).2
  = [ {| Projects.projectId := "PVT_board"; Projects.itemId := "PVTI_1";
         Projects.fieldId := "PVTF_estimate";
         Projects.sent_value := Projects.Number 5;
         Projects.value_type := "number" |} ]
  /\ Projects.projects_update_item Sample.float Sample.out_of_range Sample.board_env
       None (Some "PVTI_1") (Some "Estimate") (Some "inf") Sample.github
     = (Projects.Failure "Error: Out of range float values are not JSON compliant",
        Sample.github).
Proof.
  split.
  - pose proof (proj1 (update_item_by_data_type Sample.float Sample.out_of_range
                         Sample.board_env Sample.github
                         None "PVT_board" "PVTI_1" "Estimate" "5" Sample.board
                         {| Projects.id := "PVTF_estimate"; Projects.name := "Estimate";
                            Projects.dataType := "NUMBER"; Projects.options := None |}
                         [ {| Projects.id := "PVTF_title"; Projects.name := "Title";
                              Projects.dataType := "TITLE"; Projects.options := None |};
                           Sample.status_field ] []
                         eq_refl eq_refl ltac:(discriminate) ltac:(discriminate)
                         eq_refl ltac:(repeat constructor; discriminate) eq_refl
                         ltac:(discriminate)) eq_refl) as H.
    change (Sample.float "5") with (Ok (Projects.Finite 5)) in H. cbv match beta in H.
    rewrite H. reflexivity.
  - exact (proj1 (update_item_by_data_type Sample.float Sample.out_of_range
                    Sample.board_env Sample.github
                    None "PVT_board" "PVTI_1" "Estimate" "inf" Sample.board
                    {| Projects.id := "PVTF_estimate"; Projects.name := "Estimate";
                       Projects.dataType := "NUMBER"; Projects.options := None |}
                    [ {| Projects.id := "PVTF_title"; Projects.name := "Title";
                         Projects.dataType := "TITLE"; Projects.options := None |};
                      Sample.status_field ] []
                    eq_refl eq_refl ltac:(discriminate) ltac:(discriminate)
                    eq_refl ltac:(repeat constructor; discriminate) eq_refl
                    ltac:(discriminate)) eq_refl).
Defined.

(** X20. Whatever its arguments, [update_item] leaves the remote as it was
    or sends one mutation, addressed to the given project and item.  It
    answers with success only when that mutation was sent and accepted. *)
Theorem update_item_sends_at_most_one
        (float : string -> result Projects.pyfloat)
        (out_of_range : Projects.pyfloat -> string) (e : Projects.env)
        (project_id item_id field_name field_value : option string)
        (w : Projects.world) :
  let run := Projects.projects_update_item float out_of_range e project_id
               item_id field_name field_value w in
  (run.2 = w /\ run.1 <> Projects.Success)
  \/ exists m,
       run.2 = {| Projects.node := Projects.node w; Projects.refuses := Projects.refuses w;
                  Projects.sent := (Projects.sent w ++ [m])%list |}
       /\ Some (Projects.projectId m) = Projects.resolve_project_id e project_id
       /\ Projects.itemId m = Projects.text_of item_id
       /\ (run.1 = Projects.Success <-> Projects.refuses w m = None).
Proof.
  intros run. subst run. unfold Projects.projects_update_item.
  destruct (Projects.resolve_project_id e project_id) as [pid|]; [|by left].
  unfold Projects.update_item.
  destruct (_ || _); [by left|].
  destruct (p ← Projects._get_project e w pid 1; Projects.deref p) as [p|x];
    [|by left].
  destruct (Projects.find_field _ _) as [f|]; [|by left]. cbn zeta.
  assert (forall m,
             Projects.projectId m = pid ->
             Projects.itemId m = Projects.text_of item_id ->
             let out :=
               (let '(r, w') :=
                  (let '(r0, w0) := Projects._update_item_field e m w in
                   (_ ← r0; Ok Projects.Success, w0)) in
                (Projects.report r, w')) in
             (out.2 = w /\ out.1 <> Projects.Success)
             \/ exists m,
                  out.2 = {| Projects.node := Projects.node w;
                             Projects.refuses := Projects.refuses w;
                             Projects.sent := (Projects.sent w ++ [m])%list |}
                  /\ Some (Projects.projectId m) = Some pid
                  /\ Projects.itemId m = Projects.text_of item_id
                  /\ (out.1 = Projects.Success <-> Projects.refuses w m = None)) as Hsend.
  { intros m Hp Hi.
    destruct (update_item_field_cases e m w) as [[x ->]|[_ ->]]; cbn zeta.
    - by left.
    - right. exists m. split; [done|]. split; [by rewrite Hp|]. split; [done|].
      by destruct (Projects.refuses w m). }
  destruct (String.eqb (Projects.dataType f) "SINGLE_SELECT").
  { destruct (Projects.find_option _ _) as [o|]; [|by left].
    destruct (String.eqb (Projects.option_id o) ""); [by left|].
    by apply Hsend. }
  destruct (String.eqb (Projects.dataType f) "NUMBER").
  { destruct (float _) as [[x|negative|]|x]; [by apply Hsend | by left ..]. }
  destruct (String.eqb (Projects.dataType f) "DATE"); by apply Hsend.
Qed.

(** ** [get_progress] on contents that cannot be read *)

(** An issue or a pull request that is not archived and whose content is
    null stops the pass. *)
Lemma count_item_unreadable (c : Projects.counters) (it : Projects.item) :
  Projects.readable it = false ->
  Projects.count_item c it
  = Raise (Exn AttributeError "'NoneType' object has no attribute 'get'").
Proof.
  unfold Projects.readable, Projects.count_item, Projects.state_of.
  destruct (Projects.isArchived it); [done|]. cbn [orb].
  destruct (String.eqb (Projects.type it) "ISSUE");
    [|destruct (String.eqb (Projects.type it) "PULL_REQUEST")];
    cbn [orb negb]; destruct (Projects.item_content it) as [[|s]|]; done.
Qed.

Lemma count_item_readable (c : Projects.counters) (it : Projects.item) :
  Projects.readable it = true -> exists c', Projects.count_item c it = Ok c'.
Proof.
  intros Hr. destruct (Projects.isArchived it) eqn:Ha.
  - rewrite count_item_archived by done. by eexists.
  - pose proof (count_item_active c it Ha) as Hact. rewrite Hr in Hact.
    destruct Hact as (c' & -> & _). by eexists.
Qed.

Lemma count_items_unreadable (c : Projects.counters) (its : list Projects.item) :
  forallb Projects.readable its = false ->
  Projects.count_items c its
  = Raise (Exn AttributeError "'NoneType' object has no attribute 'get'").
Proof.
  revert c. induction its as [|it its IH]; intros c; [done|].
  cbn [forallb Projects.count_items]. destruct (Projects.readable it) eqn:Hr.
  - destruct (count_item_readable c it Hr) as [c' ->].
    cbn [andb mbind result_bind bind]. apply IH.
  - intros _. by rewrite count_item_unreadable.
Qed.

Lemma count_items_ends (c : Projects.counters) (its : list Projects.item) :
  forallb Projects.readable its = true ->
  exists c', Projects.count_items c its = Ok c'.
Proof.
  revert c. induction its as [|it its IH]; intros c; [by exists c|].
  cbn [forallb Projects.count_items]. intros [Hr Hrs]%andb_prop.
  destruct (count_item_readable c it Hr) as [c' ->].
  cbn [mbind result_bind bind]. by apply IH.
Qed.

(** X21. With a token, [_get_progress] gives a summary or nothing.  A failed
    request is passed on; a project id that resolves to no node raises
    [AttributeError]; and so does a project one of whose fetched items is an
    issue or a pull request that is not archived and comes with a null
    content, wherever it stands in the list and whatever the other items are.
    Otherwise the summary is returned, with the project's own count of items
    as the total. *)
Theorem get_progress_is_all_or_nothing
        (e : Projects.env) (w : Projects.world) (project_id : string) :
  Projects._get_github_token e <> "" ->
  match Projects.node w project_id 100 with
  | Projects.Failed text =>
      Projects._get_progress e w project_id = Raise (Exn RequestException text)
  | Projects.NoNode =>
      Projects._get_progress e w project_id
      = Raise (Exn AttributeError "'NoneType' object has no attribute 'get'")
  | Projects.Node p =>
      if forallb Projects.readable (Projects.items p)
      then exists pr,
             Projects._get_progress e w project_id = Ok pr
             /\ Projects.total_items pr = Projects.totalCount p
      else Projects._get_progress e w project_id
           = Raise (Exn AttributeError "'NoneType' object has no attribute 'get'")
  end.
Proof.
  intros Htoken%String.eqb_neq.
  unfold Projects._get_progress, Projects._get_project. rewrite Htoken.
  destruct (Projects.node w project_id 100) as [text| |p]; [done|done|].
  cbn [mbind result_bind bind Projects.deref].
  destruct (forallb Projects.readable (Projects.items p)) eqn:Hr.
  - destruct (count_items_ends (Projects.start p) _ Hr) as [c ->].
    by eexists.
  - by rewrite count_items_unreadable.
Qed.

Lemma get_progress_is_all_or_nothing_witness :
  Projects._get_progress Sample.board_env
    (Sample.github_with
       {| Projects.fields := Sample.board_fields;
          Projects.items := (Sample.board_items ++ [Sample.hidden])%list;
          Projects.totalCount := 8 |})
    "PVT_board"
  = Raise (Exn AttributeError "'NoneType' object has no attribute 'get'").
Proof.
  refine (get_progress_is_all_or_nothing Sample.board_env
            (Sample.github_with
               {| Projects.fields := Sample.board_fields;
                  Projects.items := (Sample.board_items ++ [Sample.hidden])%list;
                  Projects.totalCount := 8 |})
            "PVT_board" _).
  vm_compute. discriminate.
Defined.

(** ** The keys of the histogram *)

Lemma hits_cons (k : string) (fv : Projects.field_value)
      (fvs : list Projects.field_value) :
  Projects.hits k (fv :: fvs)
  = Projects.b2z (Projects.is_status fv
                  && String.eqb (Projects.text_of (Projects.value_name fv)) k)
    + Projects.hits k fvs.
Proof.
  unfold Projects.hits, Projects.b2z. cbn [List.filter].
  destruct (_ && _); cbn [length]; lia.
Qed.

Lemma hits_nonneg (k : string) (fvs : list Projects.field_value) :
  0 <= Projects.hits k fvs.
Proof. unfold Projects.hits. lia. Qed.

Lemma status_hits_nonneg (k : string) (its : list Projects.item) :
  0 <= Projects.status_hits k its.
Proof.
  induction its as [|it its IH]; cbn [Projects.status_hits]; [lia|].
  pose proof (hits_nonneg k (Projects.fieldValues it)).
  destruct (Projects.isArchived it); lia.
Qed.

(** The inner loop adds the Status values named [k] to the key [k], and makes
    the key when it meets the first one. *)
Lemma count_status_lookup_any (k : string) (fvs : list Projects.field_value)
      (h : list (string * Z)) :
  Dict.lookup k (Projects.count_status fvs h)
  = match Dict.lookup k h with
    | Some n => Some (n + Projects.hits k fvs)
    | None => if Projects.hits k fvs =? 0 then None else Some (Projects.hits k fvs)
    end.
Proof.
  revert h. induction fvs as [|fv fvs IH]; intros h.
  - cbn [Projects.count_status]. change (Projects.hits k []) with 0.
    destruct (Dict.lookup k h); [f_equal; lia | done].
  - rewrite hits_cons. cbn [Projects.count_status].
    pose proof (hits_nonneg k fvs) as Hpos.
    destruct (Projects.is_status fv); cbn [andb].
    + rewrite IH, lookup_set.
      rewrite (String.eqb_sym (Projects.text_of (Projects.value_name fv)) k).
      destruct (String.eqb_spec k (Projects.text_of (Projects.value_name fv)))
        as [<-|Hne]; cbn [Projects.b2z].
      * destruct (Dict.lookup k h) as [n|]; cbn [default from_option id].
        -- f_equal. lia.
        -- destruct (Z.eqb_spec (1 + Projects.hits k fvs) 0); [lia|]. f_equal; lia.
      * by rewrite Z.add_0_l.
    + rewrite IH. cbn [Projects.b2z]. by rewrite Z.add_0_l.
Qed.

(** The pass over readable items does the same with the Status values of the
    items that are not archived. *)
Lemma count_items_histogram (c : Projects.counters) (its : list Projects.item) :
  Forall (fun it => Projects.readable it = true) its ->
  exists c',
    Projects.count_items c its = Ok c'
    /\ forall k,
         Dict.lookup k (Projects.status_counts c')
         = match Dict.lookup k (Projects.status_counts c) with
           | Some n => Some (n + Projects.status_hits k its)
           | None => if Projects.status_hits k its =? 0 then None
                     else Some (Projects.status_hits k its)
           end.
Proof.
  intros H. revert c. induction H as [|it its Hit _ IH]; intros c.
  - exists c. split; [done|]. intros k. cbn [Projects.status_hits].
    destruct (Dict.lookup k _); [f_equal; lia | done].
  - cbn [Projects.count_items Projects.status_hits].
    destruct (Projects.isArchived it) eqn:Harch.
    + rewrite (count_item_archived c it Harch). cbn [mbind result_bind bind].
      destruct (IH (Projects.with_archived (Projects.archived c + 1) c))
        as (c' & -> & G).
      exists c'. split; [done|]. intros k. rewrite (G k).
      cbn [Projects.with_archived Projects.status_counts]. by rewrite Z.add_0_l.
    + pose proof (count_item_active c it Harch) as Hact. rewrite Hit in Hact.
      destruct Hact as (c1 & -> & _ & H2 & _).
      cbn [mbind result_bind bind].
      destruct (IH c1) as (c' & -> & G).
      exists c'. split; [done|]. intros k. rewrite (G k), H2, count_status_lookup_any.
      pose proof (hits_nonneg k (Projects.fieldValues it)) as Hf.
      pose proof (status_hits_nonneg k its) as Hs.
      destruct (Dict.lookup k (Projects.status_counts c)) as [n|].
      * f_equal. lia.
      * destruct (Z.eqb_spec (Projects.hits k (Projects.fieldValues it)) 0) as [Hz|Hz].
        -- by rewrite Hz, Z.add_0_l.
        -- destruct (Z.eqb_spec (Projects.hits k (Projects.fieldValues it)
                                 + Projects.status_hits k its) 0); [lia|done].
Qed.

(** The histogram starts with the declared options at zero, and no other key. *)
Lemma declare_lookup (k : string) (os : list Projects.select_option)
      (h : list (string * Z)) :
  Dict.lookup k (Projects.declare os h)
  = if existsb (fun o => String.eqb (Projects.option_name o) k) os then Some 0
    else Dict.lookup k h.
Proof.
  revert h. induction os as [|o os IH]; intros h; [done|].
  cbn [Projects.declare existsb]. rewrite IH, lookup_set.
  rewrite (String.eqb_sym (Projects.option_name o) k).
  destruct (existsb _ os); [by rewrite orb_true_r|]. by rewrite orb_false_r.
Qed.

(** X22. The keys of [by_status] are the options the Status field declares
    and the Status values found on the items that are not archived, and no
    others: a value that is not among the options gets a key of its own.
    Under each key stands the number of Status values of that name on those
    items, archived items not counted. *)
Theorem by_status_keys
        (e : Projects.env) (w : Projects.world) (project_id : string)
        (p : Projects.project) :
  Projects._get_project e w project_id 100 = Ok (Some p) ->
  Forall (fun it => Projects.readable it = true) (Projects.items p) ->
  exists pr,
    Projects._get_progress e w project_id = Ok pr
    /\ forall k,
         Dict.lookup k (Projects.by_status pr)
         = if existsb (fun o => String.eqb (Projects.option_name o) k)
                      (Projects.status_options p)
              || negb (Projects.status_hits k (Projects.items p) =? 0)
           then Some (Projects.status_hits k (Projects.items p))
           else None.
Proof.
  intros Hget Hread. unfold Projects._get_progress. rewrite Hget.
  cbn [mbind result_bind bind Projects.deref].
  destruct (count_items_histogram (Projects.start p) _ Hread) as (c & -> & G).
  eexists. split; [reflexivity|]. intros k.
  cbn [Projects.summary Projects.by_status]. rewrite (G k).
  cbn [Projects.start Projects.status_counts]. rewrite declare_lookup.
  destruct (existsb _ (Projects.status_options p)); cbn [orb Dict.lookup].
  - by rewrite Z.add_0_l.
  - by destruct (Projects.status_hits k (Projects.items p) =? 0).
Qed.

Lemma by_status_keys_witness :
  exists pr,
    Projects._get_progress Sample.board_env
      (Sample.github_with
         {| Projects.fields := Sample.board_fields;
            Projects.items :=
              [ Sample.entry false "ISSUE" "OPEN" ["Blocked"];
                Sample.entry true "ISSUE" "OPEN" ["Stale"];
                Sample.entry false "DRAFT_ISSUE" "" ["Blocked"; "Done"] ];
            Projects.totalCount := 3 |})
      "PVT_board" = Ok pr
    /\ Dict.lookup "Blocked" (Projects.by_status pr) = Some 2
    /\ Dict.lookup "Stale" (Projects.by_status pr) = None
    /\ Dict.lookup "Todo" (Projects.by_status pr) = Some 0.
Proof.
  destruct (by_status_keys Sample.board_env
              (Sample.github_with
                 {| Projects.fields := Sample.board_fields;
                    Projects.items :=
                      [ Sample.entry false "ISSUE" "OPEN" ["Blocked"];
                        Sample.entry true "ISSUE" "OPEN" ["Stale"];
                        Sample.entry false "DRAFT_ISSUE" "" ["Blocked"; "Done"] ];
                    Projects.totalCount := 3 |})
              "PVT_board"
              {| Projects.fields := Sample.board_fields;
                 Projects.items :=
                   [ Sample.entry false "ISSUE" "OPEN" ["Blocked"];
                     Sample.entry true "ISSUE" "OPEN" ["Stale"];
                     Sample.entry false "DRAFT_ISSUE" "" ["Blocked"; "Done"] ];
                 Projects.totalCount := 3 |}
              eq_refl) as (pr & Hpr & Hkeys).
  { repeat constructor. }
  exists pr. split; [exact Hpr|].
  split; [exact (Hkeys "Blocked")|]. split; [exact (Hkeys "Stale")|].
  exact (Hkeys "Todo").
Defined.
